(** * web3-ethersjs: wallet session, vault client and ERC-20 hooks

    A shallow embedding of the hooks [useWeb3], [useVault], [useERC20Balance]
    and of the gas-estimating [handleTransfer] of [App.tsx], followed by the
    properties of the wallet-and-contract interaction layer.

    Conventions.
    - A JavaScript [number] holding an integer and a [bigint] are both [Z].
    - [null] and [undefined] are [None].
    - An [async] function is a computation in the monad [M]: it threads the
      React state of its hook and the history of the requests that reached
      the injected provider, and ends in a value or in a thrown error. A
      call that ethers refuses by itself throws and leaves no request.
    - The provider, the chain and the user are the [world]: one oracle per
      kind of request, each of which sees the history of earlier requests. *)

From Stdlib Require Import ZArith QArith Qabs List String Ascii Lia Bool.
From Stdlib Require DecimalString HexadecimalString DecimalN HexadecimalN.
From stdpp Require Import base option list gmap strings.

Local Open Scope string_scope.
Local Open Scope Z_scope.

(** ** JavaScript values shared by all hooks *)

Module Js.

(** The [code] property of a thrown value: absent on a plain [Error],
    a number on EIP-1193 provider errors, a string on ethers errors. *)
Inductive error_code :=
| NoCode
| NumCode (n : Z)
| StrCode (s : string).

Record error := Error_ { code : error_code; message : string }.

(** [new Error(msg)] *)
Definition Error (msg : string) : error := Error_ NoCode msg.

Definition result (A : Type) : Type := (error + A)%type.

Definition code_is_num (e : error) (n : Z) : bool :=
  match code e with NumCode k => k =? n | _ => false end.

Definition code_is_str (e : error) (s : string) : bool :=
  match code e with StrCode k => String.eqb k s | _ => false end.

(** Truthiness of a [string | null]: [null] and the empty string are falsy. *)
Definition truthy_str (o : option string) : bool :=
  match o with
  | None => false
  | Some s => negb (String.eqb s EmptyString)
  end.

(** Truthiness of an object handle. *)
Definition truthy_obj {A} (o : option A) : bool :=
  match o with None => false | Some _ => true end.

(** [`${n}`] for an integer [n]. *)
Definition show_int (n : Z) : string :=
  DecimalString.NilZero.string_of_int (Z.to_int n).

(** [n.toString(16)] for an integer [n]. *)
Definition toString16 (n : Z) : string :=
  let digits := HexadecimalString.NilZero.string_of_uint (N.to_hex_uint (Z.abs_N n)) in
  if n <? 0 then "-" +:+ digits else digits.

Definition lower_ascii (c : ascii) : ascii :=
  let n := nat_of_ascii c in
  if ((65 <=? n) && (n <=? 90))%nat then ascii_of_nat (n + 32) else c.

(** [s.toLowerCase()] on the ASCII range, which covers hex addresses. *)
Fixpoint toLowerCase (s : string) : string :=
  match s with
  | EmptyString => EmptyString
  | String c r => String (lower_ascii c) (toLowerCase r)
  end.

End Js.

(** ** The parts of ethers the hooks call *)

Module Ethers.
Import Js.

Definition is_digit (c : ascii) : bool :=
  let n := nat_of_ascii c in ((48 <=? n) && (n <=? 57))%nat.

Definition digit_value (c : ascii) : Z := Z.of_nat (nat_of_ascii c) - 48.

(** The longest prefix of digits, and what follows it. *)
Fixpoint span_digits (s : string) : string * string :=
  match s with
  | String c r =>
      if is_digit c then let '(d, t) := span_digits r in (String c d, t)
      else (EmptyString, s)
  | EmptyString => (EmptyString, EmptyString)
  end.

Fixpoint all_digits (s : string) : bool :=
  match s with
  | EmptyString => true
  | String c r => is_digit c && all_digits r
  end.

Fixpoint digits_value (acc : Z) (s : string) : Z :=
  match s with
  | EmptyString => acc
  | String c r => digits_value (10 * acc + digit_value c) r
  end.

(** The value of a [Decimal.uint] read from the left, as [digits_value]
    reads a string. *)
Fixpoint uint_value (acc : Z) (u : Decimal.uint) : Z :=
  match u with
  | Decimal.Nil => acc
  | Decimal.D0 r => uint_value (10 * acc + 0) r
  | Decimal.D1 r => uint_value (10 * acc + 1) r
  | Decimal.D2 r => uint_value (10 * acc + 2) r
  | Decimal.D3 r => uint_value (10 * acc + 3) r
  | Decimal.D4 r => uint_value (10 * acc + 4) r
  | Decimal.D5 r => uint_value (10 * acc + 5) r
  | Decimal.D6 r => uint_value (10 * acc + 6) r
  | Decimal.D7 r => uint_value (10 * acc + 7) r
  | Decimal.D8 r => uint_value (10 * acc + 8) r
  | Decimal.D9 r => uint_value (10 * acc + 9) r
  end.

Fixpoint all_zero (s : string) : bool :=
  match s with
  | EmptyString => true
  | String c r => Ascii.eqb c "0" && all_zero r
  end.

Fixpoint zeros (n : nat) : string :=
  match n with
  | O => EmptyString
  | S k => String "0" (zeros k)
  end.

(** [s.substring(0, n)] *)
Fixpoint take (n : nat) (s : string) : string :=
  match n, s with
  | S k, String c r => String c (take k r)
  | _, _ => EmptyString
  end.

(** [s.substring(n)] *)
Fixpoint drop (n : nat) (s : string) : string :=
  match n, s with
  | S k, String _ r => drop k r
  | _, _ => s
  end.

(** The three groups of the pattern of a decimal literal: an optional
    minus sign, the digits before the point, the digits after it. The
    point is optional and nothing may follow the last digit. *)
Definition match_decimal (value : string) : option (bool * string * string) :=
  let '(neg, body) :=
    match value with
    | String "-" r => (true, r)
    | _ => (false, value)
    end in
  let '(whole, rest) := span_digits body in
  let rest' := match rest with String "." r => r | _ => rest end in
  let '(frac, tail) := span_digits rest' in
  match tail with
  | EmptyString => Some (neg, whole, frac)
  | _ => None
  end.

(** The messages of the errors that ethers raises are kept to their
    sentence; ethers appends the arguments of the call and its version. *)
Definition too_many_decimals : error :=
  Error_ (StrCode "INVALID_ARGUMENT") "invalid FixedNumber decimals (too large)".

(** [parseUnits(value, decimals)], that is
    [FixedNumber.fromString(value, {decimals, width: 512}).value]:
    the string is split at the point, a format of more than 80 decimals is
    refused, the fraction is padded to [decimals] digits, any digit beyond
    them has to be zero, and the digits are read as one integer of at most
    512 bits. *)
Definition parseUnits (value : string) (decimals : nat) : result Z :=
  match match_decimal value with
  | None => inl (Error_ (StrCode "INVALID_ARGUMENT") "invalid FixedNumber string value")
  | Some (neg, whole, frac) =>
      if (String.length whole + String.length frac =? 0)%nat
      then inl (Error_ (StrCode "INVALID_ARGUMENT") "invalid FixedNumber string value")
      else if (80 <? decimals)%nat then inl too_many_decimals
      else
        let padded := frac +:+ zeros (decimals - String.length frac) in
        if negb (all_zero (drop decimals padded))
        then inl (Error_ (StrCode "NUMERIC_FAULT") "too many decimals for format")
        else
          let magnitude := digits_value 0 (whole +:+ take decimals padded) in
          let v := if neg then - magnitude else magnitude in
          if (v <? - 2 ^ 511) || (2 ^ 511 <=? v)
          then inl (Error_ (StrCode "NUMERIC_FAULT") "overflow")
          else inr v
  end.

(** [n.toString()] for a [bigint]. *)
Definition show_bigint (n : Z) : string := show_int n.

(** Drop the zeros that end a fraction, keeping one digit:
    [while (str[str.length - 1] === "0" && str[str.length - 2] !== ".")]. *)
Fixpoint trim_fraction (frac : string) : string :=
  match frac with
  | EmptyString => EmptyString
  | String c r =>
      match r with
      | EmptyString => String c EmptyString
      | _ => if all_zero r then String c EmptyString else String c (trim_fraction r)
      end
  end.

(** [toString(val, decimals)] of ethers' fixed-point numbers: the digits
    of [value] with a point [decimals] places from the right; no point when
    [decimals] is 0; one fraction digit at least otherwise. *)
Definition toString (value : Z) (decimals : nat) : string :=
  let negative := if value <? 0 then "-" else EmptyString in
  let str := show_bigint (Z.abs value) in
  match decimals with
  | O => negative +:+ str
  | S _ =>
      let padded := zeros (S decimals - String.length str) +:+ str in
      let index := (String.length padded - decimals)%nat in
      negative +:+ take index padded +:+ "." +:+ trim_fraction (drop index padded)
  end.

(** [formatUnits(value, decimals)], that is
    [FixedNumber.fromValue(value, decimals, {decimals, width: 512}).toString()]:
    a format of more than 80 decimals and a value that does not fit 512
    signed bits are refused; otherwise the digits are written. *)
Definition formatUnits (value : Z) (decimals : nat) : result string :=
  if (80 <? decimals)%nat then inl too_many_decimals
  else if (value <? - 2 ^ 511) || (2 ^ 511 <=? value)
  then inl (Error_ (StrCode "NUMERIC_FAULT") "overflow")
  else inr (toString value decimals).

(** The ABI encoding of a [uint256] argument, which a contract call makes
    before anything is sent: a value outside [0 .. 2^256 - 1] is refused.
    The value is returned as it is. *)
Definition uint256 (value : Z) : result Z :=
  if (value <? 0) || (2 ^ 256 <=? value)
  then inl (Error_ (StrCode "INVALID_ARGUMENT") "value out-of-bounds")
  else inr value.

(** [toQuantity(value)], the hexadecimal form in which the [value] of a
    transaction goes to the wallet: a negative one is refused. *)
Definition toQuantity (value : Z) : result Z :=
  if value <? 0
  then inl (Error_ (StrCode "NUMERIC_FAULT") "unsigned value cannot be negative")
  else inr value.

(** What a contract built on a provider, not on a signer, throws when one
    of its state-changing methods is called. *)
Definition no_sending_runner : error :=
  Error_ (StrCode "UNSUPPORTED_OPERATION")
         "contract runner does not support sending transactions".

(** What [tx.wait()] throws for a transaction that was mined and reverted. *)
Definition execution_reverted : error :=
  Error_ (StrCode "CALL_EXCEPTION") "transaction execution reverted".

(** [s] starts with [p]. *)
Fixpoint starts_with (p s : string) : bool :=
  match p, s with
  | EmptyString, _ => true
  | String a p', String b s' => Ascii.eqb a b && starts_with p' s'
  | String _ _, EmptyString => false
  end.

(** What follows the first occurrence of [p] in [s], if there is one. *)
Fixpoint after (p s : string) : option string :=
  if starts_with p s then Some (drop (String.length p) s)
  else
    match s with
    | EmptyString => None
    | String _ r => after p r
    end.

Definition contains (p s : string) : bool :=
  match after p s with Some _ => true | None => false end.

(** [/the method .* does not exist/i] on a message in lower case. *)
Definition names_missing_method (message : string) : bool :=
  match after "the method " message with
  | Some rest => contains " does not exist" rest
  | None => false
  end.

(** What [BrowserProvider.send] throws when the wallet rejects a request
    with [e]. The rejection of the wallet is not passed on: ethers throws
    an error of its own, whose [code] is one of its strings and which keeps
    the rejection in a field of its [info]. The user's refusal, EIP-1193
    code 4001 or a message that says [user denied], becomes
    [ACTION_REJECTED]; a message that names a missing method becomes
    [UNSUPPORTED_OPERATION]; every other rejection, the code 4902 among
    them, becomes [UNKNOWN_ERROR]. This is the classification for the
    methods the hooks send: [eth_requestAccounts] and the two [wallet_]
    methods. The [details] field of a rejection, which ethers also reads
    for a missing method, is not kept by the model. *)
Definition getRpcError (e : error) : error :=
  let message := toLowerCase (message e) in
  if code_is_num e 4001 || contains "user denied" message
     || contains "ethers-user-denied" message
  then Error_ (StrCode "ACTION_REJECTED") "user rejected action"
  else if names_missing_method message
  then Error_ (StrCode "UNSUPPORTED_OPERATION") "unsupported operation"
  else Error_ (StrCode "UNKNOWN_ERROR") "could not coalesce error".

End Ethers.

(** ** JavaScript numbers: IEEE-754 binary64 *)

Module Number.
Import Js.

(** A [number]. A finite one is kept as the rational it denotes; the two
    zeros are not told apart, which [===] and [<] do not do either. *)
Inductive number :=
| NaN
| Infinity (negative : bool)
| Finite (q : Q).

(** The integer nearest to [n / d], for [0 < d]; a tie goes to the even one. *)
Definition round_half_even (n d : Z) : Z :=
  let q := n / d in
  let r := n mod d in
  match 2 * r ?= d with
  | Lt => q
  | Gt => q + 1
  | Eq => if Z.even q then q else q + 1
  end.

(** [n / d / 2^e] as a fraction of integers. *)
Definition scale2 (n d e : Z) : Z * Z :=
  if 0 <=? e then (n, d * 2 ^ e) else (n * 2 ^ (- e), d).

(** The integer [k] with [2^k <= n / d < 2^(k+1)], for [0 < n] and [0 < d]. *)
Definition floor_log2 (n d : Z) : Z :=
  let k := Z.log2 n - Z.log2 d in
  let '(n', d') := scale2 n d k in
  if d' <=? n' then k else k - 1.

(** [2^k <= n / d] *)
Definition ratio_ge (n d k : Z) : bool :=
  let '(n', d') := scale2 n d k in d' <=? n'.

(** [m * 2^e] as a rational in lowest terms. *)
Definition dyadic (m e : Z) : Q :=
  Qred (if 0 <=? e then Qmake (m * 2 ^ e) 1 else Qmake m (Z.to_pos (2 ^ (- e)))).

(** The binary64 number nearest to [n / d], for [0 < n] and [0 < d]:
    53 significant bits, subnormal below [2^-1022], infinite from
    [2^1024] on, ties to the even significand. *)
Definition round64_pos (n d : Z) : number :=
  let e := Z.max (floor_log2 n d - 52) (- 1074) in
  let '(n', d') := scale2 n d e in
  let m := round_half_even n' d' in
  if (971 <? e) || ((e =? 971) && (m =? 2 ^ 53)) then Infinity false
  else Finite (dyadic m e).

Definition neg (x : number) : number :=
  match x with
  | NaN => NaN
  | Infinity b => Infinity (negb b)
  | Finite q => Finite (Qopp q)
  end.

(** The Number value of the rational [n / d], for [0 < d]. *)
Definition round64 (n d : Z) : number :=
  match n with
  | Z0 => Finite 0
  | Zpos _ => round64_pos n d
  | Zneg _ => neg (round64_pos (- n) d)
  end.

(** [x === y] *)
Definition strict_eq (x y : number) : bool :=
  match x, y with
  | Finite a, Finite b => Qeq_bool a b
  | Infinity a, Infinity b => Bool.eqb a b
  | _, _ => false
  end.

(** [x < y] *)
Definition lt (x y : number) : bool :=
  match x, y with
  | NaN, _ | _, NaN => false
  | Finite a, Finite b => negb (Qle_bool b a)
  | Infinity true, Infinity true => false
  | Infinity true, _ => true
  | _, Infinity false => match x with Infinity false => false | _ => true end
  | _, _ => false
  end.

(** The literals [0], [1] and [0.0001] of the source. *)
Definition lit_0 : number := Finite 0.
Definition lit_1 : number := Finite 1.
Definition lit_0_0001 : number := round64 1 10000.

(** The exponent part of a literal: [e] or [E], a sign, digits. Without a
    digit there is no exponent part. *)
Definition exponent_part (s : string) : Z :=
  match s with
  | String c r =>
      if Ascii.eqb c "e" || Ascii.eqb c "E" then
        let '(negative, body) :=
          match r with
          | String "-" t => (true, t)
          | String "+" t => (false, t)
          | _ => (false, r)
          end in
        let '(ds, _) := Ethers.span_digits body in
        let v := Ethers.digits_value 0 ds in
        if negative then - v else v
      else 0
  | EmptyString => 0
  end.

(** The number that an unsigned decimal literal at the start of [body]
    denotes: digits, a point, digits, an exponent part; whatever follows the
    literal is ignored, and without a digit the result is [NaN]. *)
Definition parse_unsigned (body : string) : number :=
  let '(whole, rest) := Ethers.span_digits body in
  let '(frac, rest') :=
    match rest with
    | String "." r => Ethers.span_digits r
    | _ => (EmptyString, rest)
    end in
  if (String.length whole + String.length frac =? 0)%nat then NaN
  else
    let mant := Ethers.digits_value 0 (whole +:+ frac) in
    let ex := exponent_part rest' - Z.of_nat (String.length frac) in
    if 0 <=? ex then round64 (mant * 10 ^ ex) 1
    else round64 mant (10 ^ (- ex)).

(** [parseFloat(s)] for a string that starts with a decimal literal, signed
    or not. Leading blanks and the word [Infinity], which [formatUnits]
    never writes, are not read. *)
Definition parseFloat (s : string) : number :=
  match s with
  | String "-" r => neg (parse_unsigned r)
  | String "+" r => parse_unsigned r
  | _ => parse_unsigned s
  end.

Definition digit_char (d : Z) : ascii := ascii_of_nat (48 + Z.to_nat d).

(** The last [w] decimal digits of [n], zeros included. *)
Fixpoint fixed_width (w : nat) (n : Z) : list ascii :=
  match w with
  | O => []
  | S k => (fixed_width k (n / 10) ++ [digit_char (n mod 10)])%list
  end.

(** The decimal digits of a natural number. *)
Definition digits_of (n : Z) : list ascii :=
  list_ascii_of_string (DecimalString.NilZero.string_of_uint (N.to_uint (Z.to_N n))).

(** The integer nearest to [q * 10^f]; a tie goes up, as [toFixed] and the
    [halfExpand] rounding of [Intl.NumberFormat] have it for [0 <= q].
    [toFixed] rounds the number itself, [Intl.NumberFormat] the decimal
    that stands for it. *)
Definition scaled_round (q : Q) (f : nat) : Z :=
  let n := Qnum q * 10 ^ Z.of_nat f in
  let d := Zpos (Qden q) in
  (2 * n + d) / (2 * d).

(** [x.toFixed(f)]: fixed notation with exactly [f] digits after the
    point. From [10^21] on JavaScript changes to exponent notation;
    the model writes fixed notation there too. *)
Definition toFixed (x : number) (f : nat) : string :=
  match x with
  | NaN => "NaN"
  | Infinity b => if b then "-Infinity" else "Infinity"
  | Finite q =>
      let negative := negb (Qle_bool 0 q) in
      let n := scaled_round (Qabs q) f in
      let whole := digits_of (n / 10 ^ Z.of_nat f) in
      let body :=
        match f with
        | O => whole
        | S _ => (whole ++ ["."%char] ++ fixed_width f n)%list
        end in
      string_of_list_ascii (if negative then "-"%char :: body else body)
  end.

(** Commas between groups of three digits; [l] holds the digits from the
    last to the first and [k] counts the digits since the last comma. *)
Fixpoint group_rev (l : list ascii) (k : nat) : list ascii :=
  match l with
  | [] => []
  | c :: r =>
      match r with
      | [] => [c]
      | _ => if (k =? 2)%nat then c :: ","%char :: group_rev r 0
             else c :: group_rev r (S k)
      end
  end.

Definition group3 (digits : list ascii) : list ascii :=
  rev (group_rev (rev digits) 0).

Fixpoint drop_zeros (l : list ascii) : list ascii :=
  match l with
  | c :: r => if Ascii.eqb c "0" then drop_zeros r else l
  | [] => []
  end.

Definition strip_trailing_zeros (l : list ascii) : list ascii :=
  rev (drop_zeros (rev l)).

(** [10^e <= n / d], for [0 < n] and [0 < d]. *)
Definition ge_pow10 (n d e : Z) : bool :=
  if 0 <=? e then d * 10 ^ e <=? n else d <=? n * 10 ^ (- e).

Fixpoint climb (fuel : nat) (n d e : Z) : Z :=
  match fuel with
  | O => e
  | S k => if ge_pow10 n d (e + 1) then climb k n d (e + 1) else e
  end.

(** The integer [e] with [10^e <= n / d < 10^(e+1)], for [0 < n] and
    [0 < d]: searched upwards from an estimate that the binary logarithms
    put at most a handful of steps below it. *)
Definition floor_log10 (n d : Z) : Z :=
  climb 8 n d ((Z.log2 n - Z.log2 d - 1) * 30103 / 100000 - 2).

(** [s * 10^p] *)
Definition decimal (s p : Z) : Q :=
  if 0 <=? p then inject_Z (s * 10 ^ p) else Qmake s (Z.to_pos (10 ^ (- p))).

(** The decimal [s * 10^p] denotes the number [q]: it is the number
    nearest to it. *)
Definition reads_as (s p : Z) (q : Q) : bool :=
  strict_eq (if 0 <=? p then round64 (s * 10 ^ p) 1 else round64 s (10 ^ (- p)))
            (Finite q).

(** The decimal of [k] digits that denotes [q], for [10^e <= q < 10^(e+1)]:
    one of the two multiples of [10^(e-k+1)] around [q]; of two that denote
    [q] the nearer one, and the even one when they are as near. *)
Definition with_digits (q : Q) (e k : Z) : option (Z * Z) :=
  let p := e - k + 1 in
  let '(tn, td) :=
    if 0 <=? p then (Qnum q, Zpos (Qden q) * 10 ^ p)
    else (Qnum q * 10 ^ (- p), Zpos (Qden q)) in
  let lo := tn / td in
  let hi := lo + 1 in
  match reads_as lo p q, reads_as hi p q with
  | true, true =>
      match 2 * tn ?= (2 * lo + 1) * td with
      | Lt => Some (lo, p)
      | Gt => Some (hi, p)
      | Eq => Some (if Z.even lo then lo else hi, p)
      end
  | true, false => Some (lo, p)
  | false, true => Some (hi, p)
  | false, false => None
  end.

Fixpoint shortest_from (fuel : nat) (q : Q) (e k : Z) : Z * Z :=
  match fuel with
  | O =>
      let p := e - k + 1 in
      if 0 <=? p then (round_half_even (Qnum q) (Zpos (Qden q) * 10 ^ p), p)
      else (round_half_even (Qnum q * 10 ^ (- p)) (Zpos (Qden q)), p)
  | S fuel' =>
      match with_digits q e k with
      | Some sp => sp
      | None => shortest_from fuel' q e (k + 1)
      end
  end.

(** The decimal that stands for a number [0 < q] when it is written out:
    the one with the fewest digits that denotes [q], which has 17 digits at
    most. These are the digits of [String(q)], and the digits that
    [Intl.NumberFormat] rounds and groups. *)
Definition shortest_decimal (q : Q) : Q :=
  match Qnum q with
  | Zpos _ =>
      let '(s, p) := shortest_from 16 q (floor_log10 (Qnum q) (Zpos (Qden q))) 1 in
      decimal s p
  | _ => q
  end.

(** [x.toLocaleString("en-US", { maximumFractionDigits: f })]: the decimal
    that stands for [x], rounded to [f] fraction digits with ties away from
    zero, the integer part grouped by three, the zeros that end the
    fraction dropped, and no point before an empty fraction. *)
Definition toLocaleString (x : number) (f : nat) : string :=
  match x with
  | NaN => "NaN"
  | Infinity b => if b then "-∞" else "∞"
  | Finite q =>
      let negative := negb (Qle_bool 0 q) in
      let n := scaled_round (shortest_decimal (Qabs q)) f in
      let whole := group3 (digits_of (n / 10 ^ Z.of_nat f)) in
      let frac := strip_trailing_zeros (fixed_width f n) in
      let body :=
        match frac with
        | [] => whole
        | _ => (whole ++ ["."%char] ++ frac)%list
        end in
      string_of_list_ascii (if negative then "-"%char :: body else body)
  end.

(** No character of [l] is the decimal point. *)
Definition no_point (l : list ascii) : Prop := Forall (fun c => c <> "."%char) l.

(** The four cases that [balanceDisplay] tells apart, in its order. *)
Inductive band := Zero | Dust | BelowOne | FromOne.

Definition band_of (num : number) : band :=
  if strict_eq num lit_0 then Zero
  else if lt num lit_0_0001 then Dust
  else if lt num lit_1 then BelowOne
  else FromOne.

(** The number of characters after the first point of [s]; 0 without one. *)
Fixpoint fraction_digits (s : string) : nat :=
  match s with
  | EmptyString => O
  | String c r => if Ascii.eqb c "." then String.length r else fraction_digits r
  end.

End Number.

(** ** The injected provider and the contracts behind it *)

Module Provider.
Import Js.

Definition address := string.

(** A [JsonRpcSigner]. *)
Record signer := Signer { signer_address : address }.

(** A [TransactionResponse]. *)
Record tx := Tx { tx_hash : string }.

(** A [TransactionReceipt]. *)
Record receipt := Receipt { receipt_hash : string; receipt_status : Z }.

(** The parameter of [wallet_addEthereumChain]. *)
Record add_chain_params := AddChain {
  add_chainId : option Z;
  add_chainName : string;
  add_currencyName : string;
  add_currencySymbol : string;
  add_currencyDecimals : Z;
  add_rpcUrls : list string;
  add_blockExplorerUrls : list string
}.

(** Every request the hooks send to the provider or to a contract. *)
Inductive request :=
| EthRequestAccounts
| GetNetwork
| GetSigner
| WalletSwitchEthereumChain (hexChainId : string)
| WalletAddEthereumChain (params : add_chain_params)
| Erc20Name (token : address)
| Erc20Symbol (token : address)
| Erc20Decimals (token : address)
| Erc20BalanceOf (token owner : address)
| Erc20Approve (token spender : address) (amount : Z)
| Erc20Transfer (token to : address) (amount : Z) (gasLimit : option Z)
| Erc20TransferEstimateGas (token to : address) (amount : Z)
| SendTransaction (to : address) (value : Z)
| VaultPaused (vault : address)
| VaultGetUserBalance (vault user token : address)
| VaultDeposit (vault token : address) (amount : Z)
| VaultWithdraw (vault token : address) (amount : Z)
| TxWait (hash : string).

Definition history := list request.

(** What is outside the page: the wallet, the user who confirms or
    rejects, the chain. One oracle per type of answer; each is asked with
    the requests sent before, so an answer may depend on all of them, and
    each may answer with a rejection. *)
Record world := World {
  reply_unit : history -> request -> result unit;
  reply_bool : history -> request -> result bool;
  reply_int : history -> request -> result Z;
  reply_string : history -> request -> result string;
  reply_accounts : history -> request -> result (list address);
  reply_signer : history -> request -> result signer;
  reply_tx : history -> request -> result tx;
  reply_receipt : history -> request -> result (option receipt)
}.

(** An asynchronous computation of a hook whose React state is [Σ]. *)
Definition M (Σ A : Type) : Type := Σ -> history -> Σ * history * result A.

Definition ret {Σ A} (a : A) : M Σ A := fun s h => (s, h, inr a).

Definition bind {Σ A B} (m : M Σ A) (k : A -> M Σ B) : M Σ B :=
  fun s h =>
    match m s h with
    | (s', h', inr a) => k a s' h'
    | (s', h', inl e) => (s', h', inl e)
    end.

(** [throw e] *)
Definition throw {Σ A} (e : error) : M Σ A := fun s h => (s, h, inl e).

(** [try { body } catch (e) { handler e }] *)
Definition try_catch {Σ A} (body : M Σ A) (handler : error -> M Σ A) : M Σ A :=
  fun s h =>
    match body s h with
    | (s', h', inl e) => handler e s' h'
    | r => r
    end.

(** [try { body } finally { cleanup }] *)
Definition finally {Σ A} (body : M Σ A) (cleanup : M Σ unit) : M Σ A :=
  fun s h =>
    let '(s', h', r) := body s h in
    match cleanup s' h' with
    | (s'', h'', inl e) => (s'', h'', inl e)
    | (s'', h'', inr _) => (s'', h'', r)
    end.

(** A state setter of [useState]. *)
Definition set_state {Σ} (f : Σ -> Σ) : M Σ unit := fun s h => (f s, h, inr tt).

Definition get_state {Σ} : M Σ Σ := fun s h => (s, h, inr s).

(** [await] of a request: it is recorded, then answered by the world. *)
Definition perform {Σ A} (oracle : history -> request -> result A) (r : request) : M Σ A :=
  fun s h => (s, (h ++ [r])%list, oracle h r).

(** Lift a pure call that may throw. *)
Definition lift {Σ A} (r : result A) : M Σ A := fun s h => (s, h, r).

(** [await provider.send(method, params)] on a [BrowserProvider]: the
    request reaches the wallet; its answer comes back, its rejection comes
    back as the error that ethers makes of it. *)
Definition send {Σ A} (oracle : history -> request -> result A) (r : request) : M Σ A :=
  fun s h =>
    (s, (h ++ [r])%list,
     match oracle h r with
     | inl e => inl (Ethers.getRpcError e)
     | inr a => inr a
     end).

(** [await tx.wait()]: the wait for the inclusion of the transaction. With
    a receipt of status 0, a transaction that reverted, ethers throws.
    [None] is the [null] that the type of [wait] allows and that the hooks
    provide for with [receipt?.hash]; with the one confirmation that [wait]
    asks for by default ethers does not resolve to it. *)
Definition wait {Σ} (w : world) (t : tx) : M Σ (option receipt) :=
  fun s h =>
    (s, (h ++ [TxWait (tx_hash t)])%list,
     match reply_receipt w h (TxWait (tx_hash t)) with
     | inr (Some rc) =>
         if receipt_status rc =? 0 then inl Ethers.execution_reverted else inr (Some rc)
     | r => r
     end).

(** A state-changing method of a contract built on a signer, called with
    the [uint256] argument [amount]: the arguments are encoded, then the
    transaction [r] goes to the wallet. *)
Definition write_with_signer {Σ} (w : world) (r : request) (amount : Z) : M Σ tx :=
  fun s h =>
    match Ethers.uint256 amount with
    | inl e => (s, h, inl e)
    | inr _ => (s, (h ++ [r])%list, reply_tx w h r)
    end.

(** The same call on a contract built on a provider: ethers refuses it
    before it looks at the arguments, and nothing is sent. *)
Definition write_with_provider {Σ} (r : request) : M Σ tx :=
  fun s h => (s, h, inl Ethers.no_sending_runner).

(** Run a computation and keep its outcome, as a promise does. *)
Definition settle {Σ A} (m : M Σ A) : M Σ (result A) :=
  fun s h => let '(s', h', r) := m s h in (s', h', inr r).

Fixpoint start_all {Σ A} (calls : list (M Σ A)) : M Σ (list (result A)) :=
  match calls with
  | [] => ret []
  | c :: cs =>
      bind (settle c) (fun r => bind (start_all cs) (fun rs => ret (r :: rs)))
  end.

Fixpoint collect {A} (rs : list (result A)) : result (list A) :=
  match rs with
  | [] => inr []
  | inl e :: _ => inl e
  | inr a :: rest =>
      match collect rest with
      | inl e => inl e
      | inr l => inr (a :: l)
      end
  end.

(** [await Promise.all(calls)]: the calls are all started, in order, each
    one up to its request; the result is the list of their values, or a
    rejection as soon as one of them rejects. Of several rejections the
    model reports the first in the list. *)
Definition Promise_all {Σ A} (calls : list (M Σ A)) : M Σ (list A) :=
  bind (start_all calls) (fun rs => lift (collect rs)).

Module Notations.
Notation "'let*' x ':=' m 'in' k" := (bind m (fun x => k))
  (at level 10, x name, m at level 100, k at level 200).
End Notations.

End Provider.

(** ** contracts/addresses.ts *)

Module Addresses.






End Addresses.

(** ** hooks/useWeb3.ts *)

Module UseWeb3.
Import Js Provider Provider.Notations.

Record NetworkInfo := {
  ni_chainId : Z;
  name : string;
  nativeCurrency : string;
  explorerUrl : string;
  isSupported : bool
}.

Definition SUPPORTED_NETWORKS : gmap Z NetworkInfo :=
  list_to_map
    [ (1, {| ni_chainId := 1; name := "Ethereum Mainnet"; nativeCurrency := "ETH";
             explorerUrl := "https://etherscan.io"; isSupported := true |});
      (11155111, {| ni_chainId := 11155111; name := "Sepolia Testnet"; nativeCurrency := "ETH";
             explorerUrl := "https://sepolia.etherscan.io"; isSupported := true |});
      (5, {| ni_chainId := 5; name := "Goerli Testnet"; nativeCurrency := "ETH";
             explorerUrl := "https://goerli.etherscan.io"; isSupported := false |});
      (8453, {| ni_chainId := 8453; name := "Base Mainnet"; nativeCurrency := "ETH";
             explorerUrl := "https://basescan.org"; isSupported := false |});
      (84532, {| ni_chainId := 84532; name := "Base Sepolia"; nativeCurrency := "ETH";
             explorerUrl := "https://base-sepolia.blockscout.com"; isSupported := false |}) ].

(** The state of the hook; [provider] is the [BrowserProvider] made on
    mount when [window.ethereum] exists. *)
Record state := State {
  provider : option unit;
  signer : option Provider.signer;
  account : option string;
  chainId : option Z;
  network : option NetworkInfo
}.

Definition setSigner (v : option Provider.signer) (s : state) : state :=
  State (provider s) v (account s) (chainId s) (network s).
Definition setAccount (v : option string) (s : state) : state :=
  State (provider s) (signer s) v (chainId s) (network s).
Definition setChainId (v : option Z) (s : state) : state :=
  State (provider s) (signer s) (account s) v (network s).
Definition setNetwork (v : option NetworkInfo) (s : state) : state :=
  State (provider s) (signer s) (account s) (chainId s) v.

(** [SUPPORTED_NETWORKS[n] || { chainId: n, name: `Chain ${n}`, ... }] *)
Definition networkInfoOf (n : Z) : NetworkInfo :=
  match SUPPORTED_NETWORKS !! n with
  | Some info => info
  | None => {| ni_chainId := n; name := "Chain " +:+ show_int n; nativeCurrency := "ETH";
               explorerUrl := "#"; isSupported := false |}
  end.

(** [updateNetworkInfo(networkData)], on the chain id of [networkData]. *)
Definition updateNetworkInfo (chainIdNum : Z) (s : state) : state :=
  setNetwork (Some (networkInfoOf chainIdNum)) (setChainId (Some chainIdNum) s).

(** [accounts[0] || null] *)
Definition first_or_null (accounts : list string) : option string :=
  match accounts with
  | a :: _ => if String.eqb a EmptyString then None else Some a
  | [] => None
  end.

Definition handleAccountsChanged (accounts : list string) (s : state) : state :=
  setAccount (first_or_null accounts) s.

(** [handleChainChanged(chainIdHex)], on [Number(chainIdHex)]. *)
Definition handleChainChanged (newChainId : Z) (s : state) : state :=
  setNetwork (Some (networkInfoOf newChainId)) (setChainId (Some newChainId) s).

(** [connectWallet()]: the accounts are asked for through
    [provider.send]. *)
Definition connectWallet (w : world) : M state unit :=
  let* s := get_state in
  match provider s with
  | None => throw (Error "MetaMask not detected")
  | Some _ =>
      try_catch
        (let* accounts := send (reply_accounts w) EthRequestAccounts in
         let* networkData := perform (reply_int w) GetNetwork in
         let* sg := perform (reply_signer w) GetSigner in
         let* _ := set_state (setSigner (Some sg)) in
         let* _ := set_state (setAccount (head accounts)) in
         set_state (updateNetworkInfo networkData))
        (fun error => throw error)
  end.

Definition disconnectWallet (s : state) : state :=
  setNetwork None (setChainId None (setAccount None (setSigner None s))).

Definition getRpcUrls (chainId : Z) : list string :=
  let rpcMap : gmap Z (list string) :=
    list_to_map
      [ (1, ["https://mainnet.infura.io/v3/YOUR_INFURA_KEY"]);
        (11155111, ["https://sepolia.infura.io/v3/YOUR_INFURA_KEY"]);
        (5, ["https://goerli.infura.io/v3/YOUR_INFURA_KEY"]);
        (8453, ["https://mainnet.base.org"]);
        (84532, ["https://sepolia.base.org"]) ] in
  match rpcMap !! chainId with
  | Some urls => urls
  | None => ["https://ethereum.publicnode.com"]
  end.

Definition hexChainId (targetChainId : Z) : string := "0x" +:+ toString16 targetChainId.

Definition not_configured (targetChainId : Z) : error :=
  Error ("Network " +:+ show_int targetChainId +:+ " is not configured").

(** [switchNetwork(targetChainId)]: both wallet methods go through
    [provider.send], so what the [catch] sees is an error of ethers. *)
Definition switchNetwork (w : world) (targetChainId : Z) : M state unit :=
  let* s := get_state in
  match provider s with
  | None => throw (Error "Wallet not connected")
  | Some _ =>
      try_catch
        (send (reply_unit w) (WalletSwitchEthereumChain (hexChainId targetChainId)))
        (fun switchError =>
           if code_is_num switchError 4902 then
             match SUPPORTED_NETWORKS !! targetChainId with
             | None => throw (not_configured targetChainId)
             | Some networkInfo =>
                 send (reply_unit w)
                   (WalletAddEthereumChain
                      {| add_chainId := chainId s;
                         add_chainName := name networkInfo;
                         add_currencyName := nativeCurrency networkInfo;
                         add_currencySymbol := nativeCurrency networkInfo;
                         add_currencyDecimals := 18;
                         add_rpcUrls := getRpcUrls targetChainId;
                         add_blockExplorerUrls := [explorerUrl networkInfo] |})
             end
           else throw switchError)
  end.

(** [isConnected: !!account] *)
Definition isConnected (s : state) : bool := truthy_str (account s).

Definition hasSigner (s : state) : bool := truthy_obj (signer s).

(** The invariant of the wallet state: a signer comes with an account. *)
Definition signer_has_account (s : state) : Prop :=
  hasSigner s = true -> isConnected s = true.

(** The state once the mount effect has found [window.ethereum]. *)
Definition mounted : state := State (Some tt) None None None None.

End UseWeb3.

(** ** hooks/useVault.ts *)

Module UseVault.
Import Js Provider Provider.Notations.

Record VaultBalance := {
  tokenAddress : string;
  balanceRaw : Z;
  balanceFormatted : string
}.

(** The state of the hook, with what it takes from [useWeb3];
    [vaultContract] is the contract bound to [vaultAddress]. The hook makes
    it in one place, [new Contract(addresses.vaultAddress, VAULT_ABI,
    provider)]: on the provider, so it can read and cannot send. *)
Record state := State {
  signer : option Provider.signer;
  account : option string;
  vaultContract : option address;
  vaultAddress : string;
  isPaused : bool;
  loading : bool
}.

Definition setLoading (v : bool) (s : state) : state :=
  State (signer s) (account s) (vaultContract s) (vaultAddress s) (isPaused s) v.

Definition setIsPaused (v : bool) (s : state) : state :=
  State (signer s) (account s) (vaultContract s) (vaultAddress s) v (loading s).

(** The effect that reads [paused()] once the contract is set; a failure
    is logged and leaves [isPaused] as it was. *)
Definition fetchPausedState (w : world) : M state unit :=
  let* s := get_state in
  match vaultContract s with
  | None => ret tt
  | Some vault =>
      try_catch
        (let* paused := perform (reply_bool w) (VaultPaused vault) in
         set_state (setIsPaused paused))
        (fun _ => ret tt)
  end.

Definition getUserBalance (w : world) (tokenAddress : string) : M state Z :=
  let* s := get_state in
  match vaultContract s, truthy_str (account s), account s with
  | Some vault, true, Some acct =>
      try_catch
        (let* balance := perform (reply_int w) (VaultGetUserBalance vault acct tokenAddress) in
         ret balance)
        (fun _ => ret 0)
  | _, _, _ => ret 0
  end.

Definition getAllBalances (w : world) (tokenAddresses : list string)
  : M state (list VaultBalance) :=
  let* s := get_state in
  match vaultContract s, truthy_str (account s), account s with
  | Some vault, true, Some acct =>
      try_catch
        (let* balances :=
           Promise_all
             (map (fun tokenAddress =>
                     let* balanceRaw :=
                       perform (reply_int w) (VaultGetUserBalance vault acct tokenAddress) in
                     ret {| tokenAddress := tokenAddress;
                            balanceRaw := balanceRaw;
                            balanceFormatted := Ethers.show_bigint balanceRaw |})
                  tokenAddresses) in
         ret balances)
        (fun _ => ret [])
  | _, _, _ => ret []
  end.

(** [!signer || !vaultContract || !account] *)
Definition not_connected (s : state) : bool :=
  negb (truthy_obj (signer s)) || negb (truthy_obj (vaultContract s))
  || negb (truthy_str (account s)).

(** [deposit(tokenAddress, amount)]: the token contract is built on the
    signer, so its [approve] goes to the wallet; the vault contract is the
    one of the state, built on the provider, so its [deposit] is refused by
    ethers. Addresses are taken to be well-formed. *)
Definition deposit (w : world) (tokenAddress amount : string) : M state unit :=
  let* s := get_state in
  if not_connected s then throw (Error "Wallet not connected")
  else if isPaused s then throw (Error "Vault is currently paused")
  else
    match vaultContract s with
    | None => throw (Error "Wallet not connected")
    | Some vault =>
        finally
          (try_catch
             (let* _ := set_state (setLoading true) in
              let* amountRaw := lift (Ethers.parseUnits amount 18) in
              let* approveTx :=
                write_with_signer w
                  (Erc20Approve tokenAddress (vaultAddress s) amountRaw) amountRaw in
              let* _ := wait w approveTx in
              let* depositTx :=
                write_with_provider (VaultDeposit vault tokenAddress amountRaw) in
              let* _ := wait w depositTx in
              ret tt)
             (fun err => throw err))
          (set_state (setLoading false))
    end.

(** [withdraw(tokenAddress, amount)]: its one call is on the vault
    contract. *)
Definition withdraw (w : world) (tokenAddress amount : string) : M state unit :=
  let* s := get_state in
  if not_connected s then throw (Error "Wallet not connected")
  else if isPaused s then throw (Error "Vault is currently paused")
  else
    match vaultContract s with
    | None => throw (Error "Wallet not connected")
    | Some vault =>
        finally
          (try_catch
             (let* _ := set_state (setLoading true) in
              let* amountRaw := lift (Ethers.parseUnits amount 18) in
              let* withdrawTx :=
                write_with_provider (VaultWithdraw vault tokenAddress amountRaw) in
              let* _ := wait w withdrawTx in
              ret tt)
             (fun err => throw err))
          (set_state (setLoading false))
    end.

(** The amount that a write request carries. *)
Definition amount_of (r : request) : option Z :=
  match r with
  | Erc20Approve _ _ a | VaultDeposit _ _ a | VaultWithdraw _ _ a => Some a
  | Erc20Transfer _ _ a _ => Some a
  | SendTransaction _ v => Some v
  | _ => None
  end.

(** If [q] carries an amount, it is [amount] read at 18 decimals. *)
Definition parsed_at_18 (amount : string) (q : request) : Prop :=
  forall a, amount_of q = Some a -> Ethers.parseUnits amount 18 = inr a.


(** The entry of [getAllBalances] for a token whose query answered [raw]. *)
Definition entry (token : string) (raw : Z) : VaultBalance :=
  {| tokenAddress := token; balanceRaw := raw;
     balanceFormatted := Ethers.show_bigint raw |}.

(** What the promise of one query settles to. *)
Definition settled_entry (token : string) (reply : result Z) : result VaultBalance :=
  match reply with
  | inl e => inl e
  | inr raw => inr (entry token raw)
  end.

(** The answers of the world to requests sent one after the other. *)
Fixpoint answers (w : world) (h : history) (reqs : list request) : list (result Z) :=
  match reqs with
  | [] => []
  | r :: rest => reply_int w h r :: answers w (h ++ [r])%list rest
  end.

(** [result] shows the balance [raw] for [token]. *)
Definition reports (result : list VaultBalance) (token : string) (raw : Z) : Prop :=
  exists b, In b result /\ tokenAddress b = token /\ balanceRaw b = raw.

(** The batch as the specification has it: the call returns a list, and
    every token whose own query succeeded is in it with its balance,
    whatever happened to the queries of the other tokens. *)
Definition batch_survives_failure
  (w : world) (s : state) (h : history) (vault acct : string) (tokens : list string) : Prop :=
  exists s' h' result,
    getAllBalances w tokens s h = (s', h', inr result)
    /\ forall token raw,
         In (token, inr raw)
            (combine tokens (answers w h (map (VaultGetUserBalance vault acct) tokens))) ->
         reports result token raw.

End UseVault.

(** ** hooks/useERC20.ts *)

Module UseERC20.
Import Js Provider Provider.Notations.

Record TokenInfo := {
  name : string;
  symbol : string;
  decimals : nat;
  address : string
}.

Record TokenBalanceInfo := {
  balanceRaw : Z;
  balanceFormatted : string;
  balanceDisplay : string;
  info_decimals : nat;
  info_loading : bool;
  info_error : option string
}.

(** *** The state of [useERC20] *)

Record info_state := InfoState {
  tokenInfo : option TokenInfo;
  loading : bool;
  error : option string
}.

(** [fetchTokenInfo] of [useERC20]: the three reads start together, and the
    token info is set only when all three have succeeded; a failure of any
    of them leaves the token info as it was and stores the message. *)
Definition fetchTokenInfo (w : world) (tokenAddress : string) : M info_state unit :=
  finally
    (try_catch
       (let* _ := set_state (fun s => InfoState (tokenInfo s) true (error s)) in
        let* _ := set_state (fun s => InfoState (tokenInfo s) (loading s) None) in
        let* n := settle (perform (reply_string w) (Erc20Name tokenAddress)) in
        let* sy := settle (perform (reply_string w) (Erc20Symbol tokenAddress)) in
        let* d := settle (perform (reply_int w) (Erc20Decimals tokenAddress)) in
        let* n' := lift n in
        let* sy' := lift sy in
        let* d' := lift d in
        set_state (fun s =>
          InfoState (Some {| name := n'; symbol := sy'; decimals := Z.to_nat d';
                             address := tokenAddress |})
                    (loading s) (error s)))
       (fun err => set_state (fun s => InfoState (tokenInfo s) (loading s) (Some (message err)))))
    (set_state (fun s => InfoState (tokenInfo s) false (error s))).

(** *** The state of [useERC20Balance] *)

Record state := State {
  st_balanceRaw : Z;
  st_loading : bool;
  st_error : option string
}.

Definition setBalanceRaw (v : Z) (s : state) : state :=
  State v (st_loading s) (st_error s).
Definition setLoading (v : bool) (s : state) : state :=
  State (st_balanceRaw s) v (st_error s).
Definition setError (v : option string) (s : state) : state :=
  State (st_balanceRaw s) (st_loading s) v.

(** What the effect closes over. *)
Record deps := Deps {
  has_provider : bool;
  tokenAddress : option string;
  account : option string
}.

(** [fetchBalance] up to its [await]: the request leaves. *)
Definition fetchBalance_start (s : state) : state :=
  setError None (setLoading true s).

(** [fetchBalance] from its [await] on: the answer is stored as it comes;
    a rejection stores its message and a balance of zero. *)
Definition fetchBalance_settled (outcome : result Z) (s : state) : state :=
  match outcome with
  | inr balanceResult => setLoading false (setBalanceRaw balanceResult s)
  | inl err => setLoading false (setBalanceRaw 0 (setError (Some (message err)) s))
  end.

(** One call of [fetchBalance] run from start to end with nothing between. *)
Definition fetchBalance (w : world) (token owner : string) : M state unit :=
  let* _ := set_state fetchBalance_start in
  let* outcome := settle (perform (reply_int w) (Erc20BalanceOf token owner)) in
  set_state (fetchBalance_settled outcome).

(** The test of [handleTransfer]: the transfer touches the account. *)
Definition touches (owner from to : string) : bool :=
  String.eqb (toLowerCase from) (toLowerCase owner)
  || String.eqb (toLowerCase to) (toLowerCase owner).

(** The hook between renders: its state, the number of fetches started so
    far, and the fetches whose promise has not settled. Fetches are named
    by their rank of issue. *)
Record tracker := Tracker {
  hook : state;
  issued : nat;
  inflight : list nat;
  subscribed : bool
}.

Inductive event :=
| EffectRun
| EffectCleanup
| TransferEvent (from to : string) (amount : Z)
| Settled (id : nat) (outcome : result Z).

Definition start_fetch (t : tracker) : tracker :=
  Tracker (fetchBalance_start (hook t)) (S (issued t))
          (inflight t ++ [issued t]) (subscribed t).

Definition remove_id (id : nat) (l : list nat) : list nat :=
  List.filter (fun k => negb (Nat.eqb k id)) l.

Definition step (d : deps) (t : tracker) (e : event) : tracker :=
  match e with
  | EffectRun =>
      match has_provider d, truthy_str (tokenAddress d), truthy_str (account d) with
      | true, true, true =>
          let t' := start_fetch t in
          Tracker (hook t') (issued t') (inflight t') true
      | _, _, _ =>
          Tracker (setError None (setBalanceRaw 0 (hook t)))
                  (issued t) (inflight t) (subscribed t)
      end
  | EffectCleanup =>
      Tracker (hook t) (issued t) (inflight t) false
  | TransferEvent from to _ =>
      match subscribed t, account d with
      | true, Some owner => if touches owner from to then start_fetch t else t
      | _, _ => t
      end
  | Settled id outcome =>
      if existsb (Nat.eqb id) (inflight t)
      then Tracker (fetchBalance_settled outcome (hook t)) (issued t)
                   (remove_id id (inflight t)) (subscribed t)
      else t
  end.

Definition run (d : deps) (t : tracker) (evs : list event) : tracker :=
  fold_left (step d) evs t.

Definition initial : tracker := Tracker (State 0 false None) 0 [] false.

(** The balance that a settled fetch leaves in the state. *)
Definition stored (outcome : result Z) : Z :=
  match outcome with
  | inr v => v
  | inl _ => 0
  end.

(** The guard that the specification asks for: of two fetches in flight,
    [i] issued before [j], the later one settles first with [vj] and the
    earlier one after it with [vi]; the balance kept is [vj]. *)
Definition fresher_result_kept (d : deps) (t : tracker) (i j : nat) (vi vj : Z) : Prop :=
  (i < j)%nat -> In i (inflight t) -> In j (inflight t) ->
  st_balanceRaw (hook (run d t [Settled j (inr vj); Settled i (inr vi)])) = vj.

(** *** What the hook returns *)

(** [balanceFormatted]: [formatUnits] in a [try] whose [catch] gives ["0"]. *)
Definition balanceFormattedOf (tokenInfo : option TokenInfo) (raw : Z) : string :=
  match tokenInfo with
  | None => "0"
  | Some ti =>
      match Ethers.formatUnits raw (decimals ti) with
      | inr formatted => formatted
      | inl _ => "0"
      end
  end.

Definition balanceDisplayOf (tokenInfo : option TokenInfo) (formatted : string) : string :=
  match tokenInfo with
  | None => "0.00"
  | Some _ =>
      let num := Number.parseFloat formatted in
      if Number.strict_eq num Number.lit_0 then "0.00"
      else if Number.lt num Number.lit_0_0001 then "< 0.0001"
      else if Number.lt num Number.lit_1 then Number.toFixed num 4
      else Number.toLocaleString num 6
  end.

(** The display as the specification words it, on the exact value
    [raw / 10^decimals]. *)
Definition display_as_specified (ti : TokenInfo) (raw : Z) : Prop :=
  let unit := 10 ^ Z.of_nat (decimals ti) in
  let display := balanceDisplayOf (Some ti) (balanceFormattedOf (Some ti) raw) in
  (raw = 0 -> display = "0.00")
  /\ (0 < raw -> raw * 10000 < unit -> display = "< 0.0001")
  /\ (unit <= raw * 10000 -> raw < unit -> Number.fraction_digits display = 4%nat)
  /\ (unit <= raw -> (Number.fraction_digits display <= 6)%nat).

(** [tokenInfo?.decimals || 18] *)
Definition decimalsOf (tokenInfo : option TokenInfo) : nat :=
  match tokenInfo with
  | None => 18
  | Some ti => match decimals ti with O => 18 | S _ => decimals ti end
  end%nat.

Definition useERC20Balance (tokenInfo : option TokenInfo) (s : state) : TokenBalanceInfo :=
  let formatted := balanceFormattedOf tokenInfo (st_balanceRaw s) in
  {| balanceRaw := st_balanceRaw s;
     balanceFormatted := formatted;
     balanceDisplay := balanceDisplayOf tokenInfo formatted;
     info_decimals := decimalsOf tokenInfo;
     info_loading := st_loading s;
     info_error := st_error s |}.

(** *** [useERC20Transfer] *)

Record transfer_state := TransferState {
  tr_signer : option Provider.signer;
  tr_account : option string;
  tr_loading : bool;
  tr_error : option string;
  tr_success : option string
}.

Definition tr_set (l : bool) (e s : option string) (t : transfer_state) : transfer_state :=
  TransferState (tr_signer t) (tr_account t) l e s.

(** [transfer(tokenAddress, toAddress, amount, decimals)]: the token
    contract is built on the signer. Addresses are taken to be well-formed.
    A [null] receipt makes [receipt.hash] throw a [TypeError]. *)
Definition transfer (w : world) (tokenAddress toAddress amount : string) (decimals : nat)
  : M transfer_state (option receipt) :=
  let* s := get_state in
  if negb (truthy_obj (tr_signer s)) || negb (truthy_str (tr_account s))
  then throw (Error "Wallet not connected")
  else if String.eqb tokenAddress EmptyString || String.eqb toAddress EmptyString
          || String.eqb amount EmptyString
  then throw (Error "Invalid parameters")
  else
    finally
      (try_catch
         (let* _ := set_state (tr_set true None None) in
          let* amountRaw := lift (Ethers.parseUnits amount decimals) in
          let* tx :=
            write_with_signer w (Erc20Transfer tokenAddress toAddress amountRaw None)
              amountRaw in
          let* rc := wait w tx in
          let* hash :=
            match rc with
            | Some r => ret (receipt_hash r)
            | None => throw (Error "Cannot read properties of null (reading 'hash')")
            end in
          let* _ := set_state (fun t =>
                      TransferState (tr_signer t) (tr_account t) (tr_loading t) (tr_error t)
                        (Some ("Transfer successful! Tx: " +:+ hash))) in
          ret rc)
         (fun err =>
            let* _ := set_state (fun t =>
                        TransferState (tr_signer t) (tr_account t) (tr_loading t)
                          (Some (message err)) (tr_success t)) in
            throw err))
      (set_state (fun t =>
         TransferState (tr_signer t) (tr_account t) false (tr_error t) (tr_success t))).

End UseERC20.

(** ** App.tsx: a write with gas estimation *)

Module App.
Import Js Provider Provider.Notations.

Record TokenData := {
  name : string;
  symbol : string;
  balance : string;
  decimals : nat
}.

Definition CONTRACT_ADDRESS : address := "0x1c7D4B196Cb0C7B01d743Fbc6116a902379C7238".

(** The state of the component; [ethereum] tells whether [window.ethereum]
    exists. *)
Record state := State {
  ethereum : bool;
  account : option string;
  tokenData : option TokenData;
  loading : bool;
  error : option string;
  txHash : option string
}.

Definition setLoading (v : bool) (s : state) : state :=
  State (ethereum s) (account s) (tokenData s) v (error s) (txHash s).
Definition setError (v : option string) (s : state) : state :=
  State (ethereum s) (account s) (tokenData s) (loading s) v (txHash s).
Definition setTxHash (v : option string) (s : state) : state :=
  State (ethereum s) (account s) (tokenData s) (loading s) (error s) v.

(** [tokenData?.decimals || 18] *)
Definition decimalsOf (td : option TokenData) : nat :=
  match td with
  | None => 18
  | Some d => match decimals d with O => 18 | S _ => decimals d end
  end%nat.

(** [fetchContractData(userAddress)] called without [await]: it runs up to
    its [Promise.all], so its four reads leave; what it does with the
    answers happens after the caller has gone on. *)
Definition fetchContractData_start (w : world) (userAddress : string) : M state unit :=
  let* _ := set_state (setLoading true) in
  let* _ := settle (perform (reply_string w) (Erc20Name CONTRACT_ADDRESS)) in
  let* _ := settle (perform (reply_string w) (Erc20Symbol CONTRACT_ADDRESS)) in
  let* _ := settle (perform (reply_int w) (Erc20Decimals CONTRACT_ADDRESS)) in
  let* _ := settle (perform (reply_int w) (Erc20BalanceOf CONTRACT_ADDRESS userAddress)) in
  ret tt.

Definition recipient : address := "0x0000000000000000000000000000000000000000".

(** [(estimatedGas * 120n) / 100n]; the division of [bigint] truncates. *)
Definition gasLimitWithBuffer (estimatedGas : Z) : Z := Z.quot (estimatedGas * 120) 100.

Definition handleTransfer (w : world) : M state unit :=
  let* s := get_state in
  if negb (ethereum s) then ret tt
  else
    finally
      (try_catch
         (let* _ := set_state (setLoading true) in
          let* _ := set_state (setError None) in
          let* _ := set_state (setTxHash None) in
          let* signer := perform (reply_signer w) GetSigner in
          let* amount := lift (Ethers.parseUnits "0.1" (decimalsOf (tokenData s))) in
          let* estimatedGas :=
            perform (reply_int w) (Erc20TransferEstimateGas CONTRACT_ADDRESS recipient amount) in
          let* tx :=
            perform (reply_tx w)
              (Erc20Transfer CONTRACT_ADDRESS recipient amount
                 (Some (gasLimitWithBuffer estimatedGas))) in
          let* _ := set_state (setTxHash (Some (tx_hash tx))) in
          let* receipt := perform (reply_receipt w) (TxWait (tx_hash tx)) in
          match receipt with
          | Some r =>
              if receipt_status r =? 1 then
                match truthy_str (account s), account s with
                | true, Some a => fetchContractData_start w a
                | _, _ => ret tt
                end
              else throw (Error "Transaction failed on-chain")
          | None => throw (Error "Transaction failed on-chain")
          end)
         (fun err =>
            if code_is_str err "INSUFFICIENT_FUNDS"
            then set_state (setError (Some "You don't have enough ETH for gas fees."))
            else if code_is_str err "ACTION_REJECTED"
            then set_state (setError (Some "Transaction rejected by user."))
            else set_state (setError (Some "Gas estimation failed. The transaction might revert."))))
      (set_state (setLoading false)).

(** A request that submits a transaction, as opposed to a read or a
    simulation. *)
Definition is_submission (r : request) : bool :=
  match r with
  | Erc20Transfer _ _ _ _ | Erc20Approve _ _ _ | SendTransaction _ _
  | VaultDeposit _ _ _ | VaultWithdraw _ _ _ => true
  | _ => false
  end.

End App.

(** ** utils/format.ts *)

Module Format.
Import Js.

(** [s.slice(-n)] for a count [n]: the last [n] characters, the whole
    string when it is shorter, and the whole string for [n = 0], as
    [slice(-0)] is [slice(0)]. *)
Definition slice_last (n : nat) (s : string) : string :=
  match n with
  | O => s
  | S _ => Ethers.drop (String.length s - n) s
  end.

(** [shortenAddress(address, chars)]; [chars] is 4 when left out. *)
Definition shortenAddress (address : string) (chars : nat) : string :=
  Ethers.take (chars + 2) address +:+ "..." +:+ slice_last chars address.

Section FormatTokenAmount.

(** [BigInt(s)] for a string, a built-in the model does not open: it gives
    an integer or throws. *)
Variable BigInt : string -> result Z.

(** [formatTokenAmount(amount, decimals)] for an amount that is a [bigint]
    or a string. *)
Definition formatTokenAmount (amount : Z + string) (decimals : nat) : string :=
  match
    match
      match amount with
      | inl n => inr n
      | inr s => BigInt s
      end
    with
    | inr amountBigInt => Ethers.formatUnits amountBigInt decimals
    | inl e => inl e
    end
  with
  | inr formatted =>
      Number.toLocaleString (Number.parseFloat formatted)
        (if (decimals <? 6)%nat then decimals else 6%nat)
  | inl _ => "0"
  end.

End FormatTokenAmount.

End Format.

(** ** hooks/useWeb3.ts: what happens to the session over time *)

Module Session.
Import Js Provider UseWeb3.

(** What the hook reacts to: the two effects of the mount, the two provider
    events, and the calls of its three operations, each with the world that
    answers it. *)
Inductive event :=
| MountAccount (address : string)
| MountNetwork (chainIdNum : Z)
| AccountsChanged (accounts : list string)
| ChainChanged (newChainId : Z)
| Connect (w : world)
| Disconnect
| SwitchNetwork (w : world) (targetChainId : Z).

Definition step (sh : state * history) (e : event) : state * history :=
  let '(s, h) := sh in
  match e with
  | MountAccount address => (setAccount (Some address) s, h)
  | MountNetwork n => (updateNetworkInfo n s, h)
  | AccountsChanged accounts => (handleAccountsChanged accounts s, h)
  | ChainChanged n => (handleChainChanged n s, h)
  | Connect w => fst (connectWallet w s h)
  | Disconnect => (disconnectWallet s, h)
  | SwitchNetwork w target => fst (switchNetwork w target s h)
  end.

Definition run (sh : state * history) (evs : list event) : state * history :=
  fold_left step evs sh.

(** An event that cannot take the account away from a signer: an account
    list from the provider, in an event or in the answer to a connection
    request, that starts with an address. *)
Definition keeps_account (h : history) (e : event) : Prop :=
  match e with
  | MountAccount address => address <> EmptyString
  | AccountsChanged accounts => first_or_null accounts <> None
  | Connect w =>
      forall accounts,
        reply_accounts w h EthRequestAccounts = inr accounts ->
        truthy_str (head accounts) = true
  | _ => True
  end.

(** The same along a run, each event taken at the history it meets. *)
Fixpoint all_keep_account (sh : state * history) (evs : list event) : Prop :=
  match evs with
  | [] => True
  | e :: rest => keeps_account (snd sh) e /\ all_keep_account (step sh e) rest
  end.

(** The network that belongs to the chain id of the state. *)
Definition network_follows_chain (s : state) : Prop :=
  match chainId s with
  | None => network s = None
  | Some n => network s = Some (networkInfoOf n)
  end.

Definition hex_digit_value (c : ascii) : option Z :=
  let n := nat_of_ascii c in
  if ((48 <=? n) && (n <=? 57))%nat then Some (Z.of_nat n - 48)
  else if ((97 <=? n) && (n <=? 102))%nat then Some (Z.of_nat n - 87)
  else if ((65 <=? n) && (n <=? 70))%nat then Some (Z.of_nat n - 55)
  else None.

Fixpoint hex_value (acc : Z) (s : string) : option Z :=
  match s with
  | EmptyString => Some acc
  | String c r =>
      match hex_digit_value c with
      | Some d => hex_value (16 * acc + d) r
      | None => None
      end
  end.

(** [Number(chainIdHex)] for the payload of [chainChanged], a string made of
    [0x] and hexadecimal digits whose value is below [2 ^ 53], so that the
    number read is the integer itself; [None] stands for [NaN]. Other
    strings that [Number] reads, decimal ones among them, are left out. *)
Definition Number_of_hex (chainIdHex : string) : option Z :=
  match chainIdHex with
  | String "0" (String "x" r) | String "0" (String "X" r) =>
      match r with
      | EmptyString => None
      | _ => hex_value 0 r
      end
  | _ => None
  end.

(** [SUPPORTED_NETWORKS[network.chainId]?.isSupported ?? false], the test
    of the network badge of the dashboard. *)
Definition badge_isSupported (network : NetworkInfo) : bool :=
  match SUPPORTED_NETWORKS !! ni_chainId network with
  | Some info => isSupported info
  | None => false
  end.

End Session.

(** ** hooks/useVault.ts: the effect that binds the contract *)

Module VaultInit.
Import Js Provider.



End VaultInit.

(** ** hooks/useERC20.ts: notions about the balance tracker *)

Module Tracker.
Import UseERC20.

(** The event is a [Transfer] of the token. *)
Definition is_transfer (e : event) : Prop :=
  match e with
  | TransferEvent _ _ _ => True
  | _ => False
  end.

End Tracker.

(** ** hooks/useERC20.ts: [transferETH] *)

Module UseERC20Transfer.
Import Js Provider Provider.Notations UseERC20.

(** [transferETH(toAddress, amount)]: [signer.sendTransaction] with the
    amount as the value, which ethers converts before it asks the wallet.
    The recipient is taken to be a well-formed address. *)
Definition transferETH (w : world) (toAddress amount : string) : M transfer_state unit :=
  let* s := get_state in
  if negb (truthy_obj (tr_signer s)) || negb (truthy_str (tr_account s))
  then throw (Error "Wallet not connected")
  else
    finally
      (try_catch
         (let* _ := set_state (tr_set true None None) in
          let* amountRaw := lift (Ethers.parseUnits amount 18) in
          let* value := lift (Ethers.toQuantity amountRaw) in
          let* tx := perform (reply_tx w) (SendTransaction toAddress value) in
          let* rc := wait w tx in
          set_state (fun t =>
            TransferState (tr_signer t) (tr_account t) (tr_loading t) (tr_error t)
              (Some ("ETH Transfer successful! Tx: " +:+
                     match rc with
                     | Some r => receipt_hash r
                     | None => "undefined"
                     end))))
         (fun err =>
            let* _ := set_state (fun t =>
                        TransferState (tr_signer t) (tr_account t) (tr_loading t)
                          (Some (message err)) (tr_success t)) in
            throw err))
      (set_state (fun t =>
         TransferState (tr_signer t) (tr_account t) false (tr_error t) (tr_success t))).

End UseERC20Transfer.

(** ** App.tsx: reading the token *)

Module AppReads.
Import Js Provider Provider.Notations App.

Definition setTokenData (v : option TokenData) (s : state) : state :=
  State (ethereum s) (account s) v (loading s) (error s) (txHash s).
Definition setAccount (v : option string) (s : state) : state :=
  State (ethereum s) v (tokenData s) (loading s) (error s) (txHash s).

(** [fetchContractData(userAddress)] awaited to its end: the four reads
    start together; the token data is set when all four have succeeded. *)
Definition fetchContractData (w : world) (userAddress : string) : M state unit :=
  finally
    (try_catch
       (let* _ := set_state (setLoading true) in
        let* n := settle (perform (reply_string w) (Erc20Name CONTRACT_ADDRESS)) in
        let* sy := settle (perform (reply_string w) (Erc20Symbol CONTRACT_ADDRESS)) in
        let* d := settle (perform (reply_int w) (Erc20Decimals CONTRACT_ADDRESS)) in
        let* b := settle (perform (reply_int w) (Erc20BalanceOf CONTRACT_ADDRESS userAddress)) in
        let* name := lift n in
        let* symbol := lift sy in
        let* decimals := lift d in
        let* balance := lift b in
        let* formatted := lift (Ethers.formatUnits balance (Z.to_nat decimals)) in
        set_state (setTokenData
          (Some {| name := name; symbol := symbol; decimals := Z.to_nat decimals;
                   balance := formatted |})))
       (fun _ => set_state (setError (Some "Failed to load token information."))))
    (set_state (setLoading false)).

(** The listener of [accountsChanged]: with an account it follows it and
    starts to read its data; without one it forgets account and data. *)
Definition onAccountsChanged (w : world) (accounts : list string) : M state unit :=
  match accounts with
  | a :: _ =>
      let* _ := set_state (setAccount (Some a)) in
      fetchContractData_start w a
  | [] =>
      let* _ := set_state (setAccount None) in
      set_state (setTokenData None)
  end.

End AppReads.

(** ** Fake providers for the scenarios *)

Module Fake.
Import Js Provider.

Definition rejection (c : error_code) (msg : string) : error := Error_ c msg.

(** The provider of a wallet that accepts every request: a fixed account
    on Sepolia, transactions that are mined, zero balances. *)
Definition accepting : world := {|
  reply_unit := fun _ _ => inr tt;
  reply_bool := fun _ _ => inr false;
  reply_int := fun _ r =>
    match r with
    | GetNetwork => inr 11155111
    | Erc20Decimals _ => inr 6
    | Erc20TransferEstimateGas _ _ _ => inr 51234
    | _ => inr 0
    end;
  reply_string := fun _ _ => inr "USDC";
  reply_accounts := fun _ _ => inr ["0xAAA"];
  reply_signer := fun _ _ => inr (Signer "0xAAA");
  reply_tx := fun h _ => inr (Tx ("0xtx" +:+ show_int (Z.of_nat (length h))));
  reply_receipt := fun _ r =>
    match r with
    | TxWait hash => inr (Some (Receipt hash 1))
    | _ => inr None
    end
|}.

(** The same wallet, which does not know the chain it is asked to switch
    to: the EIP-3085 code 4902. *)
Definition unknown_chain : world := {|
  reply_unit := fun _ r =>
    match r with
    | WalletSwitchEthereumChain _ => inl (rejection (NumCode 4902) "Unrecognized chain ID")
    | _ => inr tt
    end;
  reply_bool := reply_bool accepting;
  reply_int := reply_int accepting;
  reply_string := reply_string accepting;
  reply_accounts := reply_accounts accepting;
  reply_signer := reply_signer accepting;
  reply_tx := reply_tx accepting;
  reply_receipt := reply_receipt accepting
|}.

(** The same wallet, whose user rejects the approval. *)
Definition approve_rejected : world := {|
  reply_unit := reply_unit accepting;
  reply_bool := reply_bool accepting;
  reply_int := reply_int accepting;
  reply_string := reply_string accepting;
  reply_accounts := reply_accounts accepting;
  reply_signer := reply_signer accepting;
  reply_tx := fun h r =>
    match r with
    | Erc20Approve _ _ _ => inl (rejection (StrCode "ACTION_REJECTED") "user rejected action")
    | _ => reply_tx accepting h r
    end;
  reply_receipt := reply_receipt accepting
|}.

(** The same wallet on a chain where the simulated transfer reverts. *)
Definition estimate_reverts : world := {|
  reply_unit := reply_unit accepting;
  reply_bool := reply_bool accepting;
  reply_int := fun h r =>
    match r with
    | Erc20TransferEstimateGas _ _ _ =>
        inl (rejection (StrCode "CALL_EXCEPTION") "execution reverted")
    | _ => reply_int accepting h r
    end;
  reply_string := reply_string accepting;
  reply_accounts := reply_accounts accepting;
  reply_signer := reply_signer accepting;
  reply_tx := reply_tx accepting;
  reply_receipt := reply_receipt accepting
|}.

(** A vault whose ledger holds 5 units of the token [0xA] for everyone and
    whose query for [0xB] fails. *)
Definition one_token_fails : world := {|
  reply_unit := reply_unit accepting;
  reply_bool := reply_bool accepting;
  reply_int := fun h r =>
    match r with
    | VaultGetUserBalance _ _ token =>
        if String.eqb token "0xB"
        then inl (rejection (StrCode "CALL_EXCEPTION") "execution reverted")
        else inr 5
    | _ => reply_int accepting h r
    end;
  reply_string := reply_string accepting;
  reply_accounts := reply_accounts accepting;
  reply_signer := reply_signer accepting;
  reply_tx := reply_tx accepting;
  reply_receipt := reply_receipt accepting
|}.

Definition USDC : string := "0x1c7D4B196Cb0C7B01d743Fbc6116a902379C7238".

(** The vault hook of a connected wallet on Sepolia. *)
Definition connected_vault : UseVault.state := {|
  UseVault.signer := Some (Signer "0xAAA");
  UseVault.account := Some "0xAAA";
  UseVault.vaultContract := Some "0xVAULT";
  UseVault.vaultAddress := "0xVAULT";
  UseVault.isPaused := false;
  UseVault.loading := false
|}.

(** The vault hook before any wallet is connected. *)
Definition disconnected_vault : UseVault.state := {|
  UseVault.signer := None;
  UseVault.account := None;
  UseVault.vaultContract := Some "0xVAULT";
  UseVault.vaultAddress := "0xVAULT";
  UseVault.isPaused := false;
  UseVault.loading := false
|}.

Definition app_connected : App.state := {|
  App.ethereum := true;
  App.account := Some "0xAAA";
  App.tokenData := Some {| App.name := "USD Coin"; App.symbol := "USDC";
                           App.balance := "1.5"; App.decimals := 6 |};
  App.loading := false;
  App.error := None;
  App.txHash := None
|}.

(** The wallet hook after a successful [connectWallet] on Sepolia. *)
Definition connected_web3 : UseWeb3.state := {|
  UseWeb3.provider := Some tt;
  UseWeb3.signer := Some (Signer "0xAAA");
  UseWeb3.account := Some "0xAAA";
  UseWeb3.chainId := Some 11155111;
  UseWeb3.network := Some (UseWeb3.networkInfoOf 11155111)
|}.

(** The token and the owner that [useERC20Balance] follows. *)
Definition balance_deps : UseERC20.deps :=
  UseERC20.Deps true (Some USDC) (Some "0xAAA").

(** Two fetches in flight: the one of the effect, then the one that a
    transfer out of the account has started. *)
Definition two_in_flight : UseERC20.tracker :=
  UseERC20.run balance_deps UseERC20.initial
    [UseERC20.EffectRun; UseERC20.TransferEvent "0xaaa" "0xBBB" 1].

Definition dai_info : UseERC20.TokenInfo :=
  {| UseERC20.name := "Dai Stablecoin"; UseERC20.symbol := "DAI"; UseERC20.decimals := 18;
     UseERC20.address := "0x2c204C811a9919E5dC4b0b975921A369b13a2d37" |}.

Definition usdc_info : UseERC20.TokenInfo :=
  {| UseERC20.name := "USD Coin"; UseERC20.symbol := "USDC"; UseERC20.decimals := 6;
     UseERC20.address := USDC |}.

Definition zero_decimals_info : UseERC20.TokenInfo :=
  {| UseERC20.name := "Points"; UseERC20.symbol := "PTS"; UseERC20.decimals := 0;
     UseERC20.address := "0xP" |}.

End Fake.

(** ** More wallets and hooks to run the handlers with *)

Module Scenario.
Import Js Provider.

(** A wallet whose user turns the switch of the chain down: the EIP-1193
    code 4001. *)
Definition switch_refused : world := {|
  reply_unit := fun _ r =>
    match r with
    | WalletSwitchEthereumChain _ => inl (Fake.rejection (NumCode 4001) "User rejected the request")
    | _ => inr tt
    end;
  reply_bool := reply_bool Fake.accepting;
  reply_int := reply_int Fake.accepting;
  reply_string := reply_string Fake.accepting;
  reply_accounts := reply_accounts Fake.accepting;
  reply_signer := reply_signer Fake.accepting;
  reply_tx := reply_tx Fake.accepting;
  reply_receipt := reply_receipt Fake.accepting
|}.

(** A chain on which every transaction is mined and reverts: the receipts
    have the status 0. *)
Definition mined_but_reverted : world := {|
  reply_unit := reply_unit Fake.accepting;
  reply_bool := reply_bool Fake.accepting;
  reply_int := reply_int Fake.accepting;
  reply_string := reply_string Fake.accepting;
  reply_accounts := reply_accounts Fake.accepting;
  reply_signer := reply_signer Fake.accepting;
  reply_tx := reply_tx Fake.accepting;
  reply_receipt := fun _ r =>
    match r with
    | TxWait hash => inr (Some (Receipt hash 0))
    | _ => inr None
    end
|}.

(** The transfer hook of a connected wallet. *)
Definition connected_transfer : UseERC20.transfer_state :=
  UseERC20.TransferState (Some (Signer "0xAAA")) (Some "0xAAA") false None None.

(** A balance of one and a half USDC, loaded. *)
Definition loaded_balance : UseERC20.state := UseERC20.State 1500000 false None.

End Scenario.

(** * Properties *)

Import Js Provider.

(** Unfold one layer of the monad. *)
Ltac unfold_M :=
  unfold bind, ret, throw, try_catch, finally, set_state, get_state, perform, lift, settle,
    send, wait, write_with_signer, write_with_provider
    in *; cbn beta iota in *.

(** ** The returned [decimals] field *)

(** C10. The [decimals] field that [useERC20Balance] returns is the fetched
    decimals of the token when that value is not zero, and only then; it is
    18 when the token info is not loaded yet and when the fetched decimals
    are 0. *)
Theorem useERC20Balance_decimals_field
  (tokenInfo : option UseERC20.TokenInfo) (s : UseERC20.state) :
  let reported := UseERC20.info_decimals (UseERC20.useERC20Balance tokenInfo s) in
  (forall ti, tokenInfo = Some ti -> UseERC20.decimals ti <> O ->
              reported = UseERC20.decimals ti)
  /\ (forall ti, tokenInfo = Some ti -> reported = UseERC20.decimals ti ->
                 UseERC20.decimals ti <> O)
  /\ (tokenInfo = None -> reported = 18%nat)
  /\ (forall ti, tokenInfo = Some ti -> UseERC20.decimals ti = O -> reported = 18%nat).
Proof.
  cbn. repeat split.
  - intros ti -> Hnz. cbn. destruct (UseERC20.decimals ti); congruence.
  - intros ti -> Heq. cbn in Heq. destruct (UseERC20.decimals ti); congruence.
  - intros ->. reflexivity.
  - intros ti -> Hz. cbn. rewrite Hz. reflexivity.
Qed.

Lemma useERC20Balance_decimals_field_witness :
  UseERC20.info_decimals (UseERC20.useERC20Balance (Some Fake.usdc_info) (UseERC20.State 0 false None))
    = 6%nat
  /\ UseERC20.info_decimals (UseERC20.useERC20Balance None (UseERC20.State 0 false None))
    = 18%nat
  /\ UseERC20.info_decimals
       (UseERC20.useERC20Balance (Some Fake.zero_decimals_info) (UseERC20.State 0 false None))
    = 18%nat.
Proof.
  split; [| split].
  - apply (proj1 (useERC20Balance_decimals_field (Some Fake.usdc_info) (UseERC20.State 0 false None))
             Fake.usdc_info); [reflexivity | discriminate].
  - apply (proj1 (proj2 (proj2
             (useERC20Balance_decimals_field None (UseERC20.State 0 false None))))).
    reflexivity.
  - apply (proj2 (proj2 (proj2
             (useERC20Balance_decimals_field (Some Fake.zero_decimals_info)
                (UseERC20.State 0 false None)))) Fake.zero_decimals_info); reflexivity.
Defined.

(** ** Vault reads without a wallet *)

(** C9. While no account is connected, or while the vault contract is not
    set, [getUserBalance] answers zero and [getAllBalances] the empty list;
    neither raises and neither sends a request. *)
Theorem vault_reads_without_wallet
  (w : world) (s : UseVault.state) (h : history) (token : string) (tokens : list string) :
  UseVault.account s = None \/ UseVault.vaultContract s = None ->
  UseVault.getUserBalance w token s h = (s, h, inr 0)
  /\ UseVault.getAllBalances w tokens s h = (s, h, inr []).
Proof.
  intros [Ha | Hv]; unfold UseVault.getUserBalance, UseVault.getAllBalances; unfold_M.
  - rewrite Ha. cbn. destruct (UseVault.vaultContract s); split; reflexivity.
  - rewrite Hv. split; reflexivity.
Qed.

Lemma vault_reads_without_wallet_witness :
  UseVault.getUserBalance Fake.accepting Fake.USDC Fake.disconnected_vault []
    = (Fake.disconnected_vault, [], inr 0)
  /\ UseVault.getAllBalances Fake.accepting [Fake.USDC; "0xB"] Fake.disconnected_vault []
    = (Fake.disconnected_vault, [], inr []).
Proof.
  apply (vault_reads_without_wallet Fake.accepting Fake.disconnected_vault []
           Fake.USDC [Fake.USDC; "0xB"]).
  left. reflexivity.
Defined.

(** ** Switching to a chain that the wallet does not know *)

(** C3. The code 4902 never reaches the handler that waits for it.
    [switchNetwork] sends the switch through [provider.send] of ethers,
    which throws an error of its own for every rejection of the wallet. So
    when the wallet answers [wallet_switchEthereumChain] with the code 4902
    of an unrecognized chain, the test [switchError.code === 4902] fails:
    [switchNetwork] throws the error of ethers, whose code is a string, and
    not the error that the network is not configured; the registry is not
    looked at. The switch is the only request sent. *)
Theorem switchNetwork_unrecognized_rethrown
  (w : world) (s : UseWeb3.state) (h : history) (targetChainId : Z) (e : Js.error) :
  UseWeb3.provider s <> None ->
  reply_unit w h (WalletSwitchEthereumChain (UseWeb3.hexChainId targetChainId)) = inl e ->
  Js.code e = NumCode 4902 ->
  exists thrown,
    UseWeb3.switchNetwork w targetChainId s h
      = (s, (h ++ [WalletSwitchEthereumChain (UseWeb3.hexChainId targetChainId)])%list,
         inl thrown)
    /\ thrown = Ethers.getRpcError e
    /\ (exists c, Js.code thrown = StrCode c)
    /\ thrown <> UseWeb3.not_configured targetChainId.
Proof.
  intros Hp Hreply Hcode.
  assert (Hstr : exists c, Js.code (Ethers.getRpcError e) = StrCode c
                           /\ code_is_num (Ethers.getRpcError e) 4902 = false).
  { unfold Ethers.getRpcError. cbv zeta.
    destruct (code_is_num e 4001 || _ || _); [cbn; eauto |].
    destruct (Ethers.names_missing_method _); cbn; eauto. }
  destruct Hstr as (c & Hc & Hnum).
  exists (Ethers.getRpcError e). split; [| split; [reflexivity | split]].
  - unfold UseWeb3.switchNetwork. unfold_M.
    destruct (UseWeb3.provider s) as [[] |]; [| congruence].
    unfold_M. rewrite Hreply, Hnum. reflexivity.
  - exists c. exact Hc.
  - intros Heq. rewrite Heq in Hc. discriminate Hc.
Qed.

Lemma switchNetwork_unrecognized_rethrown_witness :
  exists thrown,
    UseWeb3.switchNetwork Fake.unknown_chain 999999 UseWeb3.mounted []
      = (UseWeb3.mounted,
         ([] ++ [WalletSwitchEthereumChain (UseWeb3.hexChainId 999999)])%list,
         inl thrown)
    /\ thrown = Ethers.getRpcError (Fake.rejection (NumCode 4902) "Unrecognized chain ID")
    /\ (exists c, Js.code thrown = StrCode c)
    /\ thrown <> UseWeb3.not_configured 999999.
Proof.
  apply (switchNetwork_unrecognized_rethrown Fake.unknown_chain UseWeb3.mounted []
           999999 (Fake.rejection (NumCode 4902) "Unrecognized chain ID")).
  - discriminate.
  - reflexivity.
  - reflexivity.
Defined.

(** The scenario of the specification, run: the chain 999999 is not in the
    registry, the wallet answers 4902, and what comes out is the
    [UNKNOWN_ERROR] of ethers. *)
Example switchNetwork_999999 :
  UseWeb3.SUPPORTED_NETWORKS !! 999999 = None
  /\ UseWeb3.switchNetwork Fake.unknown_chain 999999 UseWeb3.mounted []
     = (UseWeb3.mounted, [WalletSwitchEthereumChain "0xf423f"],
        inl (Error_ (StrCode "UNKNOWN_ERROR") "could not coalesce error")).
Proof. split; vm_compute; reflexivity. Qed.

(** ** Gas estimation before a write *)

Lemma app_one {A} (l : list A) (a : A) (rest : list A) :
  ((l ++ [a]) ++ rest = l ++ a :: rest)%list.
Proof. rewrite <- app_assoc. reflexivity. Qed.


(** C7. When the simulation that [handleTransfer] asks for fails, the
    handler ends without having submitted anything: the requests it sent
    are reads and the simulation only, the error message is set, no
    transaction hash is stored and [loading] is back to [false]. *)
Theorem handleTransfer_estimation_failure (w : world) (s : App.state) (h : history) :
  App.ethereum s = true ->
  (forall amount,
      Ethers.parseUnits "0.1" (App.decimalsOf (App.tokenData s)) = inr amount ->
      exists e, reply_int w (h ++ [GetSigner])%list
                  (Erc20TransferEstimateGas App.CONTRACT_ADDRESS App.recipient amount) = inl e) ->
  exists s' sent,
    App.handleTransfer w s h = (s', (h ++ sent)%list, inr tt)
    /\ Forall (fun r => App.is_submission r = false) sent
    /\ App.error s' <> None
    /\ App.txHash s' = None
    /\ App.loading s' = false.
Proof.
  intros Heth Hest.
  unfold App.handleTransfer. unfold_M. rewrite Heth. cbn.
  destruct (reply_signer w h GetSigner) as [e | sg].
  - destruct (code_is_str e "INSUFFICIENT_FUNDS"), (code_is_str e "ACTION_REJECTED");
      do 2 eexists; (split; [reflexivity |]); cbn;
      (split; [repeat constructor | repeat split; discriminate]).
  - destruct (Ethers.parseUnits "0.1" (App.decimalsOf (App.tokenData s))) as [e | amount].
    + destruct (code_is_str e "INSUFFICIENT_FUNDS"), (code_is_str e "ACTION_REJECTED");
        do 2 eexists; (split; [reflexivity |]); cbn;
        (split; [repeat constructor | repeat split; discriminate]).
    + destruct (Hest amount eq_refl) as [e He]. rewrite He.
      destruct (code_is_str e "INSUFFICIENT_FUNDS"), (code_is_str e "ACTION_REJECTED");
        do 2 eexists; rewrite app_one; (split; [reflexivity |]); cbn;
        (split; [repeat constructor | repeat split; discriminate]).
Qed.

Lemma handleTransfer_estimation_failure_witness :
  exists s' sent,
    App.handleTransfer Fake.estimate_reverts Fake.app_connected []
      = (s', ([] ++ sent)%list, inr tt)
    /\ Forall (fun r => App.is_submission r = false) sent
    /\ App.error s' <> None
    /\ App.txHash s' = None
    /\ App.loading s' = false.
Proof.
  apply (handleTransfer_estimation_failure Fake.estimate_reverts Fake.app_connected []).
  - reflexivity.
  - intros amount _. eexists. reflexivity.
Defined.

(** ** The two phases of a deposit *)

Lemma nothing_sent {S A} (s : S) (h : history) (r : result A) :
  (s, h, r) = (s, (h ++ [])%list, r).
Proof. rewrite app_nil_r. reflexivity. Qed.

(** Close the equation between a run and its shape [(s', h ++ sent, r)]. *)
Ltac run_shape :=
  first [ apply nothing_sent
        | rewrite ?app_one; reflexivity ].

(** Every request of a list given in full carries the amount [a] or none. *)
Ltac carries a :=
  repeat (apply List.Forall_cons; [cbn; auto |]); apply List.Forall_nil.

(** Decide a membership in a list of requests given in full. *)
Ltac pick_request H :=
  cbn in H;
  repeat (destruct H as [H | H]; [try discriminate H |]);
  try contradiction.

(** Every run of [deposit] past its guards, step by step: what was sent
    and what is thrown, by the answers of the wallet and of the chain. *)
Lemma deposit_steps
  (w : world) (s : UseVault.state) (h : history) (token amount : string) :
  UseVault.not_connected s = false ->
  UseVault.isPaused s = false ->
  let approve a := Erc20Approve token (UseVault.vaultAddress s) a in
  UseVault.deposit w token amount s h
  = match Ethers.parseUnits amount 18 with
    | inl e => (UseVault.setLoading false s, h, inl e)
    | inr a =>
        match Ethers.uint256 a with
        | inl e => (UseVault.setLoading false s, h, inl e)
        | inr _ =>
            match reply_tx w h (approve a) with
            | inl e => (UseVault.setLoading false s, (h ++ [approve a])%list, inl e)
            | inr approveTx =>
                (UseVault.setLoading false s,
                 (h ++ [approve a; TxWait (tx_hash approveTx)])%list,
                 match reply_receipt w (h ++ [approve a])%list
                         (TxWait (tx_hash approveTx)) with
                 | inl e => inl e
                 | inr (Some rc) =>
                     if receipt_status rc =? 0 then inl Ethers.execution_reverted
                     else inl Ethers.no_sending_runner
                 | inr None => inl Ethers.no_sending_runner
                 end)
            end
        end
    end.
Proof.
  intros Hc Hp. cbn zeta.
  assert (Hv : exists vault, UseVault.vaultContract s = Some vault).
  { unfold UseVault.not_connected in Hc.
    destruct (UseVault.vaultContract s) as [vault |]; [eauto |].
    cbn in Hc. rewrite orb_true_r in Hc. discriminate Hc. }
  destruct Hv as [vault Hv].
  unfold UseVault.deposit. unfold_M. rewrite Hc, Hp, Hv. unfold_M.
  destruct (Ethers.parseUnits amount 18) as [e | a]; [reflexivity |].
  destruct (Ethers.uint256 a) as [e | encoded]; [reflexivity |].
  destruct (reply_tx w h (Erc20Approve token (UseVault.vaultAddress s) a))
    as [e | approveTx]; [reflexivity |].
  rewrite <- !app_assoc. cbn [app].
  destruct (reply_receipt w (h ++ [Erc20Approve token (UseVault.vaultAddress s) a])%list
              (TxWait (tx_hash approveTx))) as [e | [rc |]]; [reflexivity | | reflexivity].
  destruct (receipt_status rc =? 0); reflexivity.
Qed.

(** Every run of [withdraw] past its guards: nothing is sent. *)
Lemma withdraw_steps
  (w : world) (s : UseVault.state) (h : history) (token amount : string) :
  UseVault.not_connected s = false ->
  UseVault.isPaused s = false ->
  UseVault.withdraw w token amount s h
  = (UseVault.setLoading false s, h,
     match Ethers.parseUnits amount 18 with
     | inl e => inl e
     | inr _ => inl Ethers.no_sending_runner
     end).
Proof.
  intros Hc Hp.
  assert (Hv : exists vault, UseVault.vaultContract s = Some vault).
  { unfold UseVault.not_connected in Hc.
    destruct (UseVault.vaultContract s) as [vault |]; [eauto |].
    cbn in Hc. rewrite orb_true_r in Hc. discriminate Hc. }
  destruct Hv as [vault Hv].
  unfold UseVault.withdraw. unfold_M. rewrite Hc, Hp, Hv. unfold_M.
  destruct (Ethers.parseUnits amount 18) as [e | a]; reflexivity.
Qed.

(** A run of [deposit] or [withdraw] stopped by a guard. *)
Lemma vault_write_guarded
  (w : world) (s : UseVault.state) (h : history) (token amount : string) :
  UseVault.not_connected s = true \/ UseVault.isPaused s = true ->
  exists e,
    UseVault.deposit w token amount s h = (s, h, inl e)
    /\ UseVault.withdraw w token amount s h = (s, h, inl e).
Proof.
  intros Hg. unfold UseVault.deposit, UseVault.withdraw. unfold_M.
  destruct (UseVault.not_connected s); [eexists; split; reflexivity |].
  destruct (UseVault.isPaused s); [eexists; split; reflexivity |].
  destruct Hg as [Hg | Hg]; discriminate Hg.
Qed.

(** What a run of [deposit] sends: the approval and the wait for it, at
    most, with the amount read at 18 decimals. *)
Lemma deposit_trace
  (w : world) (s : UseVault.state) (h : history) (token amount : string) :
  exists s' sent e,
    UseVault.deposit w token amount s h = (s', (h ++ sent)%list, inl e)
    /\ Forall (UseVault.parsed_at_18 amount) sent
    /\ (sent = []
        \/ exists a,
             Ethers.parseUnits amount 18 = inr a
             /\ (sent = [Erc20Approve token (UseVault.vaultAddress s) a]
                 \/ exists approveTx,
                      reply_tx w h (Erc20Approve token (UseVault.vaultAddress s) a)
                      = inr approveTx
                      /\ sent = [Erc20Approve token (UseVault.vaultAddress s) a;
                                 TxWait (tx_hash approveTx)])).
Proof.
  destruct (UseVault.not_connected s) eqn:Hc.
  { destruct (vault_write_guarded w s h token amount (or_introl Hc)) as (e & Hd & _).
    exists s, [], e. rewrite app_nil_r. split; [exact Hd |]. split; [constructor | auto]. }
  destruct (UseVault.isPaused s) eqn:Hp.
  { destruct (vault_write_guarded w s h token amount (or_intror Hp)) as (e & Hd & _).
    exists s, [], e. rewrite app_nil_r. split; [exact Hd |]. split; [constructor | auto]. }
  assert (Hsteps := deposit_steps w s h token amount Hc Hp). cbn zeta in Hsteps.
  rewrite Hsteps.
  destruct (Ethers.parseUnits amount 18) as [e | a] eqn:Hparse.
  { exists (UseVault.setLoading false s), [], e. rewrite app_nil_r.
    split; [reflexivity |]. split; [constructor | auto]. }
  destruct (Ethers.uint256 a) as [e | encoded].
  { exists (UseVault.setLoading false s), [], e. rewrite app_nil_r.
    split; [reflexivity |]. split; [constructor | auto]. }
  destruct (reply_tx w h (Erc20Approve token (UseVault.vaultAddress s) a))
    as [e | approveTx] eqn:Happrove.
  { exists (UseVault.setLoading false s),
           [Erc20Approve token (UseVault.vaultAddress s) a], e.
    split; [reflexivity |]. split; [| right; exists a; auto].
    constructor; [| constructor]. intros a' [= <-]. first [exact Hparse | reflexivity]. }
  assert (Hsent : Forall (UseVault.parsed_at_18 amount)
                    [Erc20Approve token (UseVault.vaultAddress s) a;
                     TxWait (tx_hash approveTx)]).
  { constructor; [intros a' [= <-]; first [exact Hparse | reflexivity] |].
    constructor; [intros a' Ha'; discriminate Ha' | constructor]. }
  destruct (reply_receipt w (h ++ [Erc20Approve token (UseVault.vaultAddress s) a])%list
              (TxWait (tx_hash approveTx))) as [e | [rc |]].
  - do 3 eexists. split; [reflexivity |]. split; [exact Hsent |].
    right. exists a. split; [first [exact Hparse | reflexivity] |]. right. exists approveTx. auto.
  - destruct (receipt_status rc =? 0);
      (do 3 eexists; split; [reflexivity |]; split; [exact Hsent |];
       right; exists a; split; [first [exact Hparse | reflexivity] |]; right; exists approveTx; auto).
  - do 3 eexists. split; [reflexivity |]. split; [exact Hsent |].
    right. exists a. split; [first [exact Hparse | reflexivity] |]. right. exists approveTx. auto.
Qed.



(** The approval is mined: [deposit] goes on to the vault, whose contract
    cannot send, and throws with the allowance granted. *)
Example deposit_approval_mined :
  UseVault.deposit Fake.accepting Fake.USDC "10" Fake.connected_vault []
  = (Fake.connected_vault,
     [Erc20Approve Fake.USDC "0xVAULT" (10 * 10 ^ 18); TxWait "0xtx0"],
     inl Ethers.no_sending_runner).
Proof. vm_compute. reflexivity. Qed.

(** The approval is rejected by the user: [deposit] throws the rejection
    and does not come to the vault. *)
Example deposit_approve_rejected :
  UseVault.deposit Fake.approve_rejected Fake.USDC "10" Fake.connected_vault []
  = (Fake.connected_vault,
     [Erc20Approve Fake.USDC "0xVAULT" (10 * 10 ^ 18)],
     inl (Fake.rejection (StrCode "ACTION_REJECTED") "user rejected action")).
Proof. vm_compute. reflexivity. Qed.

(** The approval is mined and reverts: the wait throws, and [deposit] does
    not come to the vault. *)
Example deposit_approve_reverted :
  UseVault.deposit Scenario.mined_but_reverted Fake.USDC "10" Fake.connected_vault []
  = (Fake.connected_vault,
     [Erc20Approve Fake.USDC "0xVAULT" (10 * 10 ^ 18); TxWait "0xtx0"],
     inl Ethers.execution_reverted).
Proof. vm_compute. reflexivity. Qed.

(** ** Amounts of vault writes *)

(** C1 (not met by the code). [deposit] and [withdraw] read the amount at 18
    decimals whatever the token. Every request that [deposit] sends with an
    amount, its approval, carries [parseUnits amount 18]. [withdraw] passes
    the same reading to the call of the vault: past the guards it throws the
    error of reading the amount at 18 decimals when there is one, and the
    refusal of the call otherwise. For USDC, whose fetched decimals are 6, a
    deposit of ["10"] approves [10 * 10^18], where the decimals of the token
    give [10 * 10^6]; and a withdrawal of ["0.0000001"], an amount that
    cannot be read at 6 decimals, is read and taken to the call. *)
Theorem vault_amounts_read_at_18_decimals :
  (forall w s h token amount, exists s' sent r,
      UseVault.deposit w token amount s h = (s', (h ++ sent)%list, r)
      /\ Forall (UseVault.parsed_at_18 amount) sent)
  /\ (forall w s h token amount,
        UseVault.not_connected s = false -> UseVault.isPaused s = false ->
        UseVault.withdraw w token amount s h
        = (UseVault.setLoading false s, h,
           match Ethers.parseUnits amount 18 with
           | inl e => inl e
           | inr _ => inl Ethers.no_sending_runner
           end))
  /\ Ethers.parseUnits "10" (UseERC20.decimals Fake.usdc_info) = inr (10 * 10 ^ 6)
  /\ UseVault.deposit Fake.accepting Fake.USDC "10" Fake.connected_vault []
     = (Fake.connected_vault,
        [Erc20Approve Fake.USDC "0xVAULT" (10 * 10 ^ 18); TxWait "0xtx0"],
        inl Ethers.no_sending_runner)
  /\ (exists e, Ethers.parseUnits "0.0000001" (UseERC20.decimals Fake.usdc_info) = inl e)
  /\ Ethers.parseUnits "0.0000001" 18 = inr (10 ^ 11)
  /\ UseVault.withdraw Fake.accepting Fake.USDC "0.0000001" Fake.connected_vault []
     = (Fake.connected_vault, [], inl Ethers.no_sending_runner).
Proof.
  split; [| split; [| split; [| split; [| split; [| split]]]]].
  - intros w s h token amount.
    destruct (deposit_trace w s h token amount) as (s' & sent & e & Hrun & Hamt & _).
    eauto.
  - intros w s h token amount. apply withdraw_steps.
  - vm_compute. reflexivity.
  - vm_compute. reflexivity.
  - eexists. vm_compute. reflexivity.
  - vm_compute. reflexivity.
  - vm_compute. reflexivity.
Qed.

(** The sibling [transfer] of [useERC20Transfer] reads the amount at the
    decimals it is given. *)
Example transfer_reads_at_given_decimals :
  UseERC20.transfer Fake.accepting Fake.USDC "0xBBB" "10" 6
    (UseERC20.TransferState (Some (Signer "0xAAA")) (Some "0xAAA") false None None) []
  = (UseERC20.TransferState (Some (Signer "0xAAA")) (Some "0xAAA") false None
       (Some "Transfer successful! Tx: 0xtx0"),
     [Erc20Transfer Fake.USDC "0xBBB" (10 * 10 ^ 6) None; TxWait "0xtx0"],
     inr (Some (Receipt "0xtx0" 1))).
Proof. vm_compute. reflexivity. Qed.

(** ** A batch of vault balances *)

Lemma answers_length (w : world) (reqs : list request) :
  forall h, length (UseVault.answers w h reqs) = length reqs.
Proof. induction reqs as [| r rest IH]; intros h; cbn; [reflexivity | rewrite IH; reflexivity]. Qed.

Lemma start_all_queries (w : world) (s : UseVault.state) (vault acct : string)
      (tokens : list string) :
  forall h,
    start_all
      (map (fun tokenAddress =>
              bind (perform (reply_int w) (VaultGetUserBalance vault acct tokenAddress))
                   (fun balanceRaw => ret (UseVault.entry tokenAddress balanceRaw)))
           tokens) s h
    = (s, (h ++ map (VaultGetUserBalance vault acct) tokens)%list,
       inr (zip_with UseVault.settled_entry tokens
              (UseVault.answers w h (map (VaultGetUserBalance vault acct) tokens)))).
Proof.
  induction tokens as [| t rest IH]; intros h.
  - cbn. rewrite app_nil_r. reflexivity.
  - cbn [map start_all UseVault.answers zip_with]. unfold_M.
    destruct (reply_int w h (VaultGetUserBalance vault acct t)) as [e | raw];
      rewrite IH; rewrite app_one; reflexivity.
Qed.

Lemma collect_rejects (tokens : list string) :
  forall (replies : list (result Z)) (e : error),
    length replies = length tokens ->
    In (inl e) replies ->
    exists e', collect (zip_with UseVault.settled_entry tokens replies) = inl e'.
Proof.
  induction tokens as [| t rest IH]; intros [| r replies] e Hlen Hin;
    cbn in *; try contradiction; try discriminate.
  destruct r as [e0 | raw]; cbn.
  - eauto.
  - destruct Hin as [Heq | Hin]; [discriminate |].
    injection Hlen as Hlen.
    destruct (IH replies e Hlen Hin) as [e' He']. rewrite He'. eauto.
Qed.

Lemma collect_all (tokens : list string) :
  forall (raws : list Z),
    collect (zip_with UseVault.settled_entry tokens (map inr raws))
    = inr (zip_with UseVault.entry tokens raws).
Proof.
  induction tokens as [| t rest IH]; intros [| raw raws]; cbn; try reflexivity.
  rewrite IH. reflexivity.
Qed.

(** C4, as the code has it. With an account and a vault contract,
    [getAllBalances] sends one query per token, all of them, and never
    raises. Its result is all or nothing: when every query succeeds it lists
    the balance of every token in order; when the query of a single token
    fails it is the empty list, so the balances of the other tokens are lost
    with it. *)
Theorem getAllBalances_all_or_nothing
  (w : world) (s : UseVault.state) (h : history) (tokens : list string)
  (vault acct : string) :
  UseVault.vaultContract s = Some vault ->
  UseVault.account s = Some acct ->
  acct <> EmptyString ->
  let queries := map (VaultGetUserBalance vault acct) tokens in
  let replies := UseVault.answers w h queries in
  exists result,
    UseVault.getAllBalances w tokens s h = (s, (h ++ queries)%list, inr result)
    /\ ((exists e, In (inl e) replies) -> result = [])
    /\ (forall raws, replies = map inr raws ->
                     result = zip_with UseVault.entry tokens raws).
Proof.
  intros Hv Ha Hne queries replies.
  assert (Htruthy : truthy_str (Some acct) = true).
  { cbn. apply negb_true_iff. apply String.eqb_neq. exact Hne. }
  unfold UseVault.getAllBalances, Promise_all.
  unfold bind at 1. unfold get_state. rewrite Hv, Ha, Htruthy.
  unfold try_catch. unfold bind at 1. unfold bind at 1.
  fold (UseVault.entry).
  change (fun tokenAddress : string =>
            bind (perform (reply_int w) (VaultGetUserBalance vault acct tokenAddress))
              (fun balanceRaw : Z =>
                 ret {| UseVault.tokenAddress := tokenAddress;
                        UseVault.balanceRaw := balanceRaw;
                        UseVault.balanceFormatted := Ethers.show_bigint balanceRaw |}))
    with (fun tokenAddress : string =>
            bind (perform (reply_int w) (VaultGetUserBalance vault acct tokenAddress))
              (fun balanceRaw : Z => ret (UseVault.entry tokenAddress balanceRaw))).
  rewrite start_all_queries. fold queries. fold replies.
  unfold lift, ret.
  destruct (collect (zip_with UseVault.settled_entry tokens replies)) as [e | l] eqn:Hc.
  - exists []. split; [reflexivity |]. split; [reflexivity |].
    intros raws Hr. rewrite Hr, collect_all in Hc. discriminate.
  - exists l. split; [reflexivity |]. split.
    + intros [e He].
      destruct (collect_rejects tokens replies e) as [e' He']; try assumption.
      * unfold replies, queries. rewrite answers_length, length_map. reflexivity.
      * congruence.
    + intros raws Hr. rewrite Hr, collect_all in Hc. congruence.
Qed.

Lemma getAllBalances_all_or_nothing_witness :
  exists result,
    UseVault.getAllBalances Fake.one_token_fails ["0xA"; "0xB"] Fake.connected_vault []
    = (Fake.connected_vault,
       ([] ++ map (VaultGetUserBalance "0xVAULT" "0xAAA") ["0xA"; "0xB"])%list,
       inr result)
    /\ ((exists e, In (inl e)
                     (UseVault.answers Fake.one_token_fails []
                        (map (VaultGetUserBalance "0xVAULT" "0xAAA") ["0xA"; "0xB"]))) ->
        result = [])
    /\ (forall raws,
           UseVault.answers Fake.one_token_fails []
             (map (VaultGetUserBalance "0xVAULT" "0xAAA") ["0xA"; "0xB"]) = map inr raws ->
           result = zip_with UseVault.entry ["0xA"; "0xB"] raws).
Proof.
  apply (getAllBalances_all_or_nothing Fake.one_token_fails Fake.connected_vault []
           ["0xA"; "0xB"] "0xVAULT" "0xAAA").
  - reflexivity.
  - reflexivity.
  - discriminate.
Defined.

(** C4 as stated fails. The query for [0xA] answers 5 and the query for
    [0xB] fails: the batch comes back empty, without the balance of
    [0xA]. *)
Lemma getAllBalances_one_failure_empties_batch :
  UseVault.getAllBalances Fake.one_token_fails ["0xA"; "0xB"] Fake.connected_vault []
  = (Fake.connected_vault,
     [VaultGetUserBalance "0xVAULT" "0xAAA" "0xA"; VaultGetUserBalance "0xVAULT" "0xAAA" "0xB"],
     inr [])
  /\ reply_int Fake.one_token_fails [] (VaultGetUserBalance "0xVAULT" "0xAAA" "0xA") = inr 5
  /\ ~ UseVault.batch_survives_failure Fake.one_token_fails Fake.connected_vault []
         "0xVAULT" "0xAAA" ["0xA"; "0xB"].
Proof.
  split; [vm_compute; reflexivity |]. split; [reflexivity |].
  intros (s' & h' & result & Hrun & Hall).
  assert (Hres : result = []) by (vm_compute in Hrun; congruence).
  destruct (Hall "0xA" 5) as (b & Hin & _).
  - left. reflexivity.
  - rewrite Hres in Hin. destruct Hin.
Qed.

(** ** The wallet session *)

(** C2 (not met by the code). After [connectWallet] the hook holds a signer
    and an account. The handler of [accountsChanged] sets the account only:
    with an empty list the account becomes [null] and the hook reports that
    it is not connected, but the signer stays, so the state has a signer and
    no account. [disconnectWallet] clears both. *)
Theorem accountsChanged_empty_keeps_signer :
  UseWeb3.connectWallet Fake.accepting UseWeb3.mounted []
  = (Fake.connected_web3, [EthRequestAccounts; GetNetwork; GetSigner], inr tt)
  /\ UseWeb3.account (UseWeb3.handleAccountsChanged [] Fake.connected_web3) = None
  /\ UseWeb3.isConnected (UseWeb3.handleAccountsChanged [] Fake.connected_web3) = false
  /\ UseWeb3.signer (UseWeb3.handleAccountsChanged [] Fake.connected_web3)
     = Some (Signer "0xAAA")
  /\ ~ UseWeb3.signer_has_account (UseWeb3.handleAccountsChanged [] Fake.connected_web3)
  /\ (forall accounts s,
         UseWeb3.signer (UseWeb3.handleAccountsChanged accounts s) = UseWeb3.signer s)
  /\ (forall s, UseWeb3.signer (UseWeb3.disconnectWallet s) = None
                /\ UseWeb3.account (UseWeb3.disconnectWallet s) = None).
Proof.
  split; [vm_compute; reflexivity |].
  split; [reflexivity |]. split; [reflexivity |]. split; [reflexivity |].
  split; [| split].
  - intros Hinv. specialize (Hinv eq_refl). discriminate Hinv.
  - intros accounts s. reflexivity.
  - intros s. split; reflexivity.
Qed.

(** ** Concurrent balance fetches *)

Lemma inflight_after_settle (l : list nat) (i j : nat) :
  In i l -> i <> j -> In i (UseERC20.remove_id j l).
Proof.
  intros Hin Hne. unfold UseERC20.remove_id. apply filter_In. split; [assumption |].
  apply negb_true_iff. apply Nat.eqb_neq. exact Hne.
Qed.

Lemma in_flight_test (l : list nat) (i : nat) :
  In i l -> existsb (Nat.eqb i) l = true.
Proof.
  intros Hin. apply existsb_exists. exists i. split; [assumption | apply Nat.eqb_refl].
Qed.

Lemma run_snoc (d : UseERC20.deps) (t : UseERC20.tracker) (evs : list UseERC20.event)
      (e : UseERC20.event) :
  UseERC20.run d t (evs ++ [e]) = UseERC20.step d (UseERC20.run d t evs) e.
Proof. unfold UseERC20.run. rewrite fold_left_app. reflexivity. Qed.

Lemma settle_stores (d : UseERC20.deps) (t : UseERC20.tracker) (id : nat) (outcome : result Z) :
  In id (UseERC20.inflight t) ->
  UseERC20.step d t (UseERC20.Settled id outcome)
  = UseERC20.Tracker (UseERC20.fetchBalance_settled outcome (UseERC20.hook t))
      (UseERC20.issued t) (UseERC20.remove_id id (UseERC20.inflight t))
      (UseERC20.subscribed t).
Proof. intros Hin. cbn. rewrite (in_flight_test _ _ Hin). reflexivity. Qed.

Lemma settled_balance (outcome : result Z) (s : UseERC20.state) :
  UseERC20.st_balanceRaw (UseERC20.fetchBalance_settled outcome s) = UseERC20.stored outcome.
Proof. destruct outcome; reflexivity. Qed.

(** C5, as the code has it. The hook has no guard on the order of issue: the
    answer of a fetch is stored when it comes. Whatever happened before, the
    balance stored after the settlement of a fetch in flight is the result
    of that fetch; so of two fetches in flight the one that settles last
    wins, also when it was issued first and its result is the older one. *)
Theorem last_settled_fetch_wins
  (d : UseERC20.deps) (t : UseERC20.tracker) (evs : list UseERC20.event)
  (i j : nat) (oi oj : result Z) :
  In i (UseERC20.inflight (UseERC20.run d t evs)) ->
  In j (UseERC20.inflight (UseERC20.run d t evs)) ->
  i <> j ->
  UseERC20.st_balanceRaw
    (UseERC20.hook (UseERC20.run d t (evs ++ [UseERC20.Settled j oj])))
  = UseERC20.stored oj
  /\ UseERC20.st_balanceRaw
       (UseERC20.hook
          (UseERC20.run d t (evs ++ [UseERC20.Settled j oj; UseERC20.Settled i oi])))
     = UseERC20.stored oi.
Proof.
  intros Hi Hj Hne. split.
  - rewrite run_snoc, (settle_stores _ _ _ _ Hj). cbn. apply settled_balance.
  - change [UseERC20.Settled j oj; UseERC20.Settled i oi]
      with ([UseERC20.Settled j oj] ++ [UseERC20.Settled i oi])%list.
    rewrite app_assoc, run_snoc, run_snoc, (settle_stores _ _ _ _ Hj).
    rewrite settle_stores.
    + cbn. apply settled_balance.
    + cbn. apply inflight_after_settle; assumption.
Qed.

Lemma last_settled_fetch_wins_witness :
  UseERC20.st_balanceRaw
    (UseERC20.hook
       (UseERC20.run Fake.balance_deps UseERC20.initial
          ([UseERC20.EffectRun; UseERC20.TransferEvent "0xaaa" "0xBBB" 1]
             ++ [UseERC20.Settled 1 (inr 200)])))
  = UseERC20.stored (inr 200)
  /\ UseERC20.st_balanceRaw
       (UseERC20.hook
          (UseERC20.run Fake.balance_deps UseERC20.initial
             ([UseERC20.EffectRun; UseERC20.TransferEvent "0xaaa" "0xBBB" 1]
                ++ [UseERC20.Settled 1 (inr 200); UseERC20.Settled 0 (inr 100)])))
     = UseERC20.stored (inr 100).
Proof.
  apply (last_settled_fetch_wins Fake.balance_deps UseERC20.initial
           [UseERC20.EffectRun; UseERC20.TransferEvent "0xaaa" "0xBBB" 1]
           0%nat 1%nat (inr 100) (inr 200)).
  - vm_compute. left. reflexivity.
  - vm_compute. right. left. reflexivity.
  - discriminate.
Defined.

(** C5 as stated fails. The effect starts fetch 0, a transfer out of the
    account starts fetch 1; fetch 1 settles with 200, then fetch 0 with 100:
    the hook ends with 100, the result of the stale request. *)
Lemma stale_fetch_overwrites_fresher :
  UseERC20.inflight Fake.two_in_flight = [0%nat; 1%nat]
  /\ UseERC20.st_balanceRaw
       (UseERC20.hook
          (UseERC20.run Fake.balance_deps Fake.two_in_flight
             [UseERC20.Settled 1 (inr 200); UseERC20.Settled 0 (inr 100)]))
     = 100
  /\ ~ UseERC20.fresher_result_kept Fake.balance_deps Fake.two_in_flight 0 1 100 200.
Proof.
  split; [vm_compute; reflexivity |]. split; [vm_compute; reflexivity |].
  intros Hkept.
  assert (H := Hkept ltac:(lia) ltac:(vm_compute; auto) ltac:(vm_compute; auto)).
  vm_compute in H. discriminate H.
Qed.

(** ** The display of a balance *)

Lemma fraction_digits_no_point (l : list ascii) :
  Number.no_point l -> Number.fraction_digits (string_of_list_ascii l) = O.
Proof.
  induction 1 as [| c l Hc _ IH]; cbn; [reflexivity |].
  destruct (Ascii.eqb_spec c "."); [contradiction | exact IH].
Qed.

Lemma string_of_list_length (l : list ascii) :
  String.length (string_of_list_ascii l) = length l.
Proof. induction l as [| c l IH]; cbn; [reflexivity | rewrite IH; reflexivity]. Qed.

Lemma fraction_digits_split (pre post : list ascii) :
  Number.no_point pre ->
  Number.fraction_digits (string_of_list_ascii (pre ++ "."%char :: post)) = length post.
Proof.
  induction 1 as [| c l Hc _ IH]; cbn.
  - apply string_of_list_length.
  - destruct (Ascii.eqb_spec c "."); [contradiction | exact IH].
Qed.

Lemma uint_no_point (u : Decimal.uint) :
  Number.no_point (list_ascii_of_string (DecimalString.NilEmpty.string_of_uint u)).
Proof.
  induction u; cbn; constructor; try discriminate; assumption.
Qed.

Lemma digits_of_no_point (n : Z) : Number.no_point (Number.digits_of n).
Proof.
  unfold Number.digits_of, DecimalString.NilZero.string_of_uint.
  destruct (N.to_uint (Z.to_N n)) eqn:Hu; try (rewrite <- Hu; apply uint_no_point).
  cbn. constructor; [discriminate | constructor].
Qed.

Lemma digit_char_no_point (d : Z) : 0 <= d < 10 -> Number.digit_char d <> "."%char.
Proof.
  intros Hd.
  assert (Hcases : d = 0 \/ d = 1 \/ d = 2 \/ d = 3 \/ d = 4 \/ d = 5 \/ d = 6 \/ d = 7
                   \/ d = 8 \/ d = 9) by lia.
  repeat (destruct Hcases as [-> | Hcases]; [discriminate |]).
  subst d. discriminate.
Qed.

Lemma fixed_width_length (w : nat) : forall n, length (Number.fixed_width w n) = w.
Proof.
  induction w as [| w IH]; intros n; cbn; [reflexivity |].
  rewrite length_app, IH. cbn. lia.
Qed.

Lemma fixed_width_no_point (w : nat) : forall n, Number.no_point (Number.fixed_width w n).
Proof.
  induction w as [| w IH]; intros n; cbn; [constructor |].
  apply Forall_app. split; [apply IH |].
  constructor; [| constructor].
  apply digit_char_no_point. apply Z.mod_pos_bound. lia.
Qed.

Lemma group_rev_no_point (l : list ascii) :
  forall k, Number.no_point l -> Number.no_point (Number.group_rev l k).
Proof.
  induction l as [| c r IH]; intros k Hl; cbn; [constructor |].
  inversion Hl as [| ? ? Hc Hr]; subst.
  destruct r as [| c' r'].
  - constructor; [assumption | constructor].
  - destruct (k =? 2)%nat.
    + constructor; [assumption |]. constructor; [discriminate |]. apply IH. assumption.
    + constructor; [assumption |]. apply IH. assumption.
Qed.

Lemma group3_no_point (l : list ascii) : Number.no_point l -> Number.no_point (Number.group3 l).
Proof.
  intros Hl. unfold Number.group3, Number.no_point.
  apply Forall_rev. apply group_rev_no_point. apply Forall_rev. exact Hl.
Qed.

Lemma drop_zeros_length (l : list ascii) : (length (Number.drop_zeros l) <= length l)%nat.
Proof.
  induction l as [| c r IH]; cbn; [lia |].
  destruct (Ascii.eqb c "0"); cbn; lia.
Qed.

Lemma strip_trailing_zeros_length (l : list ascii) :
  (length (Number.strip_trailing_zeros l) <= length l)%nat.
Proof.
  unfold Number.strip_trailing_zeros.
  rewrite length_rev. etransitivity; [apply drop_zeros_length |]. rewrite length_rev. lia.
Qed.

(** [toFixed] writes exactly the digits it is asked for. *)
Lemma toFixed_fraction_digits (q : Q) (f : nat) :
  Number.fraction_digits (Number.toFixed (Number.Finite q) (S f)) = S f.
Proof.
  unfold Number.toFixed.
  set (n := Number.scaled_round (Qabs q) (S f)).
  destruct (negb (Qle_bool 0 q)).
  - change ("-"%char :: (Number.digits_of (n / 10 ^ Z.of_nat (S f)) ++ ["."%char]
                         ++ Number.fixed_width (S f) n))%list
      with ((("-"%char :: Number.digits_of (n / 10 ^ Z.of_nat (S f)))
             ++ "."%char :: Number.fixed_width (S f) n))%list.
    rewrite fraction_digits_split.
    + apply fixed_width_length.
    + constructor; [discriminate | apply digits_of_no_point].
  - change (Number.digits_of (n / 10 ^ Z.of_nat (S f)) ++ ["."%char]
            ++ Number.fixed_width (S f) n)%list
      with (Number.digits_of (n / 10 ^ Z.of_nat (S f))
            ++ "."%char :: Number.fixed_width (S f) n)%list.
    rewrite fraction_digits_split.
    + apply fixed_width_length.
    + apply digits_of_no_point.
Qed.

(** [toLocaleString] writes at most the digits it is allowed. *)
Lemma toLocaleString_fraction_digits (x : Number.number) (f : nat) :
  (Number.fraction_digits (Number.toLocaleString x f) <= f)%nat.
Proof.
  destruct x as [| b | q].
  - cbn. lia.
  - destruct b; cbn; lia.
  - unfold Number.toLocaleString.
    set (n := Number.scaled_round (Number.shortest_decimal (Qabs q)) f).
    set (whole := Number.group3 (Number.digits_of (n / 10 ^ Z.of_nat f))).
    assert (Hwhole : Number.no_point whole) by (apply group3_no_point, digits_of_no_point).
    assert (Hlen := strip_trailing_zeros_length (Number.fixed_width f n)).
    rewrite fixed_width_length in Hlen.
    destruct (Number.strip_trailing_zeros (Number.fixed_width f n)) as [| c frac] eqn:Hfrac.
    + destruct (negb (Qle_bool 0 q)).
      * rewrite fraction_digits_no_point; [lia |].
        constructor; [discriminate | assumption].
      * rewrite fraction_digits_no_point; [lia | assumption].
    + destruct (negb (Qle_bool 0 q)).
      * change ("-"%char :: (whole ++ ["."%char] ++ c :: frac))%list
          with (("-"%char :: whole) ++ "."%char :: c :: frac)%list.
        rewrite fraction_digits_split; [exact Hlen |].
        constructor; [discriminate | assumption].
      * change (whole ++ ["."%char] ++ c :: frac)%list
          with (whole ++ "."%char :: c :: frac)%list.
        rewrite fraction_digits_split; [exact Hlen | assumption].
Qed.

Lemma append_cons (c : ascii) (a b : string) : String c a +:+ b = String c (a +:+ b).
Proof. reflexivity. Qed.

Lemma zeros_append_length (k : nat) (s : string) :
  String.length (Ethers.zeros k +:+ s) = (k + String.length s)%nat.
Proof.
  induction k as [| k IH]; [reflexivity |].
  cbn [Ethers.zeros]. rewrite append_cons. cbn [String.length]. rewrite IH. reflexivity.
Qed.

Lemma zeros_append_all_zero (k : nat) :
  Ethers.all_zero (Ethers.zeros k +:+ "0") = true.
Proof. induction k as [| k IH]; [reflexivity | exact IH]. Qed.

Lemma trim_fraction_zeros (k : nat) :
  Ethers.trim_fraction (Ethers.zeros k +:+ "0") = "0".
Proof.
  destruct k as [| k]; [reflexivity |].
  cbn [Ethers.zeros]. rewrite append_cons. cbn [Ethers.trim_fraction].
  rewrite zeros_append_all_zero.
  destruct (Ethers.zeros k +:+ "0"); reflexivity.
Qed.

(** A balance of zero is written ["0"] or ["0.0"]. *)
Lemma formatUnits_zero (decimals : nat) :
  Ethers.toString 0 decimals = match decimals with O => "0" | S _ => "0.0" end.
Proof.
  destruct decimals as [| k]; [reflexivity |].
  unfold Ethers.toString.
  change (Ethers.show_bigint (Z.abs 0)) with "0".
  change (S (S k) - String.length "0")%nat with (S k - 0)%nat.
  rewrite Nat.sub_0_r.
  rewrite zeros_append_length.
  replace (S k + String.length "0" - S k)%nat with 1%nat by (cbn; lia).
  cbn [Ethers.zeros]. rewrite append_cons.
  cbn [Ethers.take Ethers.drop Z.ltb Z.compare].
  rewrite trim_fraction_zeros. reflexivity.
Qed.

(** ** Rounding depends on the value only *)

Lemma round_half_even_scale (c x y : Z) :
  0 < c -> 0 < y ->
  Number.round_half_even (c * x) (c * y) = Number.round_half_even x y.
Proof.
  intros Hc Hy. unfold Number.round_half_even.
  rewrite Z.div_mul_cancel_l by lia.
  rewrite Z.mul_mod_distr_l by lia.
  replace (2 * (c * (x mod y))) with (c * (2 * (x mod y))) by lia.
  rewrite <- (Zmult_compare_compat_l (2 * (x mod y)) y c) by lia. reflexivity.
Qed.

Lemma scale2_scale (c n d e : Z) :
  Number.scale2 (c * n) (c * d) e
  = (c * fst (Number.scale2 n d e), c * snd (Number.scale2 n d e)).
Proof.
  unfold Number.scale2. destruct (0 <=? e); cbn [fst snd]; f_equal; lia.
Qed.

(** [ratio_ge] with both sides brought to integers by a common power. *)
Lemma ratio_ge_common (n d k m : Z) :
  0 <= m -> 0 <= k + m ->
  Number.ratio_ge n d k = (d * 2 ^ (k + m) <=? n * 2 ^ m).
Proof.
  intros Hm Hkm. unfold Number.ratio_ge, Number.scale2.
  assert (Hpm : 0 < 2 ^ m) by (apply Z.pow_pos_nonneg; lia).
  destruct (Z.leb_spec 0 k) as [Hk | Hk].
  - rewrite Z.pow_add_r by lia.
    apply eq_true_iff_eq. rewrite !Z.leb_le. nia.
  - replace m with (- k + (k + m)) at 2 by lia.
    rewrite (Z.pow_add_r 2 (- k)) by lia.
    assert (Hp : 0 < 2 ^ (k + m)) by (apply Z.pow_pos_nonneg; lia).
    apply eq_true_iff_eq. rewrite !Z.leb_le. nia.
Qed.

Lemma ratio_ge_mono (n d j k : Z) :
  0 < n -> 0 < d -> j <= k ->
  Number.ratio_ge n d k = true -> Number.ratio_ge n d j = true.
Proof.
  intros Hn Hd Hjk.
  rewrite (ratio_ge_common n d k (Z.abs j + Z.abs k)) by lia.
  rewrite (ratio_ge_common n d j (Z.abs j + Z.abs k)) by lia.
  rewrite !Z.leb_le. intros H.
  assert (Hpow : 2 ^ (j + (Z.abs j + Z.abs k)) <= 2 ^ (k + (Z.abs j + Z.abs k)))
    by (apply Z.pow_le_mono_r; lia).
  nia.
Qed.

Lemma ratio_ge_scale (c n d k : Z) :
  0 < c -> Number.ratio_ge (c * n) (c * d) k = Number.ratio_ge n d k.
Proof.
  intros Hc. unfold Number.ratio_ge. rewrite scale2_scale.
  destruct (Number.scale2 n d k) as [n' d']. cbn [fst snd].
  apply eq_true_iff_eq. rewrite !Z.leb_le. nia.
Qed.

Lemma floor_log2_unfold (n d : Z) :
  Number.floor_log2 n d
  = if Number.ratio_ge n d (Z.log2 n - Z.log2 d)
    then Z.log2 n - Z.log2 d else Z.log2 n - Z.log2 d - 1.
Proof.
  unfold Number.floor_log2, Number.ratio_ge.
  destruct (Number.scale2 n d (Z.log2 n - Z.log2 d)). reflexivity.
Qed.

(** [floor_log2 n d] is the [k] with [2^k <= n / d < 2^(k+1)]. *)
Lemma floor_log2_spec (n d : Z) :
  0 < n -> 0 < d ->
  Number.ratio_ge n d (Number.floor_log2 n d) = true
  /\ Number.ratio_ge n d (Number.floor_log2 n d + 1) = false.
Proof.
  intros Hn Hd.
  destruct (Z.log2_spec n Hn) as [Hn1 Hn2].
  destruct (Z.log2_spec d Hd) as [Hd1 Hd2].
  assert (Ha := Z.log2_nonneg n). assert (Hb := Z.log2_nonneg d).
  set (a := Z.log2 n) in *. set (b := Z.log2 d) in *.
  assert (Hlow : Number.ratio_ge n d (a - b - 1) = true).
  { rewrite (ratio_ge_common n d (a - b - 1) (b + 1)) by lia.
    replace (a - b - 1 + (b + 1)) with a by lia.
    replace (Z.succ b) with (b + 1) in Hd2 by lia.
    apply Z.leb_le. nia. }
  assert (Hhigh : Number.ratio_ge n d (a - b + 1) = false).
  { rewrite (ratio_ge_common n d (a - b + 1) b) by lia.
    replace (a - b + 1 + b) with (a + 1) by lia.
    replace (Z.succ a) with (a + 1) in Hn2 by lia.
    apply Z.leb_gt. nia. }
  rewrite floor_log2_unfold. fold a b.
  destruct (Number.ratio_ge n d (a - b)) eqn:Hmid.
  - split; assumption.
  - split; [assumption |]. replace (a - b - 1 + 1) with (a - b) by lia. assumption.
Qed.

Lemma floor_log2_scale (c n d : Z) :
  0 < c -> 0 < n -> 0 < d ->
  Number.floor_log2 (c * n) (c * d) = Number.floor_log2 n d.
Proof.
  intros Hc Hn Hd.
  destruct (floor_log2_spec n d Hn Hd) as [H1 H2].
  destruct (floor_log2_spec (c * n) (c * d)) as [H3 H4]; [nia | nia |].
  rewrite ratio_ge_scale in H3, H4 by assumption.
  set (k := Number.floor_log2 n d) in *.
  set (k' := Number.floor_log2 (c * n) (c * d)) in *.
  destruct (Z.lt_trichotomy k k') as [Hlt | [Heq | Hgt]]; [| congruence |].
  - rewrite (ratio_ge_mono n d (k + 1) k') in H2 by (assumption || lia). discriminate.
  - rewrite (ratio_ge_mono n d (k' + 1) k) in H4 by (assumption || lia). discriminate.
Qed.

Lemma round64_pos_scale (c n d : Z) :
  0 < c -> 0 < n -> 0 < d ->
  Number.round64_pos (c * n) (c * d) = Number.round64_pos n d.
Proof.
  intros Hc Hn Hd. unfold Number.round64_pos.
  rewrite floor_log2_scale by assumption.
  set (e := Z.max (Number.floor_log2 n d - 52) (- 1074)).
  rewrite scale2_scale.
  assert (Hd' : 0 < snd (Number.scale2 n d e)).
  { unfold Number.scale2. destruct (0 <=? e) eqn:He; cbn [snd]; [| assumption].
    apply Z.leb_le in He.
    assert (0 < 2 ^ e) by (apply Z.pow_pos_nonneg; lia). nia. }
  destruct (Number.scale2 n d e) as [n' d']. cbn [fst snd] in *.
  rewrite round_half_even_scale by assumption. reflexivity.
Qed.

(** The Number value of [n / d] does not depend on the fraction chosen. *)
Lemma round64_scale (c n d : Z) :
  0 < c -> 0 <= n -> 0 < d ->
  Number.round64 (n * c) (d * c) = Number.round64 n d.
Proof.
  intros Hc Hn Hd.
  rewrite (Z.mul_comm n c), (Z.mul_comm d c).
  destruct n as [| p | p]; [rewrite Z.mul_0_r; reflexivity | | lia].
  assert (Hpos : 0 < c * Z.pos p) by nia.
  destruct (c * Z.pos p) as [| q | q] eqn:Hq; try lia.
  cbn [Number.round64]. rewrite <- Hq. apply round64_pos_scale; lia.
Qed.

(** ** Reading back what [formatUnits] writes *)

Lemma append_length (a b : string) :
  String.length (a +:+ b) = (String.length a + String.length b)%nat.
Proof.
  induction a as [| c a IH]; [reflexivity |].
  rewrite append_cons. cbn [String.length]. rewrite IH. reflexivity.
Qed.

Lemma append_nil_r (a : string) : a +:+ EmptyString = a.
Proof.
  induction a as [| c a IH]; [reflexivity |]. rewrite append_cons, IH. reflexivity.
Qed.

Lemma append_assoc (a b c : string) : (a +:+ b) +:+ c = a +:+ (b +:+ c).
Proof.
  induction a as [| x a IH]; [reflexivity |]. rewrite !append_cons, IH. reflexivity.
Qed.

Lemma all_digits_app (a b : string) :
  Ethers.all_digits (a +:+ b) = Ethers.all_digits a && Ethers.all_digits b.
Proof.
  induction a as [| c a IH]; [reflexivity |].
  rewrite append_cons. cbn [Ethers.all_digits]. rewrite IH, andb_assoc. reflexivity.
Qed.

Lemma all_digits_zeros (k : nat) : Ethers.all_digits (Ethers.zeros k) = true.
Proof. induction k as [| k IH]; [reflexivity | exact IH]. Qed.

Lemma digits_value_app (a b : string) :
  forall acc, Ethers.digits_value acc (a +:+ b)
              = Ethers.digits_value (Ethers.digits_value acc a) b.
Proof.
  induction a as [| c a IH]; intros acc; [reflexivity |].
  rewrite append_cons. cbn [Ethers.digits_value]. apply IH.
Qed.

Lemma digits_value_zeros (k : nat) :
  forall acc, Ethers.digits_value acc (Ethers.zeros k) = acc * 10 ^ Z.of_nat k.
Proof.
  induction k as [| k IH]; intros acc.
  - cbn. lia.
  - cbn [Ethers.zeros Ethers.digits_value]. rewrite IH.
    change (Ethers.digit_value "0") with 0.
    rewrite Nat2Z.inj_succ, Z.pow_succ_r by lia. lia.
Qed.

Lemma digits_value_nonneg (s : string) :
  Ethers.all_digits s = true ->
  forall acc, 0 <= acc -> 0 <= Ethers.digits_value acc s.
Proof.
  induction s as [| c s IH]; intros Hs acc Hacc; [exact Hacc |].
  cbn [Ethers.all_digits] in Hs. apply andb_true_iff in Hs as [Hc Hs].
  cbn [Ethers.digits_value]. apply IH; [assumption |].
  unfold Ethers.is_digit in Hc. apply andb_true_iff in Hc as [Hc1 Hc2].
  apply Nat.leb_le in Hc1. unfold Ethers.digit_value. lia.
Qed.

(** The digits at the start of [a +:+ b] are [a] when [b] starts otherwise. *)
Lemma span_digits_app (a b : string) :
  Ethers.all_digits a = true ->
  match b with String c _ => Ethers.is_digit c = false | EmptyString => True end ->
  Ethers.span_digits (a +:+ b) = (a, b).
Proof.
  intros Ha Hb. induction a as [| c a IH].
  - destruct b as [| c r]; [reflexivity |].
    change (EmptyString +:+ String c r) with (String c r).
    cbn [Ethers.span_digits]. rewrite Hb. reflexivity.
  - cbn [Ethers.all_digits] in Ha. apply andb_true_iff in Ha as [Hc Ha].
    rewrite append_cons. cbn [Ethers.span_digits]. rewrite Hc, (IH Ha). reflexivity.
Qed.

Lemma take_drop (i : nat) : forall s, Ethers.take i s +:+ Ethers.drop i s = s.
Proof.
  induction i as [| i IH]; intros [| c s]; try reflexivity.
  cbn [Ethers.take Ethers.drop]. rewrite append_cons, IH. reflexivity.
Qed.

Lemma drop_length (i : nat) :
  forall s, String.length (Ethers.drop i s) = (String.length s - i)%nat.
Proof.
  induction i as [| i IH]; intros [| c s]; try reflexivity.
  cbn [Ethers.drop String.length]. rewrite IH. reflexivity.
Qed.

Lemma all_zero_zeros (s : string) :
  Ethers.all_zero s = true -> s = Ethers.zeros (String.length s).
Proof.
  induction s as [| c s IH]; [reflexivity |].
  cbn [Ethers.all_zero]. intros H. apply andb_true_iff in H as [Hc Hs].
  apply Ascii.eqb_eq in Hc. subst c. cbn [String.length Ethers.zeros].
  rewrite <- (IH Hs). reflexivity.
Qed.

(** [trim_fraction] drops zeros at the end and nothing else. *)
Lemma trim_fraction_spec (f : string) :
  f <> EmptyString ->
  exists j, f = Ethers.trim_fraction f +:+ Ethers.zeros j
            /\ Ethers.trim_fraction f <> EmptyString.
Proof.
  induction f as [| c r IH]; [congruence |]. intros _.
  cbn [Ethers.trim_fraction].
  destruct r as [| c' r'].
  - exists O. split; [reflexivity | discriminate].
  - destruct (Ethers.all_zero (String c' r')) eqn:Hz.
    + exists (String.length (String c' r')). split; [| discriminate].
      rewrite append_cons. cbn [String.append]. rewrite <- (all_zero_zeros _ Hz). reflexivity.
    + destruct IH as (j & Hj & _); [discriminate |].
      exists j. split; [| discriminate].
      rewrite append_cons. rewrite <- Hj. reflexivity.
Qed.

Lemma uint_all_digits (u : Decimal.uint) :
  Ethers.all_digits (DecimalString.NilEmpty.string_of_uint u) = true.
Proof. induction u; cbn; assumption || reflexivity. Qed.

Lemma digits_value_uint (u : Decimal.uint) :
  forall acc, Ethers.digits_value acc (DecimalString.NilEmpty.string_of_uint u)
              = Ethers.uint_value acc u.
Proof. induction u; intros acc; cbn; try reflexivity; apply IHu. Qed.

Lemma of_uint_acc_value (u : Decimal.uint) :
  forall acc, Z.pos (Pos.of_uint_acc u acc) = Ethers.uint_value (Z.pos acc) u.
Proof.
  induction u; intros acc; cbn [Pos.of_uint_acc Ethers.uint_value]; try reflexivity;
    rewrite IHu; f_equal; lia.
Qed.

Lemma of_uint_value (u : Decimal.uint) : Z.of_N (Pos.of_uint u) = Ethers.uint_value 0 u.
Proof.
  induction u; cbn [Pos.of_uint Ethers.uint_value]; try reflexivity;
    try (cbn [Z.of_N]; rewrite of_uint_acc_value; reflexivity).
  exact IHu.
Qed.

(** The digits of a natural number, read back, give the number. *)
Lemma show_bigint_spec (n : Z) :
  0 <= n ->
  Ethers.all_digits (Ethers.show_bigint n) = true
  /\ Ethers.digits_value 0 (Ethers.show_bigint n) = n
  /\ Ethers.show_bigint n <> EmptyString.
Proof.
  intros Hn. unfold Ethers.show_bigint, Js.show_int.
  assert (Hint : Z.to_int n = Decimal.Pos (N.to_uint (Z.to_N n))).
  { destruct n as [| p | p]; [reflexivity | reflexivity | lia]. }
  rewrite Hint. cbn [DecimalString.NilZero.string_of_int].
  assert (Hval : Ethers.uint_value 0 (N.to_uint (Z.to_N n)) = n).
  { rewrite <- of_uint_value.
    change (Pos.of_uint (N.to_uint (Z.to_N n))) with (N.of_uint (N.to_uint (Z.to_N n))).
    rewrite DecimalN.Unsigned.of_to. lia. }
  unfold DecimalString.NilZero.string_of_uint.
  destruct (N.to_uint (Z.to_N n)) as [| u | u | u | u | u | u | u | u | u | u] eqn:Hu.
  1:{ cbn in Hval. subst n. repeat split; discriminate || reflexivity. }
  all: rewrite <- Hu at 1 2; rewrite <- Hu in Hval;
    (split; [apply uint_all_digits |]);
    (split; [rewrite digits_value_uint; exact Hval |]);
    cbn; discriminate.
Qed.

Lemma zeros_length (k : nat) : String.length (Ethers.zeros k) = k.
Proof. induction k as [| k IH]; [reflexivity |]. cbn [Ethers.zeros String.length]. rewrite IH. reflexivity. Qed.

Lemma take_length (i : nat) :
  forall s, String.length (Ethers.take i s) = Nat.min i (String.length s).
Proof.
  induction i as [| i IH]; intros [| c s]; try reflexivity.
  cbn [Ethers.take String.length Nat.min]. rewrite IH. reflexivity.
Qed.

Lemma parseFloat_unsigned (c : ascii) (r : string) :
  Ethers.is_digit c = true ->
  Number.parseFloat (String c r) = Number.parse_unsigned (String c r).
Proof.
  intros H.
  destruct c as [[] [] [] [] [] [] [] []];
    try (vm_compute in H; discriminate H); reflexivity.
Qed.

Lemma parse_unsigned_integer (whole : string) :
  Ethers.all_digits whole = true -> whole <> EmptyString ->
  Number.parse_unsigned whole = Number.round64 (Ethers.digits_value 0 whole) 1.
Proof.
  intros Hd Hne. unfold Number.parse_unsigned.
  rewrite <- (append_nil_r whole) at 1.
  rewrite span_digits_app by (assumption || exact I).
  cbn [String.length]. rewrite Nat.add_0_r.
  destruct (String.length whole =? 0)%nat eqn:Hlen.
  { apply Nat.eqb_eq in Hlen. destruct whole; [congruence | discriminate]. }
  rewrite append_nil_r. cbn [Number.exponent_part Z.of_nat Z.sub Z.opp Z.add Z.leb Z.compare].
  change (10 ^ 0) with 1. rewrite Z.mul_1_r. reflexivity.
Qed.

Lemma parse_unsigned_decimal (whole frac : string) :
  Ethers.all_digits whole = true -> Ethers.all_digits frac = true ->
  frac <> EmptyString ->
  Number.parse_unsigned (whole +:+ "." +:+ frac)
  = Number.round64 (Ethers.digits_value 0 (whole +:+ frac))
      (10 ^ Z.of_nat (String.length frac)).
Proof.
  intros Hw Hf Hne. unfold Number.parse_unsigned.
  change ("." +:+ frac) with (String "." frac).
  rewrite span_digits_app by (assumption || reflexivity).
  rewrite <- (append_nil_r frac) at 1.
  rewrite span_digits_app by (assumption || exact I).
  destruct (String.length whole + String.length frac =? 0)%nat eqn:Hlen.
  { apply Nat.eqb_eq in Hlen. destruct frac; [congruence | cbn in Hlen; lia]. }
  cbn [Number.exponent_part].
  assert (Hpos : (0 < String.length frac)%nat)
    by (destruct frac; [congruence | cbn; lia]).
  destruct (Z.leb_spec 0 (0 - Z.of_nat (String.length frac))) as [Hle | Hlt]; [lia |].
  replace (- (0 - Z.of_nat (String.length frac))) with (Z.of_nat (String.length frac)) by lia.
  reflexivity.
Qed.

Lemma first_is_digit (s : string) :
  Ethers.all_digits s = true -> s <> EmptyString ->
  exists c r, s = String c r /\ Ethers.is_digit c = true.
Proof.
  destruct s as [| c r]; [congruence |]. intros H _.
  cbn [Ethers.all_digits] in H. apply andb_true_iff in H as [Hc _]. eauto.
Qed.

(** What [parseFloat] reads back from [formatUnits] is the Number value of
    [raw / 10^decimals]: the double nearest to the balance. *)
Lemma parseFloat_formatUnits (raw : Z) (decimals : nat) :
  0 <= raw ->
  Number.parseFloat (Ethers.toString raw decimals)
  = Number.round64 raw (10 ^ Z.of_nat decimals).
Proof.
  intros Hraw. unfold Ethers.toString.
  destruct (Z.ltb_spec raw 0) as [Hneg | _]; [lia |].
  rewrite Z.abs_eq by assumption.
  destruct (show_bigint_spec raw Hraw) as (Hdig & Hval & Hne).
  set (str := Ethers.show_bigint raw) in *.
  destruct decimals as [| k].
  - change (EmptyString +:+ str) with str.
    destruct (first_is_digit str Hdig Hne) as (c & r & Hstr & Hc).
    rewrite Hstr at 1. rewrite parseFloat_unsigned by assumption. rewrite <- Hstr.
    rewrite parse_unsigned_integer by assumption. rewrite Hval. reflexivity.
  - set (d := S k).
    set (padded := Ethers.zeros (S d - String.length str) +:+ str).
    assert (Hpdig : Ethers.all_digits padded = true).
    { unfold padded. rewrite all_digits_app, all_digits_zeros, Hdig. reflexivity. }
    assert (Hpval : Ethers.digits_value 0 padded = raw).
    { unfold padded. rewrite digits_value_app, digits_value_zeros.
      rewrite Z.mul_0_l. exact Hval. }
    assert (Hplen : (S d <= String.length padded)%nat).
    { unfold padded. rewrite append_length, zeros_length. lia. }
    set (index := (String.length padded - d)%nat).
    set (whole := Ethers.take index padded).
    set (fracfull := Ethers.drop index padded).
    assert (Hsplit : whole +:+ fracfull = padded) by apply take_drop.
    assert (Hflen : String.length fracfull = d).
    { unfold fracfull. rewrite drop_length. unfold index. lia. }
    assert (Hwlen : (1 <= String.length whole)%nat).
    { unfold whole. rewrite take_length. unfold index. lia. }
    assert (Hboth : Ethers.all_digits whole = true /\ Ethers.all_digits fracfull = true).
    { rewrite <- Hsplit, all_digits_app in Hpdig. apply andb_true_iff in Hpdig. exact Hpdig. }
    destruct Hboth as [Hwdig Hfdig].
    assert (Hfne : fracfull <> EmptyString).
    { intros E. rewrite E in Hflen. discriminate Hflen. }
    assert (Hwne : whole <> EmptyString).
    { intros E. rewrite E in Hwlen. cbn in Hwlen. lia. }
    destruct (trim_fraction_spec fracfull Hfne) as (j & Hj & Htne).
    set (trimmed := Ethers.trim_fraction fracfull) in *.
    assert (Htdig : Ethers.all_digits trimmed = true).
    { rewrite Hj, all_digits_app in Hfdig. apply andb_true_iff in Hfdig as [H _]. exact H. }
    change (EmptyString +:+ whole +:+ "." +:+ trimmed) with (whole +:+ "." +:+ trimmed).
    destruct (first_is_digit whole Hwdig Hwne) as (c & r & Hw & Hc).
    assert (Hparse : Number.parseFloat (whole +:+ "." +:+ trimmed)
                     = Number.parse_unsigned (whole +:+ "." +:+ trimmed)).
    { rewrite Hw, append_cons. apply parseFloat_unsigned. exact Hc. }
    rewrite Hparse, parse_unsigned_decimal by assumption.
    assert (Hd : Z.of_nat d = Z.of_nat (String.length trimmed) + Z.of_nat j).
    { rewrite <- Hflen, Hj, append_length, zeros_length. lia. }
    assert (Hr : raw = Ethers.digits_value 0 (whole +:+ trimmed) * 10 ^ Z.of_nat j).
    { rewrite <- Hpval, <- Hsplit, Hj, <- append_assoc.
      rewrite (digits_value_app (whole +:+ trimmed)), digits_value_zeros. reflexivity. }
    rewrite Hd, Z.pow_add_r by lia.
    transitivity
      (Number.round64 (Ethers.digits_value 0 (whole +:+ trimmed) * 10 ^ Z.of_nat j)
         (10 ^ Z.of_nat (String.length trimmed) * 10 ^ Z.of_nat j)).
    + symmetry. apply round64_scale.
      * apply Z.pow_pos_nonneg; lia.
      * apply digits_value_nonneg; [| lia].
        rewrite all_digits_app, Hwdig, Htdig. reflexivity.
      * apply Z.pow_pos_nonneg; lia.
    + rewrite <- Hr. reflexivity.
Qed.

(** ** Values from one on *)

Lemma round_half_even_lower (n d : Z) : n / d <= Number.round_half_even n d.
Proof.
  unfold Number.round_half_even.
  destruct (2 * (n mod d) ?= d); [destruct (Z.even (n / d)) | |]; lia.
Qed.

Lemma lit_0_0001_value :
  Number.lit_0_0001 = Number.Finite (7378697629483821 # 73786976294838206464).
Proof. vm_compute. reflexivity. Qed.

Lemma band_from_one (q : Q) : (1 <= q)%Q -> Number.band_of (Number.Finite q) = Number.FromOne.
Proof.
  intros Hq. unfold Number.band_of.
  assert (Hzero : Number.strict_eq (Number.Finite q) Number.lit_0 = false).
  { cbn. apply not_true_iff_false. intros H. apply Qeq_bool_iff in H.
    rewrite H in Hq. revert Hq. unfold Qle. cbn. lia. }
  assert (Hdust : Number.lt (Number.Finite q) Number.lit_0_0001 = false).
  { rewrite lit_0_0001_value. cbn [Number.lt]. apply negb_false_iff.
    apply Qle_bool_iff. eapply Qle_trans; [| exact Hq]. unfold Qle. cbn. lia. }
  assert (Hone : Number.lt (Number.Finite q) Number.lit_1 = false).
  { cbn [Number.lt Number.lit_1]. apply negb_false_iff. apply Qle_bool_iff. exact Hq. }
  rewrite Hzero, Hdust, Hone. reflexivity.
Qed.

(** A value of at least 1 rounds to a number of at least 1. *)
Lemma round64_from_one (n d : Z) :
  0 < d -> d <= n -> Number.band_of (Number.round64 n d) = Number.FromOne.
Proof.
  intros Hd Hn.
  destruct n as [| p | p]; [lia | | lia].
  cbn [Number.round64]. set (n := Z.pos p) in *.
  assert (Hnpos : 0 < n) by lia.
  destruct (floor_log2_spec n d Hnpos Hd) as [Hlow Hhigh].
  set (fl := Number.floor_log2 n d) in *.
  assert (Hfl : 0 <= fl).
  { destruct (Z.le_gt_cases 0 fl) as [H | H]; [exact H |].
    assert (H0 : Number.ratio_ge n d 0 = true).
    { unfold Number.ratio_ge, Number.scale2. cbn [Z.leb Z.compare].
      apply Z.leb_le. change (2 ^ 0) with 1. lia. }
    rewrite (ratio_ge_mono n d (fl + 1) 0) in Hhigh by (assumption || lia).
    discriminate. }
  assert (Hge : d * 2 ^ fl <= n).
  { unfold Number.ratio_ge, Number.scale2 in Hlow.
    destruct (Z.leb_spec 0 fl); [| lia]. apply Z.leb_le in Hlow. exact Hlow. }
  unfold Number.round64_pos. fold fl.
  rewrite Z.max_l by lia.
  set (e := fl - 52).
  assert (Hm : 2 ^ 52 <= Number.round_half_even (fst (Number.scale2 n d e))
                            (snd (Number.scale2 n d e))
               /\ 0 < snd (Number.scale2 n d e)).
  { unfold Number.scale2. destruct (Z.leb_spec 0 e) as [He | He]; cbn [fst snd].
    - assert (Hp : 0 < 2 ^ e) by (apply Z.pow_pos_nonneg; lia).
      split; [| nia].
      etransitivity; [| apply round_half_even_lower].
      apply Z.div_le_lower_bound; [nia |].
      replace fl with (e + 52) in Hge by (unfold e; lia).
      rewrite Z.pow_add_r in Hge by lia. nia.
    - split; [| assumption].
      etransitivity; [| apply round_half_even_lower].
      apply Z.div_le_lower_bound; [assumption |].
      assert (Hp : 0 < 2 ^ (- e)) by (apply Z.pow_pos_nonneg; lia).
      assert (Hsplit : 2 ^ 52 = 2 ^ fl * 2 ^ (- e)).
      { rewrite <- Z.pow_add_r by lia. f_equal. unfold e. lia. }
      rewrite Hsplit. nia. }
  destruct (Number.scale2 n d e) as [n' d']. cbn [fst snd] in Hm.
  destruct Hm as [Hm Hd'].
  set (m := Number.round_half_even n' d') in *.
  destruct ((971 <? e) || (e =? 971) && (m =? 2 ^ 53)).
  - unfold Number.band_of. rewrite lit_0_0001_value. reflexivity.
  - apply band_from_one. unfold Number.dyadic.
    rewrite Qred_correct.
    destruct (Z.leb_spec 0 e) as [He | He].
    + assert (Hp : 0 < 2 ^ e) by (apply Z.pow_pos_nonneg; lia).
      unfold Qle. cbn [Qnum Qden]. nia.
    + assert (Hp : 0 < 2 ^ (- e)) by (apply Z.pow_pos_nonneg; lia).
      unfold Qle. cbn [Qnum Qden]. rewrite Z2Pos.id by assumption.
      assert (Hle : 2 ^ (- e) <= 2 ^ 52) by (apply Z.pow_le_mono_r; unfold e; lia).
      lia.
Qed.

(** Within its bounds [formatUnits] writes the digits. *)
Lemma formatUnits_in_range (raw : Z) (decimals : nat) :
  (decimals <= 80)%nat -> - 2 ^ 511 <= raw < 2 ^ 511 ->
  Ethers.formatUnits raw decimals = inr (Ethers.toString raw decimals).
Proof.
  intros Hd [Hlo Hhi]. unfold Ethers.formatUnits.
  destruct (Nat.ltb_spec 80 decimals); [lia |].
  destruct (Z.ltb_spec raw (- 2 ^ 511)); [lia |].
  destruct (Z.leb_spec (2 ^ 511) raw); [lia | reflexivity].
Qed.

Lemma formatUnits_uint256 (raw : Z) (decimals : nat) :
  (decimals <= 80)%nat -> 0 <= raw < 2 ^ 256 ->
  Ethers.formatUnits raw decimals = inr (Ethers.toString raw decimals).
Proof.
  intros Hd [Hlo Hhi]. apply formatUnits_in_range; [exact Hd |].
  assert (2 ^ 256 < 2 ^ 511) by (apply Z.pow_lt_mono_r; lia).
  assert (0 < 2 ^ 511) by (apply Z.pow_pos_nonneg; lia). lia.
Qed.

(** Beyond 80 decimals [formatUnits] throws. *)
Lemma formatUnits_too_many_decimals (raw : Z) (decimals : nat) :
  (80 < decimals)%nat -> Ethers.formatUnits raw decimals = inl Ethers.too_many_decimals.
Proof.
  intros Hd. unfold Ethers.formatUnits.
  destruct (Nat.ltb_spec 80 decimals); [reflexivity | lia].
Qed.

(** The display by the four cases of [balanceDisplay], for any string that
    [balanceFormatted] may hold. *)
Lemma balanceDisplayOf_bands (ti : UseERC20.TokenInfo) (formatted : string) :
  match Number.band_of (Number.parseFloat formatted) with
  | Number.Zero => UseERC20.balanceDisplayOf (Some ti) formatted = "0.00"
  | Number.Dust => UseERC20.balanceDisplayOf (Some ti) formatted = "< 0.0001"
  | Number.BelowOne =>
      UseERC20.balanceDisplayOf (Some ti) formatted
      = Number.toFixed (Number.parseFloat formatted) 4
      /\ Number.fraction_digits (UseERC20.balanceDisplayOf (Some ti) formatted) = 4%nat
  | Number.FromOne =>
      UseERC20.balanceDisplayOf (Some ti) formatted
      = Number.toLocaleString (Number.parseFloat formatted) 6
      /\ (Number.fraction_digits (UseERC20.balanceDisplayOf (Some ti) formatted) <= 6)%nat
  end.
Proof.
  unfold UseERC20.balanceDisplayOf, Number.band_of.
  set (num := Number.parseFloat _).
  destruct (Number.strict_eq num Number.lit_0); [reflexivity |].
  destruct (Number.lt num Number.lit_0_0001) eqn:Hdust; [reflexivity |].
  destruct (Number.lt num Number.lit_1) eqn:Hone.
  - split; [reflexivity |].
    destruct num as [| b | q].
    + discriminate Hone.
    + destruct b; [discriminate Hdust | discriminate Hone].
    + apply toFixed_fraction_digits.
  - split; [reflexivity | apply toLocaleString_fraction_digits].
Qed.

(** C8, as the code has it. With the token info loaded, the display is
    chosen on [num = parseFloat(balanceFormatted)]. For a balance that a
    [uint256] holds and a token of at most 80 decimals, [balanceFormatted]
    is what [formatUnits] writes and [num] is the double nearest to the
    value, and not the value itself; for a token of more than 80 decimals
    [formatUnits] throws, [balanceFormatted] is ["0"] and the display
    ["0.00"]. The display is ["0.00"] when [num] is zero, which a balance of
    zero always is; ["< 0.0001"] when [num] is below the double [0.0001];
    [num.toFixed(4)], with exactly 4 fraction digits, when [num] is below 1;
    and otherwise, so whenever the value is at least 1, the [en-US] form of
    [num], grouped by three, with at most 6 fraction digits. *)
Theorem balanceDisplay_by_rounded_value
  (ti : UseERC20.TokenInfo) (s : UseERC20.state) :
  let raw := UseERC20.st_balanceRaw s in
  let decimals := UseERC20.decimals ti in
  let unit := 10 ^ Z.of_nat decimals in
  let formatted := UseERC20.balanceFormatted (UseERC20.useERC20Balance (Some ti) s) in
  let num := Number.parseFloat formatted in
  let display := UseERC20.balanceDisplay (UseERC20.useERC20Balance (Some ti) s) in
  ((decimals <= 80)%nat -> 0 <= raw < 2 ^ 256 ->
   Ethers.formatUnits raw decimals = inr formatted
   /\ num = Number.round64 raw unit)
  /\ ((80 < decimals)%nat -> formatted = "0" /\ display = "0.00")
  /\ (raw = 0 -> display = "0.00")
  /\ ((decimals <= 80)%nat -> unit <= raw < 2 ^ 256 ->
      display = Number.toLocaleString num 6
      /\ (Number.fraction_digits display <= 6)%nat)
  /\ match Number.band_of num with
     | Number.Zero => display = "0.00"
     | Number.Dust => display = "< 0.0001"
     | Number.BelowOne =>
         display = Number.toFixed num 4 /\ Number.fraction_digits display = 4%nat
     | Number.FromOne =>
         display = Number.toLocaleString num 6
         /\ (Number.fraction_digits display <= 6)%nat
     end.
Proof.
  cbn zeta. cbn [UseERC20.useERC20Balance UseERC20.balanceDisplay UseERC20.balanceFormatted].
  set (raw := UseERC20.st_balanceRaw s).
  assert (Hin : (UseERC20.decimals ti <= 80)%nat -> 0 <= raw < 2 ^ 256 ->
                UseERC20.balanceFormattedOf (Some ti) raw
                = Ethers.toString raw (UseERC20.decimals ti)).
  { intros Hd Hr. unfold UseERC20.balanceFormattedOf.
    rewrite formatUnits_uint256 by assumption. reflexivity. }
  assert (Hout : (80 < UseERC20.decimals ti)%nat ->
                 UseERC20.balanceFormattedOf (Some ti) raw = "0").
  { intros Hd. unfold UseERC20.balanceFormattedOf.
    rewrite formatUnits_too_many_decimals by assumption. reflexivity. }
  split; [| split; [| split; [| split]]].
  - intros Hd Hr. rewrite (Hin Hd Hr). split.
    + apply formatUnits_uint256; assumption.
    + apply parseFloat_formatUnits. lia.
  - intros Hd. rewrite (Hout Hd). split; reflexivity.
  - intros Hz. destruct (Nat.ltb_spec 80 (UseERC20.decimals ti)) as [Hd | Hd].
    + rewrite (Hout Hd). reflexivity.
    + rewrite Hin by (rewrite ?Hz; lia). rewrite Hz, formatUnits_zero.
      destruct (UseERC20.decimals ti); reflexivity.
  - intros Hd [Hone Hmax].
    assert (Hunit : 0 < 10 ^ Z.of_nat (UseERC20.decimals ti))
      by (apply Z.pow_pos_nonneg; lia).
    assert (Hbands := balanceDisplayOf_bands ti (UseERC20.balanceFormattedOf (Some ti) raw)).
    rewrite Hin in * by lia.
    rewrite parseFloat_formatUnits in * by lia.
    rewrite round64_from_one in Hbands by assumption.
    exact Hbands.
  - apply balanceDisplayOf_bands.
Qed.

(** The examples of the specification. *)
Example display_zero :
  UseERC20.balanceDisplay (UseERC20.useERC20Balance (Some Fake.usdc_info)
                             (UseERC20.State 0 false None)) = "0.00".
Proof. vm_compute. reflexivity. Qed.

Example display_dust :
  UseERC20.balanceDisplay (UseERC20.useERC20Balance (Some Fake.usdc_info)
                             (UseERC20.State 50 false None)) = "< 0.0001".
Proof. vm_compute. reflexivity. Qed.

Example display_half :
  UseERC20.balanceDisplay (UseERC20.useERC20Balance (Some Fake.usdc_info)
                             (UseERC20.State 500000 false None)) = "0.5000".
Proof. vm_compute. reflexivity. Qed.

Example display_grouped :
  UseERC20.balanceDisplay (UseERC20.useERC20Balance (Some Fake.usdc_info)
                             (UseERC20.State 1234500000 false None)) = "1,234.5".
Proof. vm_compute. reflexivity. Qed.

Example display_one_and_a_half :
  UseERC20.balanceDisplay (UseERC20.useERC20Balance (Some Fake.usdc_info)
                             (UseERC20.State 1500000 false None)) = "1.5".
Proof. vm_compute. reflexivity. Qed.

(** C8 as stated fails. A balance of [10^18 - 1] units of an 18-decimals
    token is worth 0.999999999999999999, between 0.0001 and 1; the nearest
    double is 1, so the display is ["1"], with no fraction digit where the
    claim has four. *)
Lemma display_just_below_one :
  Ethers.formatUnits (10 ^ 18 - 1) 18 = inr "0.999999999999999999"
  /\ Number.parseFloat "0.999999999999999999" = Number.Finite 1
  /\ UseERC20.balanceDisplay
       (UseERC20.useERC20Balance (Some Fake.dai_info)
          (UseERC20.State (10 ^ 18 - 1) false None)) = "1"
  /\ ~ UseERC20.display_as_specified Fake.dai_info (10 ^ 18 - 1).
Proof.
  split; [vm_compute; reflexivity |]. split; [vm_compute; reflexivity |].
  split; [vm_compute; reflexivity |].
  intros (_ & _ & Hfour & _).
  assert (H : Number.fraction_digits
                (UseERC20.balanceDisplayOf (Some Fake.dai_info)
                   (UseERC20.balanceFormattedOf (Some Fake.dai_info) (10 ^ 18 - 1)))
              = 4%nat).
  { apply Hfour; vm_compute; [discriminate | reflexivity]. }
  vm_compute in H. discriminate H.
Qed.

(** * Further properties of the hooks *)

(** ** The registry of networks *)

(** Every entry of [SUPPORTED_NETWORKS] is filed under its own chain id. *)
Lemma supported_network_key (n : Z) (info : UseWeb3.NetworkInfo) :
  UseWeb3.SUPPORTED_NETWORKS !! n = Some info -> UseWeb3.ni_chainId info = n.
Proof.
  unfold UseWeb3.SUPPORTED_NETWORKS. cbn [list_to_map foldr uncurry fst snd].
  repeat (rewrite lookup_insert; case_decide;
          [intros [= <-]; cbn; congruence |]).
  rewrite lookup_empty. discriminate.
Qed.

Lemma networkInfoOf_chainId (n : Z) : UseWeb3.ni_chainId (UseWeb3.networkInfoOf n) = n.
Proof.
  unfold UseWeb3.networkInfoOf.
  destruct (UseWeb3.SUPPORTED_NETWORKS !! n) as [info |] eqn:Hl; [| reflexivity].
  exact (supported_network_key n info Hl).
Qed.

(** X1. Whatever the chain id, the network info that the hook derives from
    it carries that chain id, and the badge of the dashboard, which looks
    the registry up a second time, agrees with the [isSupported] flag of the
    info; the flag is set for Ethereum Mainnet and Sepolia only, and a chain
    outside the registry gets the name [Chain n] and is not supported. *)
Theorem networkInfoOf_consistent (n : Z) :
  UseWeb3.ni_chainId (UseWeb3.networkInfoOf n) = n
  /\ Session.badge_isSupported (UseWeb3.networkInfoOf n)
     = UseWeb3.isSupported (UseWeb3.networkInfoOf n)
  /\ (UseWeb3.isSupported (UseWeb3.networkInfoOf n) = true <-> n = 1 \/ n = 11155111)
  /\ (UseWeb3.SUPPORTED_NETWORKS !! n = None ->
      UseWeb3.name (UseWeb3.networkInfoOf n) = "Chain " +:+ Js.show_int n).
Proof.
  assert (Hid := networkInfoOf_chainId n).
  split; [exact Hid |]. split; [| split].
  - unfold Session.badge_isSupported. rewrite Hid.
    unfold UseWeb3.networkInfoOf.
    destruct (UseWeb3.SUPPORTED_NETWORKS !! n); reflexivity.
  - unfold UseWeb3.networkInfoOf, UseWeb3.SUPPORTED_NETWORKS.
    cbn [list_to_map foldr uncurry fst snd].
    repeat (rewrite lookup_insert; case_decide;
            [subst n; cbn; split; [intros Hs; try discriminate Hs; auto
                                  | intros [Hs | Hs]; try discriminate Hs; reflexivity] |]).
    rewrite lookup_empty. cbn. split; [discriminate | intros [Hs | Hs]; congruence].
  - intros Hnone. unfold UseWeb3.networkInfoOf. rewrite Hnone. reflexivity.
Qed.

(** ** The session over time *)

(** [connectWallet] either fails and leaves the hook as it was, or has made
    its three requests and set signer, account and network together. *)
Lemma connectWallet_outcome (w : world) (s : UseWeb3.state) (h : history) :
  match UseWeb3.connectWallet w s h with
  | (s', h', inl e) => s' = s
  | (s', h', inr _) =>
      exists accounts n sg,
        reply_accounts w h EthRequestAccounts = inr accounts
        /\ h' = (h ++ [EthRequestAccounts; GetNetwork; GetSigner])%list
        /\ s' = UseWeb3.updateNetworkInfo n
                  (UseWeb3.setAccount (head accounts) (UseWeb3.setSigner (Some sg) s))
  end.
Proof.
  unfold UseWeb3.connectWallet. unfold_M.
  destruct (UseWeb3.provider s); [| reflexivity].
  unfold_M.
  destruct (reply_accounts w h EthRequestAccounts) as [e | accounts]; [reflexivity |].
  destruct (reply_int w (h ++ [EthRequestAccounts])%list GetNetwork) as [e | n];
    [reflexivity |].
  destruct (reply_signer w ((h ++ [EthRequestAccounts]) ++ [GetNetwork])%list GetSigner)
    as [e | sg]; [reflexivity |].
  exists accounts, n, sg. rewrite !app_one. repeat split.
Qed.

(** The error that ethers throws for a rejection never has the code 4902:
    its code is a string. *)
Lemma getRpcError_code (e : Js.error) :
  (exists c, Js.code (Ethers.getRpcError e) = StrCode c)
  /\ code_is_num (Ethers.getRpcError e) 4902 = false.
Proof.
  unfold Ethers.getRpcError. cbv zeta.
  destruct (code_is_num e 4001 || _ || _); [cbn; eauto |].
  destruct (Ethers.names_missing_method _); cbn; eauto.
Qed.

(** Every run of [switchNetwork]: with a provider the switch is sent, and
    its rejection is thrown as ethers reports it; the handler of the code
    4902 is never entered. *)
Lemma switchNetwork_outcome (w : world) (s : UseWeb3.state) (h : history) (target : Z) :
  UseWeb3.switchNetwork w target s h
  = match UseWeb3.provider s with
    | None => (s, h, inl (Js.Error "Wallet not connected"))
    | Some _ =>
        (s, (h ++ [WalletSwitchEthereumChain (UseWeb3.hexChainId target)])%list,
         match reply_unit w h (WalletSwitchEthereumChain (UseWeb3.hexChainId target)) with
         | inl e => inl (Ethers.getRpcError e)
         | inr u => inr u
         end)
    end.
Proof.
  unfold UseWeb3.switchNetwork. unfold_M.
  destruct (UseWeb3.provider s) as [p |]; [| reflexivity].
  unfold_M.
  destruct (reply_unit w h (WalletSwitchEthereumChain (UseWeb3.hexChainId target)))
    as [e | u]; [| reflexivity].
  destruct (getRpcError_code e) as [_ Hcode]. rewrite Hcode. reflexivity.
Qed.

(** [switchNetwork] never touches the state of the hook. *)
Lemma switchNetwork_keeps_state (w : world) (s : UseWeb3.state) (h : history) (target : Z) :
  fst (fst (UseWeb3.switchNetwork w target s h)) = s.
Proof.
  rewrite switchNetwork_outcome. destruct (UseWeb3.provider s); reflexivity.
Qed.

Lemma step_follows_chain (sh : UseWeb3.state * history) (e : Session.event) :
  Session.network_follows_chain (fst sh) ->
  Session.network_follows_chain (fst (Session.step sh e)).
Proof.
  destruct sh as [s h]. cbn [fst]. intros Hs.
  destruct e as [a | n | accounts | n | w | | w target]; cbn [Session.step fst];
    try exact Hs; try reflexivity.
  - assert (Ho := connectWallet_outcome w s h).
    destruct (UseWeb3.connectWallet w s h) as [[s' h'] [e | []]]; cbn [fst].
    + subst s'. exact Hs.
    + destruct Ho as (accounts & n & sg & _ & _ & ->). reflexivity.
  - rewrite switchNetwork_keeps_state. exact Hs.
Qed.

(** X2. The network never goes stale: after any sequence of mount effects,
    provider events, connections, disconnections and network switches, the
    network of the hook is the one that the registry gives for its chain id,
    and both are absent together. *)
Theorem network_never_stale (h : history) (evs : list Session.event) :
  let s := fst (Session.run (UseWeb3.mounted, h) evs) in
  Session.network_follows_chain s
  /\ (forall n, UseWeb3.chainId s = Some n ->
        exists info, UseWeb3.network s = Some info /\ UseWeb3.ni_chainId info = n)
  /\ (UseWeb3.chainId s = None -> UseWeb3.network s = None).
Proof.
  cbn zeta.
  assert (Hinv : forall evs sh, Session.network_follows_chain (fst sh) ->
                   Session.network_follows_chain (fst (Session.run sh evs))).
  { clear. induction evs as [| e rest IH]; intros sh Hsh; [exact Hsh |].
    cbn [Session.run fold_left]. apply IH. apply step_follows_chain. exact Hsh. }
  assert (H := Hinv evs (UseWeb3.mounted, h) eq_refl).
  split; [exact H |]. unfold Session.network_follows_chain in H. split.
  - intros n Hn. rewrite Hn in H. eexists. split; [exact H |].
    apply networkInfoOf_chainId.
  - intros Hn. rewrite Hn in H. exact H.
Qed.

Lemma step_keeps_signer_account (sh : UseWeb3.state * history) (e : Session.event) :
  UseWeb3.signer_has_account (fst sh) ->
  Session.keeps_account (snd sh) e ->
  UseWeb3.signer_has_account (fst (Session.step sh e)).
Proof.
  destruct sh as [s h]. cbn [fst snd]. unfold UseWeb3.signer_has_account. intros Hs He.
  destruct e as [a | n | accounts | n | w | | w target]; cbn [Session.step fst].
  - intros _. cbn. apply negb_true_iff. apply String.eqb_neq. exact He.
  - exact Hs.
  - intros _. cbn in He. unfold UseWeb3.isConnected, UseWeb3.handleAccountsChanged.
    cbn [UseWeb3.account UseWeb3.setAccount].
    unfold UseWeb3.first_or_null in *.
    destruct accounts as [| a rest]; [congruence |].
    destruct (String.eqb a EmptyString) eqn:Ha; [congruence |].
    cbn. rewrite Ha. reflexivity.
  - exact Hs.
  - cbn in He. assert (Ho := connectWallet_outcome w s h).
    destruct (UseWeb3.connectWallet w s h) as [[s' h'] [e | []]]; cbn [fst].
    + subst s'. exact Hs.
    + destruct Ho as (accounts & n & sg & Hacc & _ & ->). intros _.
      exact (He accounts Hacc).
  - intros H. discriminate H.
  - rewrite switchNetwork_keeps_state. exact Hs.
Qed.

(** X3. A signer never stands without an account as long as every account
    list that the provider delivers, in an [accountsChanged] event or in
    the answer to a connection request, starts with an address: under that
    condition every state that the hook reaches has an account whenever it
    has a signer. *)
Theorem signer_has_account_preserved (h : history) (evs : list Session.event) :
  Session.all_keep_account (UseWeb3.mounted, h) evs ->
  UseWeb3.signer_has_account (fst (Session.run (UseWeb3.mounted, h) evs)).
Proof.
  assert (Hinv : forall evs sh, UseWeb3.signer_has_account (fst sh) ->
                   Session.all_keep_account sh evs ->
                   UseWeb3.signer_has_account (fst (Session.run sh evs))).
  { clear. induction evs as [| e rest IH]; intros sh Hsh Hall; [exact Hsh |].
    destruct Hall as [He Hrest].
    cbn [Session.run fold_left]. apply IH; [| exact Hrest].
    apply step_keeps_signer_account; assumption. }
  intros Hall. apply Hinv; [| exact Hall].
  intros H. discriminate H.
Qed.

Lemma signer_has_account_preserved_witness :
  UseWeb3.signer_has_account
    (fst (Session.run (UseWeb3.mounted, [])
            [Session.Connect Fake.accepting; Session.ChainChanged 1;
             Session.AccountsChanged ["0xBBB"]; Session.SwitchNetwork Fake.unknown_chain 5])).
Proof.
  apply (signer_has_account_preserved []
           [Session.Connect Fake.accepting; Session.ChainChanged 1;
            Session.AccountsChanged ["0xBBB"]; Session.SwitchNetwork Fake.unknown_chain 5]).
  cbn. repeat split; try discriminate.
  intros accounts [= <-]. reflexivity.
Defined.

(** ** Connecting and switching *)

(** X4. [connectWallet] is all or nothing. Without a provider it throws
    before any request. Otherwise it asks for the accounts, the network and
    the signer, in that order, and stops at the first refusal: when it
    throws, the hook is exactly as it was; when it returns, the three
    requests were answered and signer, account, chain id and network were
    set together, the network being the one of the chain id. *)
Theorem connectWallet_all_or_nothing (w : world) (s : UseWeb3.state) (h : history) :
  exists s' sent r,
    UseWeb3.connectWallet w s h = (s', (h ++ sent)%list, r)
    /\ (UseWeb3.provider s = None ->
        sent = [] /\ r = inl (Js.Error "MetaMask not detected"))
    /\ (forall e, r = inl e ->
        s' = s
        /\ (sent = [] \/ sent = [EthRequestAccounts]
            \/ sent = [EthRequestAccounts; GetNetwork]
            \/ sent = [EthRequestAccounts; GetNetwork; GetSigner]))
    /\ (r = inr tt ->
        sent = [EthRequestAccounts; GetNetwork; GetSigner]
        /\ UseWeb3.hasSigner s' = true
        /\ (exists n, UseWeb3.chainId s' = Some n
                      /\ UseWeb3.network s' = Some (UseWeb3.networkInfoOf n))
        /\ exists accounts, reply_accounts w h EthRequestAccounts = inr accounts
                            /\ UseWeb3.account s' = head accounts).
Proof.
  unfold UseWeb3.connectWallet. unfold_M.
  destruct (UseWeb3.provider s).
  2:{ do 3 eexists. split; [run_shape |]. split; [auto |].
      split; [intros e _; auto | discriminate]. }
  unfold_M.
  destruct (reply_accounts w h EthRequestAccounts) as [e | accounts].
  { do 3 eexists. split; [run_shape |]. split; [discriminate |].
    split; [intros e' _; auto | discriminate]. }
  destruct (reply_int w (h ++ [EthRequestAccounts])%list GetNetwork) as [e | n].
  { do 3 eexists. split; [run_shape |]. split; [discriminate |].
    split; [intros e' _; auto | discriminate]. }
  destruct (reply_signer w ((h ++ [EthRequestAccounts]) ++ [GetNetwork])%list GetSigner)
    as [e | sg].
  { do 3 eexists. split; [run_shape |]. split; [discriminate |].
    split; [intros e' _; auto 6 | discriminate]. }
  do 3 eexists. split; [run_shape |]. split; [discriminate |].
  split; [discriminate |]. intros _.
  split; [reflexivity |]. split; [reflexivity |]. split; eauto.
Qed.

(** X5. [switchNetwork] itself never changes the hook: whatever the wallet
    answers, account, chain id and network are after the call what they were
    before it, so the chain of the hook moves only when the provider's
    [chainChanged] event arrives. It sends nothing without a provider, and
    otherwise the switch request, followed by at most one
    [wallet_addEthereumChain]. *)
Theorem switchNetwork_leaves_state (w : world) (s : UseWeb3.state) (h : history) (target : Z) :
  exists sent r,
    UseWeb3.switchNetwork w target s h = (s, (h ++ sent)%list, r)
    /\ (UseWeb3.provider s = None ->
        sent = [] /\ r = inl (Js.Error "Wallet not connected"))
    /\ (UseWeb3.provider s <> None ->
        sent = [WalletSwitchEthereumChain (UseWeb3.hexChainId target)]
        \/ exists params,
             sent = [WalletSwitchEthereumChain (UseWeb3.hexChainId target);
                     WalletAddEthereumChain params]).
Proof.
  rewrite switchNetwork_outcome.
  destruct (UseWeb3.provider s) as [p |].
  - do 2 eexists. split; [reflexivity |]. split; [discriminate | auto].
  - exists [], (inl (Js.Error "Wallet not connected")). rewrite app_nil_r.
    split; [reflexivity |]. split; [auto | congruence].
Qed.

(** X6. A refusal of the switch that is not the code 4902, the rejection by
    the user for one, is thrown on: the caller gets the error that ethers
    makes of the refusal of the wallet, the hook is as it was, and no
    [wallet_addEthereumChain] is sent. *)
Theorem switchNetwork_rethrows_other_errors
  (w : world) (s : UseWeb3.state) (h : history) (target : Z) (e : Js.error) :
  UseWeb3.provider s <> None ->
  reply_unit w h (WalletSwitchEthereumChain (UseWeb3.hexChainId target)) = inl e ->
  code_is_num e 4902 = false ->
  UseWeb3.switchNetwork w target s h
  = (s, (h ++ [WalletSwitchEthereumChain (UseWeb3.hexChainId target)])%list,
     inl (Ethers.getRpcError e)).
Proof.
  intros Hp Hreply _. rewrite switchNetwork_outcome.
  destruct (UseWeb3.provider s); [| congruence].
  rewrite Hreply. reflexivity.
Qed.

Lemma switchNetwork_rethrows_other_errors_witness :
  UseWeb3.switchNetwork Scenario.switch_refused 1 Fake.connected_web3 []
  = (Fake.connected_web3, ([] ++ [WalletSwitchEthereumChain (UseWeb3.hexChainId 1)])%list,
     inl (Ethers.getRpcError (Fake.rejection (NumCode 4001) "User rejected the request"))).
Proof.
  apply (switchNetwork_rethrows_other_errors Scenario.switch_refused Fake.connected_web3 [] 1
           (Fake.rejection (NumCode 4001) "User rejected the request")).
  - discriminate.
  - reflexivity.
  - reflexivity.
Defined.

(** X7. [switchNetwork] never asks the wallet to add a chain. Whatever the
    target, in the registry or not, and whatever the wallet answers, the
    code 4902 included, no [wallet_addEthereumChain] is sent and the error
    that the network is not configured is never thrown: what is thrown is
    the guard's [Wallet not connected] or an error of ethers, whose code is
    a string. The branch that adds the chain is never entered. *)
Theorem switchNetwork_never_adds_chain
  (w : world) (s : UseWeb3.state) (h : history) (target : Z) :
  exists sent r,
    UseWeb3.switchNetwork w target s h = (s, (h ++ sent)%list, r)
    /\ (forall params, ~ In (WalletAddEthereumChain params) sent)
    /\ r <> inl (UseWeb3.not_configured target)
    /\ (forall thrown, r = inl thrown ->
          thrown = Js.Error "Wallet not connected"
          \/ exists e c,
               reply_unit w h (WalletSwitchEthereumChain (UseWeb3.hexChainId target)) = inl e
               /\ thrown = Ethers.getRpcError e
               /\ Js.code thrown = StrCode c).
Proof.
  rewrite switchNetwork_outcome.
  destruct (UseWeb3.provider s) as [p |].
  - exists [WalletSwitchEthereumChain (UseWeb3.hexChainId target)].
    destruct (reply_unit w h (WalletSwitchEthereumChain (UseWeb3.hexChainId target)))
      as [e | u].
    + destruct (getRpcError_code e) as [[c Hc] _].
      eexists. split; [reflexivity |].
      split; [intros params [Hin | []]; discriminate Hin |].
      split.
      * intros [= Heq]. rewrite Heq in Hc. discriminate Hc.
      * intros thrown [= <-]. right. exists e, c. auto.
    + eexists. split; [reflexivity |].
      split; [intros params [Hin | []]; discriminate Hin |].
      split; [discriminate | intros thrown Hr; discriminate Hr].
  - exists [], (inl (Js.Error "Wallet not connected")). rewrite app_nil_r.
    split; [reflexivity |]. split; [intros params [] |].
    split; [| intros thrown [= <-]; auto].
    discriminate.
Qed.

(** ** The chain id on the wire *)

Lemma hex_value_acc (u : Hexadecimal.uint) :
  forall acc,
    Session.hex_value (Z.pos acc) (HexadecimalString.NilEmpty.string_of_uint u)
    = Some (Z.pos (Pos.of_hex_uint_acc u acc)).
Proof.
  induction u; intros acc;
    cbn [HexadecimalString.NilEmpty.string_of_uint Session.hex_value Pos.of_hex_uint_acc];
    try reflexivity;
    match goal with
    | |- context [Session.hex_digit_value ?c] =>
        let v := eval vm_compute in (Session.hex_digit_value c) in
        change (Session.hex_digit_value c) with v
    end;
    cbn iota; rewrite <- IHu; f_equal; lia.
Qed.

Lemma hex_value_uint (u : Hexadecimal.uint) :
  Session.hex_value 0 (HexadecimalString.NilEmpty.string_of_uint u)
  = Some (Z.of_N (Pos.of_hex_uint u)).
Proof.
  induction u;
    cbn [HexadecimalString.NilEmpty.string_of_uint Session.hex_value Pos.of_hex_uint];
    try reflexivity;
    match goal with
    | |- context [Session.hex_digit_value ?c] =>
        let v := eval vm_compute in (Session.hex_digit_value c) in
        change (Session.hex_digit_value c) with v
    end;
    cbn iota; cbn [Z.mul Z.add Z.of_N];
    first [exact IHu | apply hex_value_acc].
Qed.

(** X8. The chain id survives the wire: the hexadecimal string that
    [switchNetwork] writes for a chain id, read back as [handleChainChanged]
    reads the payload of [chainChanged], is that chain id, for every chain
    id that a JavaScript number holds exactly. *)
Theorem hexChainId_round_trip (n : Z) :
  0 <= n < 2 ^ 53 -> Session.Number_of_hex (UseWeb3.hexChainId n) = Some n.
Proof.
  intros [Hn _]. unfold UseWeb3.hexChainId, Js.toString16.
  destruct (Z.ltb_spec n 0) as [Hneg | _]; [lia |].
  set (u := N.to_hex_uint (Z.abs_N n)).
  assert (Hval : Z.of_N (Pos.of_hex_uint u) = n).
  { unfold u. change (Pos.of_hex_uint (N.to_hex_uint (Z.abs_N n)))
      with (N.of_hex_uint (N.to_hex_uint (Z.abs_N n))).
    rewrite HexadecimalN.Unsigned.of_to. lia. }
  change ("0x" +:+ HexadecimalString.NilZero.string_of_uint u)
    with (String "0" (String "x" (HexadecimalString.NilZero.string_of_uint u))).
  cbn [Session.Number_of_hex].
  unfold HexadecimalString.NilZero.string_of_uint.
  destruct u eqn:Hu;
    try (rewrite <- Hu, hex_value_uint, Hu, Hval; reflexivity).
  cbn in Hval. subst n. reflexivity.
Qed.

Lemma hexChainId_round_trip_witness :
  Session.Number_of_hex (UseWeb3.hexChainId 11155111) = Some 11155111.
Proof.
  apply (hexChainId_round_trip 11155111). lia.
Defined.

(** ** The vault client *)

(** X9. [getUserBalance] always returns: it never throws and never changes
    the hook. Without a vault contract or an account it sends nothing and
    returns zero; otherwise it sends the one query of the ledger for the
    account and the token, and returns its answer, or zero when the query
    failed. *)
Theorem getUserBalance_never_raises
  (w : world) (s : UseVault.state) (h : history) (token : string) :
  exists sent v,
    UseVault.getUserBalance w token s h = (s, (h ++ sent)%list, inr v)
    /\ match UseVault.vaultContract s, UseVault.account s with
       | Some vault, Some acct =>
           if String.eqb acct EmptyString then sent = [] /\ v = 0
           else
             sent = [VaultGetUserBalance vault acct token]
             /\ v = match reply_int w h (VaultGetUserBalance vault acct token) with
                    | inr balance => balance
                    | inl _ => 0
                    end
       | _, _ => sent = [] /\ v = 0
       end.
Proof.
  unfold UseVault.getUserBalance. unfold_M.
  destruct (UseVault.vaultContract s) as [vault |].
  2:{ do 2 eexists. split; [run_shape |]. destruct (UseVault.account s); auto. }
  destruct (UseVault.account s) as [acct |].
  2:{ do 2 eexists. split; [run_shape | auto]. }
  cbn [truthy_str]. destruct (String.eqb acct EmptyString); cbn [negb].
  { do 2 eexists. split; [run_shape | auto]. }
  unfold_M.
  destruct (reply_int w h (VaultGetUserBalance vault acct token)) as [e | v];
    do 2 eexists; (split; [run_shape | auto]).
Qed.

(** X10. The guards of the vault writes come before everything else.
    Without a signer, a vault contract or an account, [deposit] and
    [withdraw] throw [Wallet not connected]; with them but with the vault
    seen as paused, they throw [Vault is currently paused]. In both cases
    nothing is sent, so no signature is asked for, the amount is not even
    read, and the hook is left as it was. *)
Theorem vault_writes_guarded
  (w : world) (s : UseVault.state) (h : history) (token amount : string) :
  (UseVault.not_connected s = true ->
   UseVault.deposit w token amount s h = (s, h, inl (Js.Error "Wallet not connected"))
   /\ UseVault.withdraw w token amount s h = (s, h, inl (Js.Error "Wallet not connected")))
  /\ (UseVault.not_connected s = false -> UseVault.isPaused s = true ->
      UseVault.deposit w token amount s h
      = (s, h, inl (Js.Error "Vault is currently paused"))
      /\ UseVault.withdraw w token amount s h
         = (s, h, inl (Js.Error "Vault is currently paused"))).
Proof.
  unfold UseVault.deposit, UseVault.withdraw. unfold_M. split.
  - intros ->. split; reflexivity.
  - intros -> ->. split; reflexivity.
Qed.

(** X11. The vault writes of the hook never succeed. Whatever the wallet
    and the chain answer, [deposit] and [withdraw] end in a throw: the
    contract of the vault is built on the provider, and ethers refuses to
    send with it. [withdraw] sends nothing at all; [deposit] never sends the
    vault's deposit, though it may have sent, and had mined, the approval
    before it throws. Past the guards both end with [loading] back to
    [false] and nothing else changed in the hook. *)
Theorem vault_writes_never_succeed
  (w : world) (s : UseVault.state) (h : history) (token amount : string) :
  (exists s' sent e,
      UseVault.deposit w token amount s h = (s', (h ++ sent)%list, inl e)
      /\ (forall vault tok a, ~ In (VaultDeposit vault tok a) sent)
      /\ (UseVault.not_connected s = false -> UseVault.isPaused s = false ->
          s' = UseVault.setLoading false s))
  /\ (exists s' e,
      UseVault.withdraw w token amount s h = (s', h, inl e)
      /\ (UseVault.not_connected s = false -> UseVault.isPaused s = false ->
          s' = UseVault.setLoading false s
          /\ (Ethers.parseUnits amount 18 = inl e \/ e = Ethers.no_sending_runner))).
Proof.
  split.
  - destruct (deposit_trace w s h token amount) as (s' & sent & e & Hrun & _ & Hsent).
    exists s', sent, e. split; [exact Hrun |]. split.
    + intros vault tok a Hin.
      destruct Hsent as [-> | (a' & _ & [-> | (approveTx & _ & ->)])].
      * destruct Hin.
      * destruct Hin as [Hin | []]. discriminate Hin.
      * destruct Hin as [Hin | [Hin | []]]; discriminate Hin.
    + intros Hc Hp.
      assert (Hsteps := deposit_steps w s h token amount Hc Hp). cbn zeta in Hsteps.
      rewrite Hsteps in Hrun.
      destruct (Ethers.parseUnits amount 18) as [e1 | a]; [congruence |].
      destruct (Ethers.uint256 a) as [e2 | encoded]; [congruence |].
      destruct (reply_tx w h _) as [e3 | approveTx]; congruence.
  - destruct (UseVault.not_connected s) eqn:Hc.
    { destruct (vault_write_guarded w s h token amount (or_introl Hc)) as (e & _ & Hw).
      exists s, e. split; [exact Hw | discriminate]. }
    destruct (UseVault.isPaused s) eqn:Hp.
    { destruct (vault_write_guarded w s h token amount (or_intror Hp)) as (e & _ & Hw).
      exists s, e. split; [exact Hw | discriminate]. }
    rewrite (withdraw_steps w s h token amount Hc Hp).
    destruct (Ethers.parseUnits amount 18) as [e | a];
      do 2 eexists; (split; [reflexivity | auto]).
Qed.





(** X14. The read of the pause flag is advisory: [fetchPausedState] never
    throws. When [paused()] answers, the flag takes the answer; when the
    read fails, the flag keeps the value it had, which is [false] only if it
    was [false] before. Nothing else in the hook changes. *)
Theorem fetchPausedState_advisory (w : world) (s : UseVault.state) (h : history) :
  exists s' sent,
    UseVault.fetchPausedState w s h = (s', (h ++ sent)%list, inr tt)
    /\ (forall vault paused,
          UseVault.vaultContract s = Some vault ->
          reply_bool w h (VaultPaused vault) = inr paused ->
          s' = UseVault.setIsPaused paused s)
    /\ (forall vault e,
          UseVault.vaultContract s = Some vault ->
          reply_bool w h (VaultPaused vault) = inl e ->
          s' = s)
    /\ (UseVault.vaultContract s = None -> s' = s /\ sent = []).
Proof.
  unfold UseVault.fetchPausedState. unfold_M.
  destruct (UseVault.vaultContract s) as [vault |].
  2:{ do 2 eexists. split; [run_shape |]. repeat split; intros; congruence || discriminate. }
  unfold_M.
  destruct (reply_bool w h (VaultPaused vault)) as [e | paused] eqn:Hq.
  - do 2 eexists. split; [run_shape |]. split; [| split].
    + intros v p [= <-] Hp. congruence.
    + reflexivity.
    + discriminate.
  - do 2 eexists. split; [run_shape |]. split; [| split].
    + intros v p [= <-] Hp. congruence.
    + intros v e [= <-] He. congruence.
    + discriminate.
Qed.

(** ** Token metadata *)

(** X15. The token info is all or nothing. [fetchTokenInfo] always sends the
    three reads [name], [symbol] and [decimals], never throws and ends with
    [loading] at [false]. When the three succeed, the token info holds the
    three answers and the address; when one of them fails, the token info
    is what it was before, no part of the answers is kept, and the error
    message is stored. *)
Theorem fetchTokenInfo_all_or_nothing
  (w : world) (token : string) (s : UseERC20.info_state) (h : history) :
  let reads := [Erc20Name token; Erc20Symbol token; Erc20Decimals token] in
  let rn := reply_string w h (Erc20Name token) in
  let rs := reply_string w (h ++ [Erc20Name token])%list (Erc20Symbol token) in
  let rd := reply_int w (h ++ [Erc20Name token; Erc20Symbol token])%list (Erc20Decimals token) in
  exists s',
    UseERC20.fetchTokenInfo w token s h = (s', (h ++ reads)%list, inr tt)
    /\ UseERC20.loading s' = false
    /\ match rn, rs, rd with
       | inr n, inr sy, inr d =>
           UseERC20.tokenInfo s'
           = Some {| UseERC20.name := n; UseERC20.symbol := sy;
                     UseERC20.decimals := Z.to_nat d; UseERC20.address := token |}
           /\ UseERC20.error s' = None
       | _, _, _ =>
           UseERC20.tokenInfo s' = UseERC20.tokenInfo s
           /\ UseERC20.error s' <> None
       end.
Proof.
  cbn zeta. unfold UseERC20.fetchTokenInfo. unfold_M.
  rewrite !app_one.
  destruct (reply_string w h (Erc20Name token)) as [e1 | n];
    destruct (reply_string w (h ++ [Erc20Name token])%list (Erc20Symbol token)) as [e2 | sy];
    destruct (reply_int w (h ++ [Erc20Name token; Erc20Symbol token])%list
                (Erc20Decimals token)) as [e3 | d];
    eexists; (split; [reflexivity |]); cbn; (split; [reflexivity |]);
    split; reflexivity || discriminate.
Qed.

(** ** The balance tracker *)

(** X17. The cleanup of the effect removes the listener: after it, no
    [Transfer] event starts a fetch, however many arrive, and the tracker
    stays as the cleanup left it. A fetch that was in flight at the cleanup
    is not cancelled: when it settles, its result is stored all the same. *)
Theorem cleanup_stops_listening
  (d : UseERC20.deps) (t : UseERC20.tracker) (evs : list UseERC20.event) :
  Forall Tracker.is_transfer evs ->
  let cleaned := UseERC20.step d t UseERC20.EffectCleanup in
  UseERC20.run d cleaned evs = cleaned
  /\ forall id outcome,
       In id (UseERC20.inflight t) ->
       UseERC20.st_balanceRaw
         (UseERC20.hook
            (UseERC20.run d cleaned (evs ++ [UseERC20.Settled id outcome])))
       = UseERC20.stored outcome.
Proof.
  intros Hevs. cbn zeta.
  assert (Hrun : UseERC20.run d (UseERC20.step d t UseERC20.EffectCleanup) evs
                 = UseERC20.step d t UseERC20.EffectCleanup).
  { induction Hevs as [| e rest He _ IH]; [reflexivity |].
    cbn [UseERC20.run fold_left].
    destruct e; try contradiction. exact IH. }
  split; [exact Hrun |].
  intros id outcome Hin. rewrite run_snoc, Hrun.
  rewrite settle_stores by exact Hin. cbn. apply settled_balance.
Qed.

Lemma cleanup_stops_listening_witness :
  UseERC20.run Fake.balance_deps
    (UseERC20.step Fake.balance_deps Fake.two_in_flight UseERC20.EffectCleanup)
    [UseERC20.TransferEvent "0xAAA" "0xBBB" 5; UseERC20.TransferEvent "0xCCC" "0xaaa" 7]
  = UseERC20.step Fake.balance_deps Fake.two_in_flight UseERC20.EffectCleanup
  /\ forall id outcome,
       In id (UseERC20.inflight Fake.two_in_flight) ->
       UseERC20.st_balanceRaw
         (UseERC20.hook
            (UseERC20.run Fake.balance_deps
               (UseERC20.step Fake.balance_deps Fake.two_in_flight UseERC20.EffectCleanup)
               ([UseERC20.TransferEvent "0xAAA" "0xBBB" 5;
                 UseERC20.TransferEvent "0xCCC" "0xaaa" 7]
                  ++ [UseERC20.Settled id outcome])))
       = UseERC20.stored outcome.
Proof.
  apply (cleanup_stops_listening Fake.balance_deps Fake.two_in_flight
           [UseERC20.TransferEvent "0xAAA" "0xBBB" 5;
            UseERC20.TransferEvent "0xCCC" "0xaaa" 7]).
  repeat constructor.
Defined.

Lemma lower_ascii_idempotent (c : ascii) :
  Js.lower_ascii (Js.lower_ascii c) = Js.lower_ascii c.
Proof. destruct c as [[] [] [] [] [] [] [] []]; reflexivity. Qed.

Lemma toLowerCase_idempotent (s : string) :
  Js.toLowerCase (Js.toLowerCase s) = Js.toLowerCase s.
Proof.
  induction s as [| c s IH]; [reflexivity |].
  cbn [Js.toLowerCase]. rewrite lower_ascii_idempotent, IH. reflexivity.
Qed.

(** X18. The listener compares addresses without regard to case: whether a
    transfer touches the owner does not change when owner, sender or
    recipient are written in lower case, so a checksummed address and its
    lower-case form are the same account; sender and recipient count alike,
    and a transfer from the owner touches the owner. *)
Theorem touches_ignores_case (owner from to : string) :
  UseERC20.touches owner from to
  = UseERC20.touches (Js.toLowerCase owner) (Js.toLowerCase from) (Js.toLowerCase to)
  /\ UseERC20.touches owner from to = UseERC20.touches owner to from
  /\ UseERC20.touches owner owner to = true
  /\ UseERC20.touches owner from (Js.toLowerCase owner) = true.
Proof.
  unfold UseERC20.touches. rewrite !toLowerCase_idempotent.
  split; [reflexivity |]. split; [apply orb_comm |].
  rewrite !String.eqb_refl. split; [reflexivity | apply orb_true_r].
Qed.

(** X19. One fetch run to its end never throws and sends one [balanceOf]
    read. When the read succeeds, its answer is the balance and the error is
    cleared; when it fails, the balance is set to zero, whatever it was
    before, and the message of the failure is stored. In both cases
    [loading] ends at [false]. *)
Theorem fetchBalance_outcome
  (w : world) (token owner : string) (s : UseERC20.state) (h : history) :
  exists s',
    UseERC20.fetchBalance w token owner s h
    = (s', (h ++ [Erc20BalanceOf token owner])%list, inr tt)
    /\ UseERC20.st_loading s' = false
    /\ match reply_int w h (Erc20BalanceOf token owner) with
       | inr balance =>
           UseERC20.st_balanceRaw s' = balance /\ UseERC20.st_error s' = None
       | inl e =>
           UseERC20.st_balanceRaw s' = 0 /\ UseERC20.st_error s' = Some (Js.message e)
       end.
Proof.
  unfold UseERC20.fetchBalance. unfold_M.
  destruct (reply_int w h (Erc20BalanceOf token owner)) as [e | balance];
    eexists; (split; [reflexivity |]); cbn; auto.
Qed.

(** ** Transfers from the wallet *)

(** X20. [transfer] checks before it asks. Without a signer or an account it
    throws [Wallet not connected]; with an empty token, recipient or amount
    it throws [Invalid parameters]; in both cases the hook is untouched.
    And when the amount cannot be read at the decimals of the token, a
    fraction too long for them for one (the decimals being at most the 80
    that ethers reads), it throws the reading error, stores
    its message, ends with [loading] at [false], and has sent nothing: no
    signature is asked for an amount that cannot be sent. *)
Theorem transfer_checks_first
  (w : world) (s : UseERC20.transfer_state) (h : history)
  (token to amount : string) (decimals : nat) :
  let connected :=
    truthy_obj (UseERC20.tr_signer s) && truthy_str (UseERC20.tr_account s) in
  let filled :=
    negb (String.eqb token EmptyString) && negb (String.eqb to EmptyString)
    && negb (String.eqb amount EmptyString) in
  (connected = false ->
   UseERC20.transfer w token to amount decimals s h
   = (s, h, inl (Js.Error "Wallet not connected")))
  /\ (connected = true -> filled = false ->
      UseERC20.transfer w token to amount decimals s h
      = (s, h, inl (Js.Error "Invalid parameters")))
  /\ (connected = true -> filled = true -> (decimals <= 80)%nat ->
      forall e, Ethers.parseUnits amount decimals = inl e ->
      UseERC20.transfer w token to amount decimals s h
      = (UseERC20.TransferState (UseERC20.tr_signer s) (UseERC20.tr_account s) false
           (Some (Js.message e)) None,
         h, inl e)).
Proof.
  cbn zeta. unfold UseERC20.transfer. unfold_M.
  destruct (truthy_obj (UseERC20.tr_signer s)), (truthy_str (UseERC20.tr_account s));
    cbn [andb orb negb];
    (split; [intros H; try discriminate H; reflexivity |]);
    (split; [intros H; try discriminate H | intros H; try discriminate H]).
  - destruct (String.eqb token EmptyString), (String.eqb to EmptyString),
      (String.eqb amount EmptyString); cbn; intros Hf; try discriminate Hf; reflexivity.
  - destruct (String.eqb token EmptyString), (String.eqb to EmptyString),
      (String.eqb amount EmptyString); cbn; intros Hf; try discriminate Hf.
    intros _ e He. unfold_M. rewrite He. reflexivity.
Qed.

(** X21. What [transfer] puts on the wire is the amount read at the decimals
    it was given. With a wallet, filled parameters and a readable amount: an
    amount that a [uint256] cannot hold, a negative one for one, is refused
    by the encoding and nothing is sent; otherwise the ERC-20 transfer of
    that raw amount to the recipient is sent, without a gas limit of its
    own, and, once accepted, the wait for its inclusion. [transfer] returns
    the receipt, and stores the success message with its hash, exactly when
    the transfer was accepted and the wait answered with the receipt of a
    transaction that did not revert; in every other case it throws and
    stores the message of what it throws. It always ends with [loading] at
    [false]. *)
Theorem transfer_sends_parsed_amount
  (w : world) (s : UseERC20.transfer_state) (h : history)
  (token to amount : string) (decimals : nat) (a : Z) :
  truthy_obj (UseERC20.tr_signer s) && truthy_str (UseERC20.tr_account s) = true ->
  negb (String.eqb token EmptyString) && negb (String.eqb to EmptyString)
  && negb (String.eqb amount EmptyString) = true ->
  (decimals <= 80)%nat ->
  Ethers.parseUnits amount decimals = inr a ->
  let request := Erc20Transfer token to a None in
  exists s' sent r,
    UseERC20.transfer w token to amount decimals s h = (s', (h ++ sent)%list, r)
    /\ UseERC20.tr_loading s' = false
    /\ (forall e, r = inl e -> UseERC20.tr_error s' = Some (Js.message e))
    /\ match Ethers.uint256 a with
       | inl refusal => sent = [] /\ r = inl refusal
       | inr _ =>
           match reply_tx w h request with
           | inl rejection => sent = [request] /\ r = inl rejection
           | inr tx =>
               sent = [request; TxWait (tx_hash tx)]
               /\ match reply_receipt w (h ++ [request])%list (TxWait (tx_hash tx)) with
                  | inl failure => r = inl failure
                  | inr (Some receipt) =>
                      if receipt_status receipt =? 0 then r = inl Ethers.execution_reverted
                      else
                        r = inr (Some receipt)
                        /\ UseERC20.tr_success s'
                           = Some ("Transfer successful! Tx: " +:+ receipt_hash receipt)
                  | inr None => exists e, r = inl e
                  end
           end
       end.
Proof.
  intros Hc Hf _ Hp. cbn zeta. unfold UseERC20.transfer. unfold_M.
  apply andb_true_iff in Hc as [Hc1 Hc2]. rewrite Hc1, Hc2. cbn [negb orb].
  apply andb_true_iff in Hf as [Hf Hf3]. apply andb_true_iff in Hf as [Hf1 Hf2].
  apply negb_true_iff in Hf1, Hf2, Hf3. rewrite Hf1, Hf2, Hf3. cbn [orb].
  unfold_M. rewrite Hp.
  destruct (Ethers.uint256 a) as [e | encoded].
  { do 3 eexists. split; [run_shape |]. split; [reflexivity |].
    split; [intros e' [= <-]; reflexivity | auto]. }
  destruct (reply_tx w h (Erc20Transfer token to a None)) as [e | tx].
  { do 3 eexists. split; [run_shape |]. split; [reflexivity |].
    split; [intros e' [= <-]; reflexivity | auto]. }
  destruct (reply_receipt w (h ++ [Erc20Transfer token to a None])%list
              (TxWait (tx_hash tx))) as [e | [receipt |]].
  - do 3 eexists. split; [run_shape |]. split; [reflexivity |].
    split; [intros e' [= <-]; reflexivity | auto].
  - destruct (receipt_status receipt =? 0).
    + do 3 eexists. split; [run_shape |]. split; [reflexivity |].
      split; [intros e' [= <-]; reflexivity | auto].
    + do 3 eexists. split; [run_shape |]. split; [reflexivity |].
      split; [discriminate | auto].
  - do 3 eexists. split; [run_shape |]. split; [reflexivity |].
    split; [intros e' [= <-]; reflexivity | eauto].
Qed.

Lemma transfer_sends_parsed_amount_witness :
  exists s' sent r,
    UseERC20.transfer Fake.accepting Fake.USDC "0xBBB" "1.5" 6 Scenario.connected_transfer []
    = (s', ([] ++ sent)%list, r)
    /\ UseERC20.tr_loading s' = false
    /\ (forall e, r = inl e -> UseERC20.tr_error s' = Some (Js.message e))
    /\ match Ethers.uint256 1500000 with
       | inl refusal => sent = [] /\ r = inl refusal
       | inr _ =>
           match reply_tx Fake.accepting [] (Erc20Transfer Fake.USDC "0xBBB" 1500000 None) with
           | inl rejection =>
               sent = [Erc20Transfer Fake.USDC "0xBBB" 1500000 None] /\ r = inl rejection
           | inr tx =>
               sent = [Erc20Transfer Fake.USDC "0xBBB" 1500000 None; TxWait (tx_hash tx)]
               /\ match reply_receipt Fake.accepting
                          ([] ++ [Erc20Transfer Fake.USDC "0xBBB" 1500000 None])%list
                          (TxWait (tx_hash tx)) with
                  | inl failure => r = inl failure
                  | inr (Some receipt) =>
                      if receipt_status receipt =? 0 then r = inl Ethers.execution_reverted
                      else
                        r = inr (Some receipt)
                        /\ UseERC20.tr_success s'
                           = Some ("Transfer successful! Tx: " +:+ receipt_hash receipt)
                  | inr None => exists e, r = inl e
                  end
           end
       end.
Proof.
  apply (transfer_sends_parsed_amount Fake.accepting Scenario.connected_transfer []
           Fake.USDC "0xBBB" "1.5" 6 1500000).
  - reflexivity.
  - reflexivity.
  - lia.
  - vm_compute. reflexivity.
Defined.

(** A negative amount is read and then refused by the encoding: nothing
    reaches the wallet. *)
Example transfer_negative_amount :
  Ethers.parseUnits "-1" 6 = inr (- 1000000)
  /\ UseERC20.transfer Fake.accepting Fake.USDC "0xBBB" "-1" 6 Scenario.connected_transfer []
     = (UseERC20.TransferState (Some (Signer "0xAAA")) (Some "0xAAA") false
          (Some "value out-of-bounds") None,
        [], inl (Error_ (StrCode "INVALID_ARGUMENT") "value out-of-bounds")).
Proof. split; vm_compute; reflexivity. Qed.

(** X22. [transferETH] reads its amount at 18 decimals, the unit of the
    native currency, whatever token is selected, and sends a plain value
    transfer: never a request to a token contract. It has the wallet guard
    of [transfer] but not its check of the parameters. With an amount that
    cannot be read, or a negative one, nothing is sent and the error of the
    reading or of the conversion is thrown; otherwise the transaction is
    sent and, once accepted, waited for. It always ends with [loading] at
    [false], and it returns normally exactly when the transaction was
    accepted and the wait was answered, not with the receipt of a reverted
    transaction. *)
Theorem transferETH_sends_value
  (w : world) (s : UseERC20.transfer_state) (h : history) (to amount : string) :
  (truthy_obj (UseERC20.tr_signer s) && truthy_str (UseERC20.tr_account s) = false ->
   UseERC20Transfer.transferETH w to amount s h
   = (s, h, inl (Js.Error "Wallet not connected")))
  /\ (truthy_obj (UseERC20.tr_signer s) && truthy_str (UseERC20.tr_account s) = true ->
      exists s' sent r,
        UseERC20Transfer.transferETH w to amount s h = (s', (h ++ sent)%list, r)
        /\ UseERC20.tr_loading s' = false
        /\ match Ethers.parseUnits amount 18 with
           | inl e => sent = [] /\ r = inl e
           | inr value =>
               match Ethers.toQuantity value with
               | inl e => sent = [] /\ r = inl e
               | inr _ =>
                   match reply_tx w h (SendTransaction to value) with
                   | inl e => sent = [SendTransaction to value] /\ r = inl e
                   | inr tx =>
                       sent = [SendTransaction to value; TxWait (tx_hash tx)]
                       /\ match reply_receipt w (h ++ [SendTransaction to value])%list
                                  (TxWait (tx_hash tx)) with
                          | inl e => r = inl e
                          | inr (Some receipt) =>
                              if receipt_status receipt =? 0
                              then r = inl Ethers.execution_reverted
                              else r = inr tt
                          | inr None => r = inr tt
                          end
                   end
               end
           end).
Proof.
  unfold UseERC20Transfer.transferETH. unfold_M.
  destruct (truthy_obj (UseERC20.tr_signer s)), (truthy_str (UseERC20.tr_account s));
    cbn [andb orb negb];
    (split; [intros H; try discriminate H; reflexivity | intros H; try discriminate H]).
  unfold_M.
  destruct (Ethers.parseUnits amount 18) as [e | value].
  { do 3 eexists. split; [run_shape |]. split; [reflexivity | auto]. }
  destruct (Ethers.toQuantity value) as [e | quantity] eqn:Hq.
  { do 3 eexists. split; [run_shape |]. split; [reflexivity | auto]. }
  assert (quantity = value) as ->.
  { unfold Ethers.toQuantity in Hq. destruct (value <? 0); congruence. }
  destruct (reply_tx w h (SendTransaction to value)) as [e | tx].
  { do 3 eexists. split; [run_shape |]. split; [reflexivity | auto]. }
  destruct (reply_receipt w (h ++ [SendTransaction to value])%list (TxWait (tx_hash tx)))
    as [e | [receipt |]].
  - do 3 eexists. split; [run_shape |]. split; [reflexivity | auto].
  - destruct (receipt_status receipt =? 0);
      do 3 eexists; (split; [run_shape |]); (split; [reflexivity | auto]).
  - do 3 eexists. split; [run_shape |]. split; [reflexivity | auto].
Qed.

(** ** The balance string read back *)

Lemma drop_all (n : nat) : forall s, (String.length s <= n)%nat -> Ethers.drop n s = EmptyString.
Proof.
  induction n as [| n IH]; intros [| c s] Hl; try reflexivity; cbn in Hl; try lia.
  cbn [Ethers.drop]. apply IH. lia.
Qed.

Lemma take_all (n : nat) : forall s, (String.length s <= n)%nat -> Ethers.take n s = s.
Proof.
  induction n as [| n IH]; intros [| c s] Hl; try reflexivity; cbn in Hl; try lia.
  cbn [Ethers.take]. rewrite IH by lia. reflexivity.
Qed.

(** What [formatUnits] writes for a natural number and some decimals: a
    whole part, a point and a fraction without the zeros that ended it. *)
Lemma formatUnits_shape (raw : Z) (k : nat) :
  0 <= raw ->
  exists whole trimmed j,
    Ethers.toString raw (S k) = whole +:+ "." +:+ trimmed
    /\ Ethers.all_digits whole = true /\ whole <> EmptyString
    /\ Ethers.all_digits trimmed = true /\ trimmed <> EmptyString
    /\ (String.length trimmed + j = S k)%nat
    /\ Ethers.digits_value 0 (whole +:+ trimmed +:+ Ethers.zeros j) = raw.
Proof.
  intros Hraw. unfold Ethers.toString.
  destruct (Z.ltb_spec raw 0) as [Hneg | _]; [lia |].
  rewrite Z.abs_eq by assumption.
  destruct (show_bigint_spec raw Hraw) as (Hdig & Hval & Hne).
  set (str := Ethers.show_bigint raw) in *.
  set (d := S k).
  set (padded := Ethers.zeros (S d - String.length str) +:+ str).
  assert (Hpdig : Ethers.all_digits padded = true).
  { unfold padded. rewrite all_digits_app, all_digits_zeros, Hdig. reflexivity. }
  assert (Hpval : Ethers.digits_value 0 padded = raw).
  { unfold padded. rewrite digits_value_app, digits_value_zeros.
    rewrite Z.mul_0_l. exact Hval. }
  assert (Hplen : (S d <= String.length padded)%nat).
  { unfold padded. rewrite append_length, zeros_length. lia. }
  set (index := (String.length padded - d)%nat).
  set (whole := Ethers.take index padded).
  set (fracfull := Ethers.drop index padded).
  assert (Hsplit : whole +:+ fracfull = padded) by apply take_drop.
  assert (Hflen : String.length fracfull = d).
  { unfold fracfull. rewrite drop_length. unfold index. lia. }
  assert (Hwlen : (1 <= String.length whole)%nat).
  { unfold whole. rewrite take_length. unfold index. lia. }
  assert (Hboth : Ethers.all_digits whole = true /\ Ethers.all_digits fracfull = true).
  { rewrite <- Hsplit, all_digits_app in Hpdig. apply andb_true_iff in Hpdig. exact Hpdig. }
  destruct Hboth as [Hwdig Hfdig].
  assert (Hfne : fracfull <> EmptyString).
  { intros E. rewrite E in Hflen. discriminate Hflen. }
  assert (Hwne : whole <> EmptyString).
  { intros E. rewrite E in Hwlen. cbn in Hwlen. lia. }
  destruct (trim_fraction_spec fracfull Hfne) as (j & Hj & Htne).
  set (trimmed := Ethers.trim_fraction fracfull) in *.
  assert (Htdig : Ethers.all_digits trimmed = true).
  { rewrite Hj, all_digits_app in Hfdig. apply andb_true_iff in Hfdig as [H _]. exact H. }
  exists whole, trimmed, j.
  split; [reflexivity |]. repeat split; try assumption.
  - rewrite <- Hflen, Hj, append_length, zeros_length. reflexivity.
  - rewrite <- Hj, Hsplit. exact Hpval.
Qed.

Lemma match_decimal_unsigned (c : ascii) (r : string) :
  Ethers.is_digit c = true ->
  Ethers.match_decimal (String c r)
  = let '(whole, rest) := Ethers.span_digits (String c r) in
    let rest' := match rest with String "." t => t | _ => rest end in
    let '(frac, tail) := Ethers.span_digits rest' in
    match tail with
    | EmptyString => Some (false, whole, frac)
    | _ => None
    end.
Proof.
  intros H.
  destruct c as [[] [] [] [] [] [] [] []];
    try (vm_compute in H; discriminate H); reflexivity.
Qed.

Lemma match_decimal_digits (whole frac : string) :
  Ethers.all_digits whole = true -> whole <> EmptyString ->
  Ethers.all_digits frac = true ->
  Ethers.match_decimal (whole +:+ "." +:+ frac) = Some (false, whole, frac)
  /\ Ethers.match_decimal whole = Some (false, whole, EmptyString).
Proof.
  intros Hw Hne Hf.
  destruct (first_is_digit whole Hw Hne) as (c & r & Hwr & Hc).
  split.
  - assert (Hm : Ethers.match_decimal (whole +:+ "." +:+ frac)
                 = let '(w, rest) := Ethers.span_digits (whole +:+ "." +:+ frac) in
                   let rest' := match rest with String "." t => t | _ => rest end in
                   let '(f, tail) := Ethers.span_digits rest' in
                   match tail with
                   | EmptyString => Some (false, w, f)
                   | _ => None
                   end).
    { rewrite Hwr, append_cons. apply match_decimal_unsigned. exact Hc. }
    rewrite Hm. change ("." +:+ frac) with (String "." frac).
    rewrite (span_digits_app whole (String "." frac) Hw eq_refl).
    cbv beta iota zeta.
    assert (Hspan := span_digits_app frac EmptyString Hf I).
    rewrite append_nil_r in Hspan. rewrite Hspan. reflexivity.
  - assert (Hm : Ethers.match_decimal whole
                 = let '(w, rest) := Ethers.span_digits whole in
                   let rest' := match rest with String "." t => t | _ => rest end in
                   let '(f, tail) := Ethers.span_digits rest' in
                   match tail with
                   | EmptyString => Some (false, w, f)
                   | _ => None
                   end).
    { rewrite Hwr. apply match_decimal_unsigned. exact Hc. }
    rewrite Hm.
    assert (Hspan := span_digits_app whole EmptyString Hw I).
    rewrite append_nil_r in Hspan. rewrite Hspan. reflexivity.
Qed.

(** [parseUnits] reads back what [formatUnits] wrote. *)
Lemma parseUnits_formatUnits (raw : Z) (decimals : nat) :
  0 <= raw < 2 ^ 511 ->
  (decimals <= 80)%nat ->
  Ethers.parseUnits (Ethers.toString raw decimals) decimals = inr raw.
Proof.
  intros [Hraw Hbig] Hdec.
  assert (Hrange : (raw <? - 2 ^ 511) || (2 ^ 511 <=? raw) = false).
  { apply orb_false_iff. split; [apply Z.ltb_ge | apply Z.leb_gt]; lia. }
  destruct decimals as [| k].
  - unfold Ethers.toString.
    destruct (Z.ltb_spec raw 0) as [Hneg | _]; [lia |].
    rewrite Z.abs_eq by assumption.
    destruct (show_bigint_spec raw Hraw) as (Hdig & Hval & Hne).
    set (str := Ethers.show_bigint raw) in *.
    change (EmptyString +:+ str) with str.
    unfold Ethers.parseUnits.
    destruct (match_decimal_digits str EmptyString Hdig Hne eq_refl) as [_ ->].
    cbn [String.length]. rewrite Nat.add_0_r.
    destruct (String.length str =? 0)%nat eqn:Hl.
    { apply Nat.eqb_eq in Hl. destruct str; [congruence | discriminate]. }
    change (80 <? 0)%nat with false. cbv iota.
    cbn [Ethers.zeros Nat.sub Ethers.drop Ethers.take Ethers.all_zero negb].
    change (EmptyString +:+ EmptyString) with EmptyString.
    cbn [Ethers.drop Ethers.take Ethers.all_zero negb].
    rewrite append_nil_r, Hval, Hrange. reflexivity.
  - destruct (formatUnits_shape raw k Hraw)
      as (whole & trimmed & j & -> & Hw & Hwne & Ht & Htne & Hlen & Hval).
    unfold Ethers.parseUnits.
    destruct (match_decimal_digits whole trimmed Hw Hwne Ht) as [-> _].
    destruct (String.length whole + String.length trimmed =? 0)%nat eqn:Hl.
    { apply Nat.eqb_eq in Hl. destruct trimmed; [congruence | cbn in Hl; lia]. }
    destruct (Nat.ltb_spec 80 (S k)) as [Hmany | _]; [lia |].
    replace (S k - String.length trimmed)%nat with j by lia.
    assert (Hplen : String.length (trimmed +:+ Ethers.zeros j) = S k).
    { rewrite append_length, zeros_length. exact Hlen. }
    rewrite drop_all by lia. rewrite take_all by lia.
    cbn [Ethers.all_zero negb]. rewrite Hval, Hrange. reflexivity.
Qed.

(** X23. The balance string can be sent back as it is shown: for a loaded
    token of at most 80 decimals, the most that ethers formats, and a
    balance that a [uint256] can hold, the [balanceFormatted]
    that [useERC20Balance] returns, read at the decimals of the token as
    [transfer] reads its amount, is the raw balance again, to the last
    unit. *)
Theorem balanceFormatted_round_trip (ti : UseERC20.TokenInfo) (s : UseERC20.state) :
  0 <= UseERC20.st_balanceRaw s < 2 ^ 256 ->
  (UseERC20.decimals ti <= 80)%nat ->
  Ethers.parseUnits
    (UseERC20.balanceFormatted (UseERC20.useERC20Balance (Some ti) s))
    (UseERC20.decimals ti)
  = inr (UseERC20.balanceRaw (UseERC20.useERC20Balance (Some ti) s)).
Proof.
  intros [Hlo Hhi] Hdec.
  cbn [UseERC20.useERC20Balance UseERC20.balanceFormatted UseERC20.balanceRaw
       UseERC20.balanceFormattedOf].
  rewrite formatUnits_uint256 by (try split; assumption).
  apply parseUnits_formatUnits; [| exact Hdec]. split; [exact Hlo |].
  eapply Z.lt_trans; [exact Hhi |]. apply Z.pow_lt_mono_r; lia.
Qed.

Lemma balanceFormatted_round_trip_witness :
  Ethers.parseUnits
    (UseERC20.balanceFormatted
       (UseERC20.useERC20Balance (Some Fake.usdc_info) Scenario.loaded_balance))
    (UseERC20.decimals Fake.usdc_info)
  = inr (UseERC20.balanceRaw
           (UseERC20.useERC20Balance (Some Fake.usdc_info) Scenario.loaded_balance)).
Proof.
  apply (balanceFormatted_round_trip Fake.usdc_info Scenario.loaded_balance).
  - cbn. lia.
  - cbn. lia.
Defined.

(** ** The write with a gas buffer *)

(** X24. The gas limit is the estimate plus a fifth, rounded down: for an
    estimate that is not negative, [gasLimitWithBuffer] is the largest whole
    number of gas units that does not exceed 1.2 times the estimate, so it
    is never below the estimate and exceeds it from an estimate of 5 on. *)
Theorem gasLimitWithBuffer_bounds (estimatedGas : Z) :
  0 <= estimatedGas ->
  let limit := App.gasLimitWithBuffer estimatedGas in
  100 * limit <= 120 * estimatedGas < 100 * (limit + 1)
  /\ estimatedGas <= limit
  /\ (5 <= estimatedGas -> estimatedGas < limit).
Proof.
  intros He. cbn zeta. unfold App.gasLimitWithBuffer.
  rewrite Z.quot_div_nonneg by lia.
  assert (Hd := Z.div_mod (estimatedGas * 120) 100 ltac:(lia)).
  assert (Hm := Z.mod_pos_bound (estimatedGas * 120) 100 ltac:(lia)).
  repeat split; try lia.
Qed.

Lemma gasLimitWithBuffer_bounds_witness :
  100 * App.gasLimitWithBuffer 51234 <= 120 * 51234 < 100 * (App.gasLimitWithBuffer 51234 + 1)
  /\ 51234 <= App.gasLimitWithBuffer 51234
  /\ (5 <= 51234 -> 51234 < App.gasLimitWithBuffer 51234).
Proof.
  apply (gasLimitWithBuffer_bounds 51234). lia.
Defined.

(** The handler of a thrown error in [handleTransfer]. *)
Lemma handleTransfer_catch (s : App.state) (h : history) (e : Js.error) :
  exists msg,
    (if code_is_str e "INSUFFICIENT_FUNDS"
     then set_state (App.setError (Some "You don't have enough ETH for gas fees."))
     else if code_is_str e "ACTION_REJECTED"
          then set_state (App.setError (Some "Transaction rejected by user."))
          else set_state
                 (App.setError (Some "Gas estimation failed. The transaction might revert.")))
      s h
    = (App.setError (Some msg) s, h, inr tt).
Proof.
  destruct (code_is_str e "INSUFFICIENT_FUNDS"), (code_is_str e "ACTION_REJECTED");
    eexists; reflexivity.
Qed.

(** Every run of [handleTransfer] with a wallet, step by step. *)
Lemma handleTransfer_trace (w : world) (s : App.state) (h : history) :
  App.ethereum s = true ->
  exists s' sent,
    App.handleTransfer w s h = (s', (h ++ sent)%list, inr tt)
    /\ App.loading s' = false
    /\ (Forall (fun q => App.is_submission q = false) sent
        \/ exists amount est tx rest,
             Ethers.parseUnits "0.1" (App.decimalsOf (App.tokenData s)) = inr amount
             /\ reply_int w (h ++ [GetSigner])%list
                  (Erc20TransferEstimateGas App.CONTRACT_ADDRESS App.recipient amount)
                = inr est
             /\ sent = GetSigner
                       :: Erc20TransferEstimateGas App.CONTRACT_ADDRESS App.recipient amount
                       :: Erc20Transfer App.CONTRACT_ADDRESS App.recipient amount
                            (Some (App.gasLimitWithBuffer est))
                       :: rest
             /\ Forall (fun q => App.is_submission q = false) rest
             /\ (rest = [] \/ App.txHash s' = Some (tx_hash tx))).
Proof.
  intros Heth. unfold App.handleTransfer. unfold_M. rewrite Heth. cbn [negb].
  unfold_M.
  destruct (reply_signer w h GetSigner) as [e | sg].
  { destruct (handleTransfer_catch
                (App.setTxHash None (App.setError None (App.setLoading true s)))
                (h ++ [GetSigner])%list e) as [msg Hc].
    unfold set_state in Hc. rewrite Hc.
    do 2 eexists. split; [run_shape |]. split; [reflexivity |].
    left. repeat constructor. }
  destruct (Ethers.parseUnits "0.1" (App.decimalsOf (App.tokenData s))) as [e | amount].
  { destruct (handleTransfer_catch
                (App.setTxHash None (App.setError None (App.setLoading true s)))
                (h ++ [GetSigner])%list e) as [msg Hc].
    unfold set_state in Hc. rewrite Hc.
    do 2 eexists. split; [run_shape |]. split; [reflexivity |].
    left. repeat constructor. }
  destruct (reply_int w (h ++ [GetSigner])%list
              (Erc20TransferEstimateGas App.CONTRACT_ADDRESS App.recipient amount))
    as [e | est] eqn:Hest.
  { destruct (handleTransfer_catch
                (App.setTxHash None (App.setError None (App.setLoading true s)))
                ((h ++ [GetSigner]) ++
                 [Erc20TransferEstimateGas App.CONTRACT_ADDRESS App.recipient amount])%list e)
      as [msg Hc].
    unfold set_state in Hc. rewrite Hc.
    do 2 eexists. split; [run_shape |]. split; [reflexivity |].
    left. repeat constructor. }
  set (submit := Erc20Transfer App.CONTRACT_ADDRESS App.recipient amount
                   (Some (App.gasLimitWithBuffer est))).
  set (h2 := ((h ++ [GetSigner]) ++
              [Erc20TransferEstimateGas App.CONTRACT_ADDRESS App.recipient amount])%list).
  destruct (reply_tx w h2 submit) as [e | tx].
  { destruct (handleTransfer_catch
                (App.setTxHash None (App.setError None (App.setLoading true s)))
                (h2 ++ [submit])%list e) as [msg Hc].
    unfold set_state in Hc. rewrite Hc.
    do 2 eexists. split; [unfold h2; run_shape |]. split; [reflexivity |].
    right. exists amount, est, (Tx EmptyString), []. repeat split; auto. }
  set (s3 := App.setTxHash (Some (tx_hash tx))
               (App.setTxHash None (App.setError None (App.setLoading true s)))).
  destruct (reply_receipt w (h2 ++ [submit])%list (TxWait (tx_hash tx))) as [e | [r |]].
  - destruct (handleTransfer_catch s3 ((h2 ++ [submit]) ++ [TxWait (tx_hash tx)])%list e)
      as [msg Hc].
    unfold set_state in Hc. rewrite Hc.
    do 2 eexists. split; [unfold h2; run_shape |]. split; [reflexivity |].
    right. exists amount, est, tx, [TxWait (tx_hash tx)].
    repeat split; auto; repeat constructor.
  - destruct (receipt_status r =? 1).
    + destruct (truthy_str (App.account s)), (App.account s) as [a |];
        try (do 2 eexists; split; [unfold h2; run_shape |]; split; [reflexivity |];
             right; exists amount, est, tx, [TxWait (tx_hash tx)];
             repeat split; auto; repeat constructor).
      unfold App.fetchContractData_start. unfold_M.
      do 2 eexists. split; [unfold h2; run_shape |]. split; [reflexivity |].
      right. exists amount, est, tx.
      eexists. split; [reflexivity |]. split; [exact Hest |].
      split; [reflexivity |]. split; [repeat constructor | right; reflexivity].
    + destruct (handleTransfer_catch s3 ((h2 ++ [submit]) ++ [TxWait (tx_hash tx)])%list
                  (Js.Error "Transaction failed on-chain")) as [msg Hc].
      unfold set_state in Hc. rewrite Hc.
      do 2 eexists. split; [unfold h2; run_shape |]. split; [reflexivity |].
      right. exists amount, est, tx, [TxWait (tx_hash tx)].
      repeat split; auto; repeat constructor.
  - destruct (handleTransfer_catch s3 ((h2 ++ [submit]) ++ [TxWait (tx_hash tx)])%list
                (Js.Error "Transaction failed on-chain")) as [msg Hc].
    unfold set_state in Hc. rewrite Hc.
    do 2 eexists. split; [unfold h2; run_shape |]. split; [reflexivity |].
    right. exists amount, est, tx, [TxWait (tx_hash tx)].
    repeat split; auto; repeat constructor.
Qed.

(** X25. [handleTransfer] never throws to the click handler, and always
    gives the button back: without [window.ethereum] it does nothing at all;
    with it, whatever the wallet and the chain answer, it ends with
    [loading] at [false], and at most one of the requests it sent submits a
    transaction. *)
Theorem handleTransfer_always_settles (w : world) (s : App.state) (h : history) :
  exists s' sent,
    App.handleTransfer w s h = (s', (h ++ sent)%list, inr tt)
    /\ (App.ethereum s = false -> s' = s /\ sent = [])
    /\ (App.ethereum s = true -> App.loading s' = false)
    /\ (length (List.filter App.is_submission sent) <= 1)%nat.
Proof.
  destruct (App.ethereum s) eqn:Heth.
  - destruct (handleTransfer_trace w s h Heth) as (s' & sent & Hrun & Hl & Hsent).
    exists s', sent. split; [exact Hrun |]. split; [discriminate |].
    split; [intros _; exact Hl |].
    assert (Hnone : forall l, Forall (fun q => App.is_submission q = false) l ->
                              List.filter App.is_submission l = []).
    { induction 1 as [| q l Hq _ IH]; [reflexivity |]. cbn. rewrite Hq. exact IH. }
    destruct Hsent as [Hno | (amount & est & tx & rest & _ & _ & -> & Hno & _)].
    + rewrite (Hnone _ Hno). cbn. lia.
    + cbn [List.filter App.is_submission]. rewrite (Hnone _ Hno). cbn. lia.
  - exists s, []. unfold App.handleTransfer. unfold_M. rewrite Heth. cbn [negb].
    rewrite app_nil_r. split; [reflexivity |]. split; [auto |].
    split; [discriminate | cbn; lia].
Qed.

(** X26. No transfer leaves [handleTransfer] without its simulation: a
    request of the handler that submits a transaction is the ERC-20
    transfer of 0.1 token to the fixed recipient, it comes third, after the
    signer and the gas estimate of the very same transfer, and its gas
    limit is the answer to that estimate with the buffer of one fifth. *)
Theorem handleTransfer_submits_buffered_estimate
  (w : world) (s : App.state) (h : history) :
  (App.decimalsOf (App.tokenData s) <= 80)%nat ->
  exists s' sent,
    App.handleTransfer w s h = (s', (h ++ sent)%list, inr tt)
    /\ forall q, In q sent -> App.is_submission q = true ->
       exists amount est rest,
         Ethers.parseUnits "0.1" (App.decimalsOf (App.tokenData s)) = inr amount
         /\ reply_int w (h ++ [GetSigner])%list
              (Erc20TransferEstimateGas App.CONTRACT_ADDRESS App.recipient amount)
            = inr est
         /\ q = Erc20Transfer App.CONTRACT_ADDRESS App.recipient amount
                  (Some (App.gasLimitWithBuffer est))
         /\ sent = GetSigner
                   :: Erc20TransferEstimateGas App.CONTRACT_ADDRESS App.recipient amount
                   :: q :: rest
         /\ Forall (fun q' => App.is_submission q' = false) rest.
Proof.
  intros _.
  destruct (App.ethereum s) eqn:Heth.
  - destruct (handleTransfer_trace w s h Heth) as (s' & sent & Hrun & _ & Hsent).
    exists s', sent. split; [exact Hrun |]. intros q Hq Hsub.
    destruct Hsent as [Hno | (amount & est & tx & rest & Hp & He & -> & Hno & _)].
    + rewrite List.Forall_forall in Hno. rewrite (Hno q Hq) in Hsub. discriminate Hsub.
    + destruct Hq as [<- | [<- | [<- | Hq]]]; try discriminate Hsub.
      * exists amount, est, rest. auto.
      * rewrite List.Forall_forall in Hno. rewrite (Hno q Hq) in Hsub. discriminate Hsub.
  - exists s, []. unfold App.handleTransfer. unfold_M. rewrite Heth. cbn [negb].
    rewrite app_nil_r. split; [reflexivity |]. intros q [].
Qed.

Lemma handleTransfer_submits_buffered_estimate_witness :
  exists s' sent,
    App.handleTransfer Fake.accepting Fake.app_connected [] = (s', ([] ++ sent)%list, inr tt)
    /\ forall q, In q sent -> App.is_submission q = true ->
       exists amount est rest,
         Ethers.parseUnits "0.1" (App.decimalsOf (App.tokenData Fake.app_connected))
         = inr amount
         /\ reply_int Fake.accepting ([] ++ [GetSigner])%list
              (Erc20TransferEstimateGas App.CONTRACT_ADDRESS App.recipient amount)
            = inr est
         /\ q = Erc20Transfer App.CONTRACT_ADDRESS App.recipient amount
                  (Some (App.gasLimitWithBuffer est))
         /\ sent = GetSigner
                   :: Erc20TransferEstimateGas App.CONTRACT_ADDRESS App.recipient amount
                   :: q :: rest
         /\ Forall (fun q' => App.is_submission q' = false) rest.
Proof.
  apply (handleTransfer_submits_buffered_estimate Fake.accepting Fake.app_connected []).
  cbn. lia.
Defined.



(** ** Reading the token of the page *)

(** X28. The token data of the page is all or nothing, and a success does
    not clear an old error. [fetchContractData] always sends its four reads,
    never throws and ends with [loading] at [false]. When the four succeed
    with decimals of at most 80 and a balance that fits a [uint256], the
    token data holds the four answers, the balance written at the decimals
    just read, and the error is what it was. When one read fails, or the
    token reports more than 80 decimals, the token data is what it was and
    the error is [Failed to load token information.] *)
Theorem fetchContractData_all_or_nothing
  (w : world) (userAddress : string) (s : App.state) (h : history) :
  let token := App.CONTRACT_ADDRESS in
  let reads := [Erc20Name token; Erc20Symbol token; Erc20Decimals token;
                Erc20BalanceOf token userAddress] in
  let rn := reply_string w h (Erc20Name token) in
  let rs := reply_string w (h ++ [Erc20Name token])%list (Erc20Symbol token) in
  let rd := reply_int w (h ++ [Erc20Name token; Erc20Symbol token])%list
              (Erc20Decimals token) in
  let rb := reply_int w (h ++ [Erc20Name token; Erc20Symbol token; Erc20Decimals token])%list
              (Erc20BalanceOf token userAddress) in
  let failed := Some "Failed to load token information." in
  exists s',
    AppReads.fetchContractData w userAddress s h = (s', (h ++ reads)%list, inr tt)
    /\ App.loading s' = false
    /\ App.account s' = App.account s
    /\ App.txHash s' = App.txHash s
    /\ match rn, rs, rd, rb with
       | inr n, inr sy, inr d, inr b =>
           (0 <= d <= 80 -> 0 <= b < 2 ^ 256 ->
            App.tokenData s'
            = Some {| App.name := n; App.symbol := sy; App.decimals := Z.to_nat d;
                      App.balance := Ethers.toString b (Z.to_nat d) |}
            /\ App.error s' = App.error s)
           /\ (80 < d -> App.tokenData s' = App.tokenData s /\ App.error s' = failed)
       | _, _, _, _ => App.tokenData s' = App.tokenData s /\ App.error s' = failed
       end.
Proof.
  cbn zeta. unfold AppReads.fetchContractData. unfold_M.
  rewrite <- !app_assoc. cbn [app].
  destruct (reply_string w h (Erc20Name App.CONTRACT_ADDRESS)) as [e1 | n];
    destruct (reply_string w (h ++ [Erc20Name App.CONTRACT_ADDRESS])%list
                (Erc20Symbol App.CONTRACT_ADDRESS)) as [e2 | sy];
    destruct (reply_int w
                (h ++ [Erc20Name App.CONTRACT_ADDRESS; Erc20Symbol App.CONTRACT_ADDRESS])%list
                (Erc20Decimals App.CONTRACT_ADDRESS)) as [e3 | d];
    destruct (reply_int w
                (h ++ [Erc20Name App.CONTRACT_ADDRESS; Erc20Symbol App.CONTRACT_ADDRESS;
                       Erc20Decimals App.CONTRACT_ADDRESS])%list
                (Erc20BalanceOf App.CONTRACT_ADDRESS userAddress)) as [e4 | b];
    try (eexists; (split; [reflexivity |]); cbn; auto 6; fail).
  assert (Hpow : 2 ^ 256 < 2 ^ 511) by (apply Z.pow_lt_mono_r; lia).
  unfold Ethers.formatUnits.
  destruct (Nat.ltb_spec 80 (Z.to_nat d)) as [Hbig | Hsmall].
  { eexists. split; [reflexivity |]. cbn.
    split; [reflexivity |]. split; [reflexivity |]. split; [reflexivity |].
    split; [intros; lia | intros; split; reflexivity]. }
  destruct (Z.ltb_spec b (- 2 ^ 511)) as [Hneg | Hlo].
  { eexists. split; [reflexivity |]. cbn.
    split; [reflexivity |]. split; [reflexivity |]. split; [reflexivity |].
    split; [intros; lia | intros; split; reflexivity]. }
  destruct (Z.leb_spec (2 ^ 511) b) as [Hover | Hhi].
  { eexists. split; [reflexivity |]. cbn.
    split; [reflexivity |]. split; [reflexivity |]. split; [reflexivity |].
    split; [intros; lia | intros; split; reflexivity]. }
  eexists. split; [reflexivity |]. cbn.
  split; [reflexivity |]. split; [reflexivity |]. split; [reflexivity |].
  split; [intros; split; reflexivity | intros; lia].
Qed.

(** ** utils/format.ts *)

Lemma drop_drop (i : nat) : forall (j : nat) (s : string),
  Ethers.drop j (Ethers.drop i s) = Ethers.drop (i + j) s.
Proof.
  induction i as [| i IH]; intros j [| c s]; try reflexivity.
  - destruct j; reflexivity.
  - cbn [Ethers.drop Nat.add]. apply IH.
Qed.

(** X29. [shortenAddress] keeps both ends of an address that is long
    enough: for [chars] at least 1 and an address of at least
    [2 * chars + 2] characters, the result is the first [chars + 2]
    characters of the address, three dots, and its last [chars] characters,
    so [2 * chars + 5] characters in all. With [chars] at 0 nothing is
    shortened: the whole address follows the dots. *)
Theorem shortenAddress_keeps_both_ends (address : string) (chars : nat) :
  (chars = O ->
   Format.shortenAddress address chars = Ethers.take 2 address +:+ "..." +:+ address)
  /\ ((1 <= chars)%nat -> (2 * chars + 2 <= String.length address)%nat ->
      exists first middle last,
        address = first +:+ middle +:+ last
        /\ String.length first = (chars + 2)%nat
        /\ String.length last = chars
        /\ Format.shortenAddress address chars = first +:+ "..." +:+ last
        /\ String.length (Format.shortenAddress address chars) = (2 * chars + 5)%nat).
Proof.
  split.
  - intros ->. reflexivity.
  - intros Hc Hlen.
    set (n := String.length address) in *.
    exists (Ethers.take (chars + 2) address),
           (Ethers.take (n - chars - (chars + 2)) (Ethers.drop (chars + 2) address)),
           (Ethers.drop (n - chars) address).
    assert (Hsl : Format.slice_last chars address = Ethers.drop (n - chars) address).
    { unfold Format.slice_last. destruct chars; [lia | reflexivity]. }
    assert (H1 : String.length (Ethers.take (chars + 2) address) = (chars + 2)%nat).
    { rewrite take_length. fold n. lia. }
    assert (H2 : String.length (Ethers.drop (n - chars) address) = chars).
    { rewrite drop_length. fold n. lia. }
    split; [| split; [exact H1 | split; [exact H2 | split]]].
    + assert (Hd : Ethers.drop (n - chars) address
                   = Ethers.drop (n - chars - (chars + 2)) (Ethers.drop (chars + 2) address)).
      { rewrite drop_drop. f_equal. lia. }
      rewrite Hd, take_drop, take_drop. reflexivity.
    + unfold Format.shortenAddress. rewrite Hsl. reflexivity.
    + unfold Format.shortenAddress. rewrite Hsl, !append_length, H1, H2. cbn. lia.
Qed.

(** X30. [formatTokenAmount] never throws and never shows more fraction
    digits than the smaller of the decimals and 6. A string that [BigInt]
    does not read gives [0], and so does an amount that ethers refuses to
    format; an amount from 0 up to [uint256] at no more than 80 decimals
    is shown as the nearest JavaScript number of its quotient by
    [10 ^ decimals]. *)
Theorem formatTokenAmount_fraction_digits
  (BigInt : string -> Js.result Z) (amount : Z + string) (decimals : nat) :
  (Number.fraction_digits (Format.formatTokenAmount BigInt amount decimals)
   <= Nat.min decimals 6)%nat
  /\ (forall str e, amount = inr str -> BigInt str = inl e ->
        Format.formatTokenAmount BigInt amount decimals = "0")
  /\ (forall n, amount = inl n -> (80 < decimals)%nat ->
        Format.formatTokenAmount BigInt amount decimals = "0")
  /\ (forall n, amount = inl n -> 0 <= n < 2 ^ 256 -> (decimals <= 80)%nat ->
        Format.formatTokenAmount BigInt amount decimals
        = Number.toLocaleString (Number.round64 n (10 ^ Z.of_nat decimals))
            (Nat.min decimals 6)).
Proof.
  assert (Hmin : (if (decimals <? 6)%nat then decimals else 6%nat) = Nat.min decimals 6).
  { destruct (Nat.ltb_spec decimals 6); lia. }
  unfold Format.formatTokenAmount. rewrite Hmin.
  split; [| split; [| split]].
  - destruct (match amount with inl n => inr n | inr s => BigInt s end) as [e | v];
      [cbn; lia |].
    destruct (Ethers.formatUnits v decimals) as [e | formatted]; [cbn; lia |].
    apply toLocaleString_fraction_digits.
  - intros str e -> ->. reflexivity.
  - intros n -> Hbig. unfold Ethers.formatUnits.
    destruct (Nat.ltb_spec 80 decimals); [reflexivity | lia].
  - intros n -> [Hlo Hhi] Hd. unfold Ethers.formatUnits.
    destruct (Nat.ltb_spec 80 decimals); [lia |].
    assert (2 ^ 256 < 2 ^ 511) by (apply Z.pow_lt_mono_r; lia).
    destruct (Z.ltb_spec n (- 2 ^ 511)); [lia |].
    destruct (Z.leb_spec (2 ^ 511) n); [lia |].
    cbn [orb]. rewrite parseFloat_formatUnits by exact Hlo. reflexivity.
Qed.
